(** * Health-check probes: network ping check and database health check

    A shallow embedding of [scripts/templates/network_ping_check.py] and
    [scripts/templates/database_health_check.py], followed by the
    properties of their parameter resolution, probe execution, result
    aggregation and exit status.

    Conventions of the embedding.
    - Python [int] is [Z]; Python [str] is [string], read as a sequence of
      code points below 256.
    - Python [float] is [PyFloat]: the exact rational a literal denotes (no
      binary64 rounding), or an infinity, or NaN.
    - A Python exception is a value of [Exn]; code that can raise returns
      [Exc A]; code that mutates a dictionary and can raise runs in the
      monad [M], whose state survives a raised exception, as a mutated
      Python object does.
    - External collaborators (the environment, the ping subprocess, the
      database driver, the clock, the report file) are parameters. *)

From Stdlib Require Import ZArith QArith List String Ascii Bool Lia.
From Stdlib Require Import DecimalString DecimalPos Sorting.Sorted Permutation.
Import ListNotations.

Local Close Scope Q_scope.
Local Open Scope Z_scope.
Local Open Scope list_scope.
Local Open Scope string_scope.

(* ===================================================================== *)
(** ** Python primitives used by the two scripts *)
(* ===================================================================== *)

Module Py.

(** Exceptions, by class, with the text [str(e)] gives. *)
Inductive Exn : Type :=
| ValueError (msg : string)
| IndexError (msg : string)
| TypeError (msg : string)
| ZeroDivisionError (msg : string)
| ImportError (msg : string)
| TimeoutExpired
| OtherError (msg : string).

Definition exn_str (e : Exn) : string :=
  match e with
  | ValueError m | IndexError m | TypeError m | ZeroDivisionError m
  | ImportError m | OtherError m => m
  | TimeoutExpired => "timed out"
  end.

(** [Exc A]: a computation that returns or raises. *)
Definition Exc (A : Type) : Type := (Exn + A)%type.
Definition ok {A} (a : A) : Exc A := inr a.
Definition throw {A} (e : Exn) : Exc A := inl e.

Definition ebind {A B} (c : Exc A) (k : A -> Exc B) : Exc B :=
  match c with inl e => inl e | inr a => k a end.

(** *** Characters and strings *)

(** [str.isspace] on code points below 256. *)
Definition is_space (c : ascii) : bool :=
  let n := nat_of_ascii c in
  ((9 <=? n) && (n <=? 13) || (28 <=? n) && (n <=? 32)
   || (n =? 133) || (n =? 160))%nat.

Definition is_digit (c : ascii) : bool :=
  let n := nat_of_ascii c in ((48 <=? n) && (n <=? 57))%nat.

Definition digit_val (c : ascii) : option Z :=
  if is_digit c then Some (Z.of_nat (nat_of_ascii c) - 48) else None.

(** [str.lower] and [str.upper] on ASCII letters (every string the scripts
    pass to them is compared with, or built from, an ASCII literal). *)
Definition lower_char (c : ascii) : ascii :=
  let n := nat_of_ascii c in
  if ((65 <=? n) && (n <=? 90))%nat then ascii_of_nat (n + 32) else c.

Definition upper_char (c : ascii) : ascii :=
  let n := nat_of_ascii c in
  if ((97 <=? n) && (n <=? 122))%nat then ascii_of_nat (n - 32) else c.

Fixpoint map_str (f : ascii -> ascii) (s : string) : string :=
  match s with
  | EmptyString => EmptyString
  | String c r => String (f c) (map_str f r)
  end.

Definition lower : string -> string := map_str lower_char.
Definition upper : string -> string := map_str upper_char.

(** Truth value of a string: [bool(s)]. *)
Definition nonempty (s : string) : bool :=
  match s with EmptyString => false | _ => true end.

Fixpoint lstrip (s : string) : string :=
  match s with
  | EmptyString => EmptyString
  | String c r => if is_space c then lstrip r else s
  end.

Fixpoint rstrip (s : string) : string :=
  match s with
  | EmptyString => EmptyString
  | String c r =>
      match rstrip r with
      | EmptyString => if is_space c then EmptyString else String c EmptyString
      | r' => String c r'
      end
  end.

(** [s.strip()] *)
Definition strip (s : string) : string := rstrip (lstrip s).

(** [s.split(sep)] for a one-character separator. *)
Fixpoint split_on (sep : ascii) (s : string) : list string :=
  match s with
  | EmptyString => [EmptyString]
  | String c r =>
      if Ascii.eqb c sep then EmptyString :: split_on sep r
      else match split_on sep r with
           | h :: t => String c h :: t
           | [] => [String c EmptyString]
           end
  end.

Definition cons_word (w : string) (ws : list string) : list string :=
  if nonempty w then w :: ws else ws.

Fixpoint words_from (s : string) : string * list string :=
  match s with
  | EmptyString => (EmptyString, [])
  | String c r =>
      let (w, ws) := words_from r in
      if is_space c then (EmptyString, cons_word w ws) else (String c w, ws)
  end.

(** [s.split()]: maximal runs of non-whitespace. *)
Definition split_ws (s : string) : list string :=
  let (w, ws) := words_from s in cons_word w ws.

(** [needle in hay] *)
Fixpoint contains (needle hay : string) : bool :=
  if prefix needle hay then true
  else match hay with
       | EmptyString => false
       | String _ r => contains needle r
       end.

(** [s.replace(old, new)] for a non-empty [old]: occurrences are replaced
    left to right without overlap; [skip] counts the characters of a match
    still to be dropped. *)
Fixpoint replace_from (old new : string) (skip : nat) (s : string) : string :=
  match s with
  | EmptyString => EmptyString
  | String c r =>
      match skip with
      | S k => replace_from old new k r
      | O => if prefix old s
             then new ++ replace_from old new (String.length old - 1) r
             else String c (replace_from old new 0 r)
      end
  end.

Definition replace (old new s : string) : string := replace_from old new 0 s.

(** [l[i]] on a list: [IndexError] out of range. *)
Definition index {A} (l : list A) (i : nat) : Exc A :=
  match nth_error l i with
  | Some a => ok a
  | None => throw (IndexError "list index out of range")
  end.

(** [str(n)] for an integer. *)
Definition str_of_int (z : Z) : string := NilZero.string_of_int (Z.to_int z).

(** [repr(s)] for a string without quotes, backslashes or control
    characters (it is only used inside exception messages). *)
Definition repr_str (s : string) : string := "'" ++ s ++ "'".

Fixpoint join (sep : string) (l : list string) : string :=
  match l with
  | [] => ""
  | [x] => x
  | x :: r => x ++ sep ++ join sep r
  end.

(** *** Numbers *)

(** A run of digits with single underscores between digits, as [int] and
    [float] accept it.  [scan_digits acc n s] continues after at least one
    digit and returns the value, the number of digits and the rest. *)
Fixpoint scan_digits (acc : Z) (n : nat) (s : string) : Z * nat * string :=
  match s with
  | EmptyString => (acc, n, s)
  | String c r =>
      match digit_val c with
      | Some d => scan_digits (10 * acc + d) (S n) r
      | None =>
          if Ascii.eqb c "_" then
            match r with
            | String c2 r2 =>
                match digit_val c2 with
                | Some d2 => scan_digits (10 * acc + d2) (S n) r2
                | None => (acc, n, s)
                end
            | EmptyString => (acc, n, s)
            end
          else (acc, n, s)
      end
  end.

(** A digit part at the head of [s], if there is one. *)
Definition digitpart (s : string) : option (Z * nat * string) :=
  match s with
  | String c r =>
      match digit_val c with
      | Some d => Some (scan_digits d 1 r)
      | None => None
      end
  | EmptyString => None
  end.

(** An optional sign: [true] for minus. *)
Definition sign (s : string) : bool * string :=
  match s with
  | String "-" r => (true, r)
  | String "+" r => (false, r)
  | _ => (false, s)
  end.

(** The whitespace [int] and [float] skip around a number, on code points
    below 256: the ASCII blanks, and NEL and the no-break space, which a
    string that is not ASCII has turned into blanks first.  The separators
    28 to 31, which [str.strip] removes, are not among them. *)
Definition is_blank (c : ascii) : bool :=
  let n := nat_of_ascii c in
  ((9 <=? n) && (n <=? 13) || (n =? 32) || (n =? 133) || (n =? 160))%nat.

Fixpoint ltrim (s : string) : string :=
  match s with
  | EmptyString => EmptyString
  | String c r => if is_blank c then ltrim r else s
  end.

Fixpoint rtrim (s : string) : string :=
  match s with
  | EmptyString => EmptyString
  | String c r =>
      match rtrim r with
      | EmptyString => if is_blank c then EmptyString else String c EmptyString
      | r' => String c r'
      end
  end.

Definition trim (s : string) : string := rtrim (ltrim s).

(** The most digits [int] reads: the default of
    [sys.get_int_max_str_digits()]. *)
Definition max_str_digits : Z := 4300.

Definition starts_with_underscore (s : string) : bool :=
  match s with
  | String c _ => Ascii.eqb c "_"
  | EmptyString => false
  end.

(** What [int] makes of a string: a value, a numeral with too many digits,
    or no numeral.  The count of the digits comes before what follows
    them; a misplaced underscore comes before the count. *)
Inductive IntText : Type :=
| IntValue (z : Z)
| IntTooLong (digits : nat)
| IntInvalid.

Definition read_int (s : string) : IntText :=
  let (neg, r) := sign (trim s) in
  match digitpart r with
  | Some (v, n, rest) =>
      if starts_with_underscore rest then IntInvalid
      else if (max_str_digits <? Z.of_nat n)%Z then IntTooLong n
      else match rest with
           | EmptyString => IntValue (if neg then - v else v)
           | _ => IntInvalid
           end
  | None => IntInvalid
  end.

Definition parse_int (s : string) : option Z :=
  match read_int s with
  | IntValue z => Some z
  | _ => None
  end.

(** [int(s)] for a string. *)
Definition int_of_str (s : string) : Exc Z :=
  match read_int s with
  | IntValue z => ok z
  | IntTooLong n =>
      throw (ValueError
               ("Exceeds the limit (4300 digits) for integer string conversion: "
                ++ "value has " ++ str_of_int (Z.of_nat n)
                ++ " digits; use sys.set_int_max_str_digits() to increase the limit"))
  | IntInvalid =>
      throw (ValueError ("invalid literal for int() with base 10: " ++ repr_str s))
  end.

(** Python floats: the rational value of a binary64, an infinity, or not
    a number. *)
Inductive PyFloat : Type :=
| FNum (q : Q)
| FInf (neg : bool)
| FNan.

(** [n / d] rounded to the nearest integer, ties to the even one. *)
Definition nearest_even (n d : Z) : Z :=
  let f := (n / d)%Z in
  let r := (n mod d)%Z in
  if (2 * r <? d)%Z then f
  else if (d <? 2 * r)%Z then f + 1
  else if Z.even f then f else f + 1.

(** The exponent of the highest bit of [n / d], both positive. *)
Definition floor_log2 (n d : Z) : Z :=
  let e := (Z.log2 n - Z.log2 d)%Z in
  if (0 <=? e)%Z
  then (if (d * 2 ^ e <=? n)%Z then e else e - 1)
  else (if (d <=? n * 2 ^ (- e))%Z then e else e - 1).

(** The binary64 nearest to a rational, ties to even, as [float] rounds a
    decimal text: 53 bits above the unit [2^p], which is never below
    [2^-1074]; from [2^1024] on the result is an infinity.  A rational that
    is a binary64 is returned as it is written. *)
Definition binary64 (q : Q) : PyFloat :=
  let n := Z.abs (Qnum q) in
  let d := Zpos (Qden q) in
  if (n =? 0)%Z then FNum q
  else
    let e := floor_log2 n d in
    let p := Z.max (e - 52) (- 1074) in
    let m := if (p <? 0)%Z then nearest_even (n * 2 ^ (- p)) d
             else nearest_even n (d * 2 ^ p) in
    if (0 <=? p)%Z && (2 ^ 1024 <=? m * 2 ^ p)%Z then FInf (Qnum q <? 0)%Z
    else
      let s := if (Qnum q <? 0)%Z then (- m)%Z else m in
      let v := if (p <? 0)%Z then Qmake s (Z.to_pos (2 ^ (- p)))
               else inject_Z (s * 2 ^ p) in
      if Qeq_bool v q then FNum q else FNum (Qred v).

Definition pow10 (n : nat) : Z := 10 ^ Z.of_nat n.

(** The value of [m * 10^e]. *)
Definition scale10 (m : Q) (e : Z) : Q :=
  if (e <? 0)%Z then Qdiv m (inject_Z (10 ^ (- e))) else Qmult m (inject_Z (10 ^ e)).

(** The exponent part ([e] or [E], sign, digits) or nothing; then the end. *)
Definition exponent (s : string) : option Z :=
  match s with
  | EmptyString => Some 0
  | String c r =>
      if Ascii.eqb (lower_char c) "e" then
        let (neg, r') := sign r in
        match digitpart r' with
        | Some (v, _, EmptyString) => Some (if neg then - v else v)
        | _ => None
        end
      else None
  end.

(** The fraction after a point: its digits (possibly none) and the rest. *)
Definition fraction (s : string) : Z * nat * string :=
  match digitpart s with
  | Some x => x
  | None => (0, 0%nat, s)
  end.

Definition mantissa (ip : Z) (fp : Z) (nf : nat) : Q :=
  Qplus (inject_Z ip) (Qdiv (inject_Z fp) (inject_Z (pow10 nf))).

Definition parse_decimal (s : string) : option Q :=
  match digitpart s with
  | Some (ip, _, String "." r) =>
      let '(fp, nf, r') := fraction r in
      option_map (scale10 (mantissa ip fp nf)) (exponent r')
  | Some (ip, _, r) => option_map (scale10 (inject_Z ip)) (exponent r)
  | None =>
      match s with
      | String "." r =>
          match digitpart r with
          | Some (fp, nf, r') => option_map (scale10 (mantissa 0 fp nf)) (exponent r')
          | None => None
          end
      | _ => None
      end
  end.

Definition parse_float (s : string) : option PyFloat :=
  let (neg, r) := sign (trim s) in
  let w := lower r in
  if String.eqb w "inf" || String.eqb w "infinity" then Some (FInf neg)
  else if String.eqb w "nan" then Some FNan
  else option_map (fun q => binary64 (if neg then Qopp q else q)) (parse_decimal r).

(** [float(s)] for a string. *)
Definition float_of_str (s : string) : Exc PyFloat :=
  match parse_float s with
  | Some f => ok f
  | None => throw (ValueError ("could not convert string to float: " ++ repr_str s))
  end.

(** [x < 100] and the truth value of a float. *)
Definition float_ltb (f : PyFloat) (q : Q) : bool :=
  match f with
  | FNum x => negb (Qle_bool q x)
  | FInf neg => neg
  | FNan => false
  end.

Definition float_truthy (f : PyFloat) : bool :=
  match f with
  | FNum x => negb (Qeq_bool x (inject_Z 0))
  | _ => true
  end.

(** [a / b] on integers: true division raises on zero. *)
Definition true_div (a b : Z) : Exc Q :=
  if (b =? 0)%Z then throw (ZeroDivisionError "division by zero")
  else ok (Qdiv (inject_Z a) (inject_Z b)).

(** *** Dynamically typed values *)

(** The values a parameter or its default can be. *)
Inductive PyVal : Type :=
| PNone
| PInt (z : Z)
| PBool (b : bool)
| PStr (s : string)
| PList (l : list string).

(** [int(v)]: only a bad string raises [ValueError]. *)
Definition py_int (v : PyVal) : Exc Z :=
  match v with
  | PInt z => ok z
  | PBool b => ok (if b then 1 else 0)
  | PStr s => int_of_str s
  | PNone => throw (TypeError "int() argument must be a string or a real number, not 'NoneType'")
  | PList _ => throw (TypeError "int() argument must be a string or a real number, not 'list'")
  end.

(** [str(v)] *)
Definition py_str (v : PyVal) : string :=
  match v with
  | PNone => "None"
  | PInt z => str_of_int z
  | PBool b => if b then "True" else "False"
  | PStr s => s
  | PList l => "[" ++ join ", " (map repr_str l) ++ "]"
  end.

(** The integer or string a variable holds; a value of another type would
    make the arithmetic or the string method on it raise [TypeError]. *)
Definition as_int (v : PyVal) : Exc Z :=
  match v with
  | PInt z => ok z
  | PBool b => ok (if b then 1 else 0)
  | _ => throw (TypeError "unsupported operand type")
  end.

Definition as_str (v : PyVal) : Exc string :=
  match v with
  | PStr s => ok s
  | _ => throw (TypeError "object has no attribute 'split'")
  end.

(** *** State that survives an exception *)

(** A computation over a mutable object of type [S]: it returns or raises,
    and either way leaves the object as mutated so far. *)
Definition M (S A : Type) : Type := S -> Exc A * S.

Definition ret {S A} (a : A) : M S A := fun s => (ok a, s).
Definition raise {S A} (e : Exn) : M S A := fun s => (throw e, s).
Definition lift {S A} (c : Exc A) : M S A := fun s => (c, s).
Definition modify {S} (f : S -> S) : M S unit := fun s => (ok tt, f s).

Definition bind {S A B} (c : M S A) (k : A -> M S B) : M S B :=
  fun s => match c s with
           | (inl e, s') => (inl e, s')
           | (inr a, s') => k a s'
           end.

(** [for x in l: body(x)] *)
Fixpoint for_each {S A} (l : list A) (body : A -> M S unit) : M S unit :=
  match l with
  | [] => ret tt
  | x :: r => bind (body x) (fun _ => for_each r body)
  end.

End Py.

Import Py.

Declare Scope py_scope.
Delimit Scope py_scope with py.
Notation "x <- c ;; k" := (bind c (fun x => k))
  (at level 61, c at next level, right associativity) : py_scope.
Notation "c ;; k" := (bind c (fun _ => k))
  (at level 61, right associativity) : py_scope.
Notation "x <~ c ;; k" := (ebind c (fun x => k))
  (at level 61, c at next level, right associativity) : py_scope.
Local Open Scope py_scope.

(* ===================================================================== *)
(** ** Parameter resolution *)
(* ===================================================================== *)

(** The process environment, [os.environ]. *)
Definition Env : Type := string -> option string.

(** [env_name = f"PARAM_{name.upper()}"] *)
Definition env_name (name : string) : string := "PARAM_" ++ upper name.

(** [os.environ.get(key, default)] *)
Definition environ_get (env : Env) (key : string) (default : PyVal) : PyVal :=
  match env key with
  | Some s => PStr s
  | None => default
  end.

(** The [param_type] argument: [int], [bool], [list], or anything else
    ([str] is the default). *)
Inductive PType : Type := TStr | TInt | TBool | TList.

(** [str(value).lower() in ('true', '1', 'yes', 'on')] *)
Definition truthy_text (v : PyVal) : bool :=
  existsb (String.eqb (lower (py_str v))) ["true"; "1"; "yes"; "on"].

(** [try: return int(value) except ValueError: return default] *)
Definition int_or_default (value default : PyVal) : Exc PyVal :=
  match py_int value with
  | inr z => ok (PInt z)
  | inl (ValueError _) => ok default
  | inl e => throw e
  end.

(** [[item.strip() for item in s.split(',') if item.strip()]] *)
Definition split_items (s : string) : list string :=
  filter nonempty (map strip (split_on "," s)).

(* ===================================================================== *)
(** ** network_ping_check.py *)
(* ===================================================================== *)

Module Ping.

(** [get_parameter(name, default, param_type)] *)
Definition get_parameter (env : Env) (name : string) (default : PyVal)
    (param_type : PType) : Exc PyVal :=
  let value := environ_get env (env_name name) default in
  match value with
  | PNone => ok PNone
  | _ =>
      match param_type with
      | TInt => int_or_default value default
      | TBool => ok (PBool (truthy_text value))
      | TList =>
          match value with
          | PStr s => ok (PList (split_items s))
          | _ => ok value
          end
      | TStr => ok value
      end
  end.

(** [packet_loss_percent] starts as the integer 100 and is overwritten by
    a float. *)
Inductive Num : Type :=
| NInt (z : Z)
| NFloat (f : PyFloat).

(** The dictionary [ping_host] builds. *)
Record PingResult : Type := mkPingResult {
  host : string;
  success : bool;
  packets_sent : Z;
  packets_received : Z;
  packet_loss_percent : Num;
  min_time : option PyFloat;
  avg_time : option PyFloat;
  max_time : option PyFloat;
  error : option string
}.

Definition initial_result (h : string) : PingResult :=
  mkPingResult h false 0 0 (NInt 100) None None None None.

Definition set_success (b : bool) (r : PingResult) : PingResult :=
  mkPingResult (host r) b (packets_sent r) (packets_received r)
    (packet_loss_percent r) (min_time r) (avg_time r) (max_time r) (error r).
Definition set_packets_sent (z : Z) (r : PingResult) : PingResult :=
  mkPingResult (host r) (success r) z (packets_received r)
    (packet_loss_percent r) (min_time r) (avg_time r) (max_time r) (error r).
Definition set_packets_received (z : Z) (r : PingResult) : PingResult :=
  mkPingResult (host r) (success r) (packets_sent r) z
    (packet_loss_percent r) (min_time r) (avg_time r) (max_time r) (error r).
Definition set_packet_loss_percent (f : PyFloat) (r : PingResult) : PingResult :=
  mkPingResult (host r) (success r) (packets_sent r) (packets_received r)
    (NFloat f) (min_time r) (avg_time r) (max_time r) (error r).
Definition set_min_time (f : PyFloat) (r : PingResult) : PingResult :=
  mkPingResult (host r) (success r) (packets_sent r) (packets_received r)
    (packet_loss_percent r) (Some f) (avg_time r) (max_time r) (error r).
Definition set_avg_time (f : PyFloat) (r : PingResult) : PingResult :=
  mkPingResult (host r) (success r) (packets_sent r) (packets_received r)
    (packet_loss_percent r) (min_time r) (Some f) (max_time r) (error r).
Definition set_max_time (f : PyFloat) (r : PingResult) : PingResult :=
  mkPingResult (host r) (success r) (packets_sent r) (packets_received r)
    (packet_loss_percent r) (min_time r) (avg_time r) (Some f) (error r).
Definition set_error (m : string) (r : PingResult) : PingResult :=
  mkPingResult (host r) (success r) (packets_sent r) (packets_received r)
    (packet_loss_percent r) (min_time r) (avg_time r) (max_time r) (Some m).

(** *** Parsing the tool's output *)

(** [part.split('=')[1]] and the like. *)
Definition field (sep : ascii) (i : nat) (s : string) : Exc string :=
  index (split_on sep s) i.

(** Windows: ["Packets: Sent = 4, Received = 4, Lost = 0 (0% loss)"] *)
Definition parse_packets_nt (line : string) : M PingResult unit :=
  if contains "Sent" line && contains "Received" line then
    for_each (split_on "," line) (fun part =>
      let part := strip part in
      if contains "Sent" part then
        v <- lift (s <~ field "=" 1 part ;; int_of_str (strip s)) ;;
        modify (set_packets_sent v)
      else if contains "Received" part then
        v <- lift (s <~ field "=" 1 part ;; int_of_str (strip s)) ;;
        modify (set_packets_received v)
      else if contains "loss" part && contains "(" part then
        v <- lift (s <~ field "(" 1 part ;;
                   loss_str <~ field "%" 0 s ;;
                   float_of_str loss_str) ;;
        modify (set_packet_loss_percent v)
      else ret tt)
  else ret tt.

(** Unix: ["4 packets transmitted, 4 received, 0% packet loss"] *)
Definition parse_packets_unix (line : string) : M PingResult unit :=
  let parts := split_on "," line in
  if (3 <=? List.length parts)%nat then
    sent <- lift (p <~ index parts 0 ;; w <~ index (split_ws p) 0 ;; int_of_str w) ;;
    modify (set_packets_sent sent) ;;
    recv <- lift (p <~ index parts 1 ;; w <~ index (split_ws p) 0 ;; int_of_str w) ;;
    modify (set_packets_received recv) ;;
    loss <- lift (p <~ index parts 2 ;;
                  s <~ field "%" 0 (strip p) ;;
                  float_of_str s) ;;
    modify (set_packet_loss_percent loss)
  else ret tt.

(** [float(part.split('=')[1].replace('ms', '').strip())] *)
Definition ms_value (part : string) : Exc PyFloat :=
  s <~ field "=" 1 part ;; float_of_str (strip (replace "ms" "" s)).

(** Windows: ["Minimum = 1ms, Maximum = 2ms, Average = 1ms"] *)
Definition parse_times_nt (line : string) : M PingResult unit :=
  for_each (split_on "," line) (fun part =>
    let part := strip part in
    if contains "Minimum" part then
      v <- lift (ms_value part) ;; modify (set_min_time v)
    else if contains "Maximum" part then
      v <- lift (ms_value part) ;; modify (set_max_time v)
    else if contains "Average" part then
      v <- lift (ms_value part) ;; modify (set_avg_time v)
    else ret tt).

(** Unix: ["rtt min/avg/max/mdev = 1.234/2.345/3.456/0.567 ms"] *)
Definition parse_times_unix (line : string) : M PingResult unit :=
  if contains "=" line then
    times_part <- lift (s <~ field "=" 1 line ;; ok (strip s)) ;;
    let times := firstn 3 (split_on "/" times_part) in
    if (3 <=? List.length times)%nat then
      v0 <- lift (t <~ index times 0 ;; float_of_str t) ;;
      modify (set_min_time v0) ;;
      v1 <- lift (t <~ index times 1 ;; float_of_str t) ;;
      modify (set_avg_time v1) ;;
      v2 <- lift (t <~ index times 2 ;; float_of_str t) ;;
      modify (set_max_time v2)
    else ret tt
  else ret tt.

Definition is_packet_line (line : string) : bool :=
  contains "packets transmitted" line || contains "Packets: Sent" line.

Definition is_timing_line (line : string) : bool :=
  contains "min/avg/max" line || contains "Minimum/Maximum/Average" line.

(** The body of [for line in lines]; [nt] is [os.name == 'nt']. *)
Definition parse_line (nt : bool) (line : string) : M PingResult unit :=
  let line := strip line in
  if is_packet_line line then
    if nt then parse_packets_nt line else parse_packets_unix line
  else if is_timing_line line then
    if nt then parse_times_nt line else parse_times_unix line
  else ret tt.

Definition parse_output (nt : bool) (output : string) : M PingResult unit :=
  for_each (split_on "010" output) (parse_line nt).

(** *** Running the tool *)

(** What [subprocess.run] does: it returns a completed process, or raises
    ([TimeoutExpired] when the time limit expires). *)
Inductive RunOutcome : Type :=
| Completed (returncode : Z) (stdout stderr : string)
| Raised (e : Exn).

(** The command line. *)
Definition ping_command (nt : bool) (h : string) (count timeout : Z) : list string :=
  if nt then ["ping"; "-n"; str_of_int count; "-w"; str_of_int (timeout * 1000); h]
  else ["ping"; "-c"; str_of_int count; "-W"; str_of_int timeout; h].

(** The [timeout=] argument of [subprocess.run], in seconds. *)
Definition time_limit (count timeout : Z) : Z := timeout * count + 10.

(** The [try] block, given what [subprocess.run] did. *)
Definition try_block (nt : bool) (outcome : RunOutcome) : M PingResult unit :=
  match outcome with
  | Raised e => raise e
  | Completed returncode stdout stderr =>
      if (returncode =? 0)%Z then
        modify (set_success true) ;;
        parse_output nt stdout
      else
        modify (set_error
          (if nonempty stderr then stderr
           else "Ping failed with return code " ++ str_of_int returncode))
  end.

(** The [except] clauses. *)
Definition handle (count timeout : Z) (e : Exn) (r : PingResult) : PingResult :=
  match e with
  | TimeoutExpired =>
      set_error ("Ping timeout after " ++ str_of_int (time_limit count timeout)
                 ++ " seconds") r
  | _ => set_error (exn_str e) r
  end.

(** [ping_host] once [subprocess.run] has returned or raised. *)
Definition ping_result (nt : bool) (h : string) (count timeout : Z)
    (outcome : RunOutcome) : PingResult :=
  match try_block nt outcome (initial_result h) with
  | (inr _, r) => r
  | (inl e, r) => handle count timeout e r
  end.

(** *** The main function *)

(** The summary block of the report. *)
Record Summary : Type := mkSummary {
  total_hosts : Z;
  successful_hosts : Z;
  failed_hosts : Z;
  success_rate : Q
}.

(** [(successful_hosts/total_hosts)*100] *)
Definition rate_percent (successful total : Z) : Exc Q :=
  q <~ true_div successful total ;; ok (Qmult q (inject_Z 100)).

(** The document written to [ping_results.json] (without its timestamp). *)
Record Report : Type := mkReport {
  report_hosts : list string;
  report_count : Z;
  report_timeout : Z;
  report_summary : Summary;
  report_results : list PingResult
}.

(** What is printed, one constructor per [print] statement. *)
Inductive Line : Type :=
| LStarting
| LErrorNoHosts
| LErrorNoValidHosts
| LParameters (hosts : list string) (count timeout : Z)
| LPinging (i total : Z) (h : string)
| LSuccess (received sent : Z)
| LAverage (t : PyFloat)
| LFailed (reason : string)
| LPartialSuccess (received sent : Z)
| LBlank
| LSummary (s : Summary)
| LDetail (h : string) (succeeded : bool) (loss : Num) (avg : option PyFloat)
| LSaved
| LWarning (msg : string)
| LAllReachable
| LPartial (unreachable : Z)
| LAllUnreachable.

(** [result['packet_loss_percent'] < 100] *)
Definition loss_below_100 (n : Num) : bool :=
  match n with
  | NInt z => (z <? 100)%Z
  | NFloat f => float_ltb f (inject_Z 100)
  end.

(** [result['error'] or 'Unknown error'] *)
Definition error_or_unknown (e : option string) : string :=
  match e with
  | Some m => if nonempty m then m else "Unknown error"
  | None => "Unknown error"
  end.

(** [if result['avg_time']] *)
Definition avg_line (r : PingResult) : list Line :=
  match avg_time r with
  | Some t => if float_truthy t then [LAverage t] else []
  | None => []
  end.

(** The lines printed for one host after it was pinged. *)
Definition progress (r : PingResult) : list Line :=
  if success r then
    LSuccess (packets_received r) (packets_sent r) :: avg_line r
  else
    LFailed (error_or_unknown (error r))
    :: (if loss_below_100 (packet_loss_percent r)
        then [LPartialSuccess (packets_received r) (packets_sent r)]
        else []).

Definition detail (r : PingResult) : Line :=
  LDetail (host r) (success r) (packet_loss_percent r)
    (match avg_time r with
     | Some t => if float_truthy t then Some t else None
     | None => None
     end).

(** [enumerate(l, i)] *)
Fixpoint enumerate {A} (i : Z) (l : list A) : list (Z * A) :=
  match l with
  | [] => []
  | x :: r => (i, x) :: enumerate (i + 1) r
  end.

Section Main.

(** The subprocess layer: a state and what running a command with a time
    limit does in it. *)
Variable W : Type.
Variable run : W -> list string -> Z -> RunOutcome * W.

(** [os.name == 'nt'] *)
Variable nt : bool.

(** Writing the report file: [None] when it succeeds. *)
Variable write_file : Report -> option Exn.

(** The subprocess state together with the log of the commands run. *)
Record World : Type := mkWorld {
  net : W;
  calls : list (list string * Z)
}.

(** [subprocess.run(cmd, capture_output=True, text=True, timeout=limit)] *)
Definition subprocess_run (cmd : list string) (limit : Z) (w : World)
    : RunOutcome * World :=
  let (outcome, n) := run (net w) cmd limit in
  (outcome, mkWorld n (calls w ++ [(cmd, limit)])%list).

(** [ping_host(host, count, timeout)] *)
Definition ping_host (h : string) (count timeout : Z) (w : World)
    : PingResult * World :=
  let (outcome, w') :=
    subprocess_run (ping_command nt h count timeout) (time_limit count timeout) w in
  (ping_result nt h count timeout outcome, w').

(** The variables of the loop over the hosts. *)
Record Loop : Type := mkLoop {
  loop_world : World;
  loop_results : list PingResult;
  loop_successful : Z;
  loop_output : list Line
}.

(** One iteration of [for i, host in enumerate(hosts, 1)]. *)
Definition ping_step (count timeout total : Z) (st : Loop) (ih : Z * string)
    : Loop :=
  let (i, h) := ih in
  let (r, w') := ping_host h count timeout (loop_world st) in
  mkLoop w'
    (loop_results st ++ [r])%list
    (if success r then loop_successful st + 1 else loop_successful st)
    (loop_output st ++ LPinging i total h :: progress r ++ [LBlank])%list.

Definition ping_all (hosts : list string) (count timeout : Z) (st : Loop) : Loop :=
  fold_left (ping_step count timeout (Z.of_nat (List.length hosts)))
    (enumerate 1 hosts) st.

(** How the process ends. *)
Record Run : Type := mkRun {
  exit_code : Z;
  output : list Line;
  results : list PingResult;
  summary : option Summary;
  saved : option Report;
  final : World
}.

(** The [try] block that builds and writes the report. *)
Definition save (hosts : list string) (count timeout total successful : Z)
    (rs : list PingResult) : option Report * list Line :=
  match rate_percent successful total with
  | inl e => (None, [LWarning (exn_str e)])
  | inr rate =>
      let data := mkReport hosts count timeout
                    (mkSummary total successful (total - successful) rate) rs in
      match write_file data with
      | None => (Some data, [LSaved])
      | Some e => (None, [LWarning (exn_str e)])
      end
  end.

(** The final [if]/[elif]/[else]. *)
Definition verdict (successful total : Z) : Z * Line :=
  if (successful =? total)%Z then (0, LAllReachable)
  else if (successful >? 0)%Z then (1, LPartial (total - successful))
  else (2, LAllUnreachable).

(** [main()]: it returns how the process ends, or raises. *)
Definition main (env : Env) (w : World) : Exc Run :=
  hosts_v <~ get_parameter env "hosts" (PStr "") TStr ;;
  count_v <~ get_parameter env "count" (PInt 4) TInt ;;
  timeout_v <~ get_parameter env "timeout" (PInt 5) TInt ;;
  hosts_param <~ as_str hosts_v ;;
  if negb (nonempty hosts_param) then
    ok (mkRun 1 [LStarting; LErrorNoHosts] [] None None w)
  else
    let hosts := split_items hosts_param in
    match hosts with
    | [] => ok (mkRun 1 [LStarting; LErrorNoValidHosts] [] None None w)
    | _ =>
        count <~ as_int count_v ;;
        timeout <~ as_int timeout_v ;;
        let st := ping_all hosts count timeout
                    (mkLoop w [] 0 [LStarting; LParameters hosts count timeout]) in
        let total_hosts := Z.of_nat (List.length hosts) in
        let successful_hosts := loop_successful st in
        rate <~ rate_percent successful_hosts total_hosts ;;
        let s := mkSummary total_hosts successful_hosts
                   (total_hosts - successful_hosts) rate in
        let (file, saving) := save hosts count timeout total_hosts successful_hosts
                                (loop_results st) in
        let (code, last) := verdict successful_hosts total_hosts in
        ok (mkRun code
              (loop_output st ++ LSummary s :: map detail (loop_results st)
               ++ saving ++ [last])%list
              (loop_results st) (Some s) file (loop_world st))
    end.

End Main.

End Ping.

(* ===================================================================== *)
(** ** database_health_check.py *)
(* ===================================================================== *)

Module Db.

(** [get_parameter(name, default, param_type)]: this script's copy has no
    branch for lists. *)
Definition get_parameter (env : Env) (name : string) (default : PyVal)
    (param_type : PType) : Exc PyVal :=
  let value := environ_get env (env_name name) default in
  match value with
  | PNone => ok PNone
  | _ =>
      match param_type with
      | TInt => int_or_default value default
      | TBool => ok (PBool (truthy_text value))
      | _ => ok value
      end
  end.

(** *** What the driver returns *)

(** A column value. *)
Inductive Value : Type :=
| VNone
| VInt (z : Z)
| VFloat (f : PyFloat)
| VStr (s : string).

Definition Row : Type := list Value.

(** [row[i]] where [row] is what [fetchone()] returned. *)
Definition subscript (row : option Row) (i : nat) : Exc Value :=
  match row with
  | None => throw (TypeError "'NoneType' object is not subscriptable")
  | Some r =>
      match nth_error r i with
      | Some v => ok v
      | None => throw (IndexError "tuple index out of range")
      end
  end.

(** [bool(v)] for a column value. *)
Definition truthy (v : Value) : bool :=
  match v with
  | VNone => false
  | VInt z => negb (z =? 0)%Z
  | VFloat f => float_truthy f
  | VStr s => nonempty s
  end.

(** [bool(row)] for what [fetchone()] returned. *)
Definition row_truthy (row : option Row) : bool :=
  match row with
  | Some (_ :: _) => true
  | _ => false
  end.

(** [v == 1] *)
Definition equals_one (v : Value) : bool :=
  match v with
  | VInt z => (z =? 1)%Z
  | VFloat (FNum q) => Qeq_bool q (inject_Z 1)
  | _ => false
  end.

(** [v or 0] *)
Definition or_zero (v : Value) : Value := if truthy v then v else VInt 0.

(** [float(v)] *)
Definition to_float (v : Value) : Exc PyFloat :=
  match v with
  | VInt z =>
      match binary64 (inject_Z z) with
      | FInf _ => throw (OtherError "int too large to convert to float")
      | f => ok f
      end
  | VFloat f => ok f
  | VStr s => float_of_str s
  | VNone => throw (TypeError "float() argument must be a string or a real number, not 'NoneType'")
  end.

(** Truncation toward zero. *)
Definition truncate (q : Q) : Z := Z.quot (Qnum q) (Zpos (Qden q)).

(** [int(v)] *)
Definition to_int (v : Value) : Exc Z :=
  match v with
  | VInt z => ok z
  | VFloat (FNum q) => ok (truncate q)
  | VFloat (FInf _) => throw (OtherError "cannot convert float infinity to integer")
  | VFloat FNan => throw (ValueError "cannot convert float NaN to integer")
  | VStr s => int_of_str s
  | VNone => throw (TypeError "int() argument must be a string or a real number, not 'NoneType'")
  end.

(** *** Sorting, for ORDER BY *)

Section Sort.
Variable A : Type.
Variable before : A -> A -> bool.

Fixpoint insert (x : A) (l : list A) : list A :=
  match l with
  | [] => [x]
  | y :: r => if before x y then x :: l else y :: insert x r
  end.

Fixpoint order_by (l : list A) : list A :=
  match l with
  | [] => []
  | x :: r => insert x (order_by r)
  end.

End Sort.

Arguments insert {A} before x l.
Arguments order_by {A} before l.

(** *** The catalogs the table-health statements read *)

(** A row of MySQL's [information_schema.tables]. *)
Record MyTable : Type := mkMyTable {
  table_schema : string;
  table_name : string;
  table_type : string;
  table_rows : Z;
  data_length : Z;
  index_length : Z
}.

(** A row of PostgreSQL's [pg_stat_user_tables], with the columns the
    statement names. *)
Record PgTable : Type := mkPgTable {
  schemaname : string;
  tablename : string;
  n_tup_ins : Z;
  n_tup_upd : Z;
  n_tup_del : Z;
  n_live_tup : Z;
  n_dead_tup : Z
}.

(** [ROUND(x / 1024 / 1024, 2)]: to two decimals, half away from zero. *)
Definition round2 (q : Q) : Q :=
  let n := (Qnum q * 100)%Z in
  let d := Zpos (Qden q) in
  let r := ((2 * Z.abs n + d) / (2 * d))%Z in
  Qmake (if (n <? 0)%Z then - r else r) 100.

Definition megabytes (bytes : Z) : Value :=
  VFloat (FNum (round2 (Qdiv (inject_Z bytes) (inject_Z (1024 * 1024))))).

Definition on_disk (t : MyTable) : Z := data_length t + index_length t.

(** [LIMIT 20] *)
Definition limit : nat := 20.

(** The MySQL statement of [get_table_health]:
    [SELECT table_name, table_rows, ROUND(...) ... FROM information_schema.tables
     WHERE table_schema = '{database}' AND table_type = 'BASE TABLE'
     ORDER BY (data_length + index_length) DESC LIMIT 20] *)
Definition mysql_selected (database : string) (cat : list MyTable) : list MyTable :=
  firstn limit
    (order_by (fun a b => (on_disk b <=? on_disk a)%Z)
       (filter (fun t => String.eqb (table_schema t) database
                         && String.eqb (table_type t) "BASE TABLE") cat)).

Definition mysql_row (t : MyTable) : Row :=
  [VStr (table_name t); VInt (table_rows t); megabytes (on_disk t);
   megabytes (data_length t); megabytes (index_length t)].

(** The PostgreSQL statement:
    [SELECT schemaname, tablename, n_tup_ins, n_tup_upd, n_tup_del, n_live_tup,
     n_dead_tup FROM pg_stat_user_tables ORDER BY n_live_tup DESC LIMIT 20] *)
Definition pg_selected (cat : list PgTable) : list PgTable :=
  firstn limit (order_by (fun a b => (n_live_tup b <=? n_live_tup a)%Z) cat).

Definition pg_row (t : PgTable) : Row :=
  [VStr (schemaname t); VStr (tablename t); VInt (n_tup_ins t); VInt (n_tup_upd t);
   VInt (n_tup_del t); VInt (n_live_tup t); VInt (n_dead_tup t)].

(** The SQLite statement:
    [SELECT name FROM sqlite_master WHERE type='table' ORDER BY name] *)
Definition sqlite_selected (names : list string) : list string :=
  order_by String.leb names.

Definition sqlite_row (name : string) : Row := [VStr name].

(** *** Statements and servers *)

(** The statements the script executes. *)
Inductive Query : Type :=
| SelectOne                           (* SELECT 1 as test_value *)
| VersionMySQL                        (* SELECT VERSION() as version *)
| VersionPostgres                     (* SELECT version() as version *)
| VersionSQLite                       (* SELECT sqlite_version() as version *)
| CountTablesMySQL (database : string)
| SizeMySQL (database : string)
| ThreadsConnected                    (* SHOW STATUS LIKE 'Threads_connected' *)
| CountTablesPostgres (database : string)
| SizePretty (database : string)
| NumBackends (database : string)
| CountTablesSQLite
| BenchmarkMySQL                      (* SELECT BENCHMARK(10000, MD5('test')) *)
| BenchmarkPostgres                   (* SELECT MD5('test') FROM generate_series(1, 1000) *)
| BenchmarkSQLite                     (* SELECT 'test' FROM (SELECT 0 UNION ...) *)
| SelectNow                           (* SELECT NOW() *)
| SelectDatetimeNow                   (* SELECT datetime('now') *)
| TablesMySQL (database : string)
| TablesPostgres
| TablesSQLite
| CountRows (table : Value).          (* SELECT COUNT( * ) FROM `{table_name}` *)

(** A database server behind an open connection: its catalogs, what it
    answers to the other statements, and the calls that fail on it: the
    statements [execute] raises on, what [connection.cursor()] raises,
    what a fetch raises after a statement (or after none), and what
    [cursor.close()] raises. *)
Record Server : Type := mkServer {
  fault : Query -> option Exn;
  answer : Query -> list Row;
  mysql_tables : list MyTable;
  pg_tables : list PgTable;
  sqlite_tables : list string;
  cursor_fault : option Exn;
  fetch_fault : option Query -> option Exn;
  close_fault : option Exn
}.

(** The result set of a statement. *)
Definition run_query (srv : Server) (q : Query) : Exc (list Row) :=
  match fault srv q with
  | Some e => throw e
  | None =>
      match q with
      | TablesMySQL database =>
          ok (map mysql_row (mysql_selected database (mysql_tables srv)))
      | TablesPostgres => ok (map pg_row (pg_selected (pg_tables srv)))
      | TablesSQLite => ok (map sqlite_row (sqlite_selected (sqlite_tables srv)))
      | _ => ok (answer srv q)
      end
  end.

(** *** The result of a check *)

(** A value of the [details] dictionary. *)
Inductive Detail : Type :=
| DValue (v : Value)
| DFloat (f : PyFloat)
| DText (prefix : string) (v : Value)          (* f"{prefix}{v}" *)
| DPerformance (tests : list (string * Q))     (* test, duration_ms *)
| DTables (tables : list (list (string * Value))).

(** The dictionary each check builds. *)
Record Check : Type := mkCheck {
  test : string;
  success : bool;
  response_time_ms : option Q;
  error : option string;
  details : list (string * Detail)
}.

Definition initial_check (name : string) : Check :=
  mkCheck name false None None [].

(** The dictionary appended when a check or the connection raised: it has
    only the keys [test], [success] and [error]. *)
Definition error_check (name msg : string) : Check :=
  mkCheck name false None (Some msg) [].

(** What a check mutates: its result, the pending rows of its cursor, the
    statement they answer, and the number of clock readings taken so far. *)
Record State : Type := mkState {
  result : Check;
  cursor : list Row;
  statement : option Query;
  ticks : nat
}.

Definition on_result (f : Check -> Check) : M State unit :=
  modify (fun s => mkState (f (result s)) (cursor s) (statement s) (ticks s)).

Definition set_success (b : bool) : M State unit :=
  on_result (fun r => mkCheck (test r) b (response_time_ms r) (error r) (details r)).

Definition set_response_time (ms : Q) : M State unit :=
  on_result (fun r => mkCheck (test r) (success r) (Some ms) (error r) (details r)).

(** [result['details'][key] = d] *)
Definition set_detail (key : string) (d : Detail) : M State unit :=
  on_result (fun r => mkCheck (test r) (success r) (response_time_ms r) (error r)
                        (details r ++ [(key, d)])%list).

(** [result['details'] = {...}] *)
Definition set_details (ds : list (string * Detail)) : M State unit :=
  on_result (fun r => mkCheck (test r) (success r) (response_time_ms r) (error r) ds).

Definition set_error (msg : string) (r : Check) : Check :=
  mkCheck (test r) (success r) (response_time_ms r) (Some msg) (details r).

(** [(end_time - start_time) * 1000] *)
Definition elapsed_ms (start_time end_time : Q) : Q :=
  Qmult (Qminus end_time start_time) (inject_Z 1000).

(** [round(x, 2)]: to two decimals, half to even. *)
Definition round_even2 (q : Q) : Q :=
  let n := (Qnum q * 100)%Z in
  let d := Zpos (Qden q) in
  let f := (n / d)%Z in
  let r := (n mod d)%Z in
  let up := if (2 * r <? d)%Z then false
            else if (d <? 2 * r)%Z then true
            else Z.odd f in
  Qmake (if up then f + 1 else f) 100.

Section Checks.

(** The clock: the [n]-th reading of [time.time()]. *)
Variable clock : nat -> Q.

(** [os.path.getsize]: [None] when it raises. *)
Variable getsize : string -> option Z.

(** The server behind the connection. *)
Variable srv : Server.

(** [time.time()] *)
Definition now : M State Q :=
  fun s => (ok (clock (ticks s)),
            mkState (result s) (cursor s) (statement s) (S (ticks s))).

(** [cursor = connection.cursor()]: a cursor without a statement. *)
Definition open_cursor : M State unit :=
  fun s => match cursor_fault srv with
           | Some e => (inl e, s)
           | None => (ok tt, mkState (result s) [] None (ticks s))
           end.

(** [cursor.close()] *)
Definition close_cursor : M State unit :=
  fun s => match close_fault srv with
           | Some e => (inl e, s)
           | None => (ok tt, s)
           end.

(** [cursor.execute(q)]: the new result set replaces the pending rows. *)
Definition execute (q : Query) : M State unit :=
  fun s => match run_query srv q with
           | inl e => (inl e, s)
           | inr rows => (ok tt, mkState (result s) rows (Some q) (ticks s))
           end.

(** [cursor.fetchone()]: the next pending row, or [None]. *)
Definition fetchone : M State (option Row) :=
  fun s => match fetch_fault srv (statement s) with
           | Some e => (inl e, s)
           | None =>
               match cursor s with
               | [] => (ok None, s)
               | row :: rest =>
                   (ok (Some row), mkState (result s) rest (statement s) (ticks s))
               end
           end.

(** [cursor.fetchall()] *)
Definition fetchall : M State (list Row) :=
  fun s => match fetch_fault srv (statement s) with
           | Some e => (inl e, s)
           | None => (ok (cursor s), mkState (result s) [] (statement s) (ticks s))
           end.

(** [cursor.fetchone()[0]] *)
Definition fetch_first : M State Value :=
  row <- fetchone ;; lift (subscript row 0).

(** [try: body except Exception as e: result['error'] = str(e)], on a
    fresh result. *)
Definition attempt (name : string) (body : M State unit) (t : nat) : Check * nat :=
  match body (mkState (initial_check name) [] None t) with
  | (inr _, s) => (result s, ticks s)
  | (inl e, s) => (set_error (exn_str e) (result s), ticks s)
  end.

(** [version_result[0] if version_result else 'Unknown'] *)
Definition version_of (version_result : option Row) : Exc Value :=
  if row_truthy version_result then subscript version_result 0
  else ok (VStr "Unknown").

Definition test_basic_connectivity (db_type : string) : nat -> Check * nat :=
  attempt "basic_connectivity" (
    start_time <- now ;;
    open_cursor ;;
    (if String.eqb (lower db_type) "mysql" then
       execute SelectOne ;;
       execute VersionMySQL ;;
       version_result <- fetchone ;;
       v <- lift (version_of version_result) ;;
       set_detail "version" (DValue v)
     else if String.eqb (lower db_type) "postgresql" then
       execute SelectOne ;;
       execute VersionPostgres ;;
       version_result <- fetchone ;;
       v <- lift (version_of version_result) ;;
       set_detail "version" (DValue v)
     else if String.eqb (lower db_type) "sqlite" then
       execute SelectOne ;;
       execute VersionSQLite ;;
       version_result <- fetchone ;;
       (if row_truthy version_result then
          v <- lift (subscript version_result 0) ;;
          set_detail "version" (DText "SQLite " v)
        else set_detail "version" (DValue (VStr "Unknown")))
     else ret tt) ;;
    test_result <- fetchone ;;
    close_cursor ;;
    end_time <- now ;;
    set_response_time (elapsed_ms start_time end_time) ;;
    v <- lift (subscript test_result 0) ;;
    set_success (equals_one v)).

Definition get_database_statistics (db_type database : string) : nat -> Check * nat :=
  attempt "database_statistics" (
    start_time <- now ;;
    open_cursor ;;
    (if String.eqb (lower db_type) "mysql" then
       execute (CountTablesMySQL database) ;;
       table_count <- fetch_first ;;
       execute (SizeMySQL database) ;;
       size_result <- fetchone ;;
       s0 <- lift (subscript size_result 0) ;;
       let size_mb := or_zero s0 in
       execute ThreadsConnected ;;
       connections_result <- fetchone ;;
       active_connections <-
         lift (if row_truthy connections_result
               then c <~ subscript connections_result 1 ;; n <~ to_int c ;; ok (VInt n)
               else ok (VInt 0)) ;;
       size <- lift (to_float size_mb) ;;
       set_details [("table_count", DValue table_count);
                    ("size_mb", DFloat size);
                    ("active_connections", DValue active_connections)]
     else if String.eqb (lower db_type) "postgresql" then
       execute (CountTablesPostgres database) ;;
       table_count <- fetch_first ;;
       execute (SizePretty database) ;;
       size_result <- fetchone ;;
       execute (NumBackends database) ;;
       connections_result <- fetchone ;;
       active_connections <-
         lift (if row_truthy connections_result then subscript connections_result 0
               else ok (VInt 0)) ;;
       size_pretty <-
         lift (if row_truthy size_result then subscript size_result 0
               else ok (VStr "Unknown")) ;;
       set_details [("table_count", DValue table_count);
                    ("size_pretty", DValue size_pretty);
                    ("active_connections", DValue active_connections)]
     else if String.eqb (lower db_type) "sqlite" then
       execute CountTablesSQLite ;;
       table_count <- fetch_first ;;
       (* [file_size / (1024 * 1024)] is a float, and raises when the
          quotient is too large for one: inside the inner [try] *)
       let size_mb :=
         match getsize database with
         | Some file_size =>
             match binary64 (Qdiv (inject_Z file_size) (inject_Z (1024 * 1024))) with
             | FNum x => DFloat (binary64 (round_even2 x))
             | _ => DValue (VInt 0)
             end
         | None => DValue (VInt 0)
         end in
       set_details [("table_count", DValue table_count);
                    ("size_mb", size_mb);
                    ("file_path", DValue (VStr database))]
     else ret tt) ;;
    close_cursor ;;
    end_time <- now ;;
    set_response_time (elapsed_ms start_time end_time) ;;
    set_success true).

(** [for _ in range(n): cursor.execute(q); cursor.fetchone()] *)
Fixpoint round_trips (n : nat) (q : Query) : M State unit :=
  match n with
  | O => ret tt
  | S k => execute q ;; _ <- fetchone ;; round_trips k q
  end.

Definition test_query_performance (db_type : string) : nat -> Check * nat :=
  attempt "query_performance" (
    open_cursor ;;
    start_time <- now ;;
    execute (if String.eqb (lower db_type) "mysql" then BenchmarkMySQL
             else if String.eqb (lower db_type) "postgresql" then BenchmarkPostgres
             else BenchmarkSQLite) ;;
    _ <- fetchall ;;
    end_time <- now ;;
    let computation := elapsed_ms start_time end_time in
    start_time <- now ;;
    round_trips 100
      (if String.eqb (lower db_type) "mysql" then SelectNow
       else if String.eqb (lower db_type) "postgresql" then SelectNow
       else SelectDatetimeNow) ;;
    end_time <- now ;;
    let timestamps := elapsed_ms start_time end_time in
    close_cursor ;;
    set_detail "performance_tests"
      (DPerformance [("computation_test", computation);
                     ("100_timestamp_queries", timestamps)]) ;;
    set_response_time (Qplus (Qplus (inject_Z 0) computation) timestamps) ;;
    set_success true).

(** The dictionary appended to [tables_info] for one row. *)
Definition table_entry (db_type : string) (row : Row)
    : M State (list (string * Value)) :=
  if String.eqb (lower db_type) "mysql" then
    lift (name <~ subscript (Some row) 0 ;;
          rows <~ subscript (Some row) 1 ;;
          total <~ subscript (Some row) 2 ;;
          total_mb <~ to_float (or_zero total) ;;
          data <~ subscript (Some row) 3 ;;
          data_mb <~ to_float (or_zero data) ;;
          idx <~ subscript (Some row) 4 ;;
          idx_mb <~ to_float (or_zero idx) ;;
          ok [("table_name", name); ("estimated_rows", or_zero rows);
              ("total_size_mb", VFloat total_mb); ("data_size_mb", VFloat data_mb);
              ("index_size_mb", VFloat idx_mb)])
  else if String.eqb (lower db_type) "postgresql" then
    lift (c0 <~ subscript (Some row) 0 ;;
          c1 <~ subscript (Some row) 1 ;;
          c2 <~ subscript (Some row) 2 ;;
          c3 <~ subscript (Some row) 3 ;;
          c4 <~ subscript (Some row) 4 ;;
          c5 <~ subscript (Some row) 5 ;;
          c6 <~ subscript (Some row) 6 ;;
          ok [("schema", c0); ("table_name", c1); ("inserts", c2); ("updates", c3);
              ("deletes", c4); ("live_tuples", c5); ("dead_tuples", c6)])
  else
    table_name <- lift (subscript (Some row) 0) ;;
    execute (CountRows table_name) ;;
    row_count <- fetch_first ;;
    ret [("table_name", table_name); ("row_count", row_count)].

(** [for row in rows: tables_info.append(...)] *)
Fixpoint table_entries (db_type : string) (rows : list Row)
    : M State (list (list (string * Value))) :=
  match rows with
  | [] => ret []
  | row :: rest =>
      e <- table_entry db_type row ;;
      es <- table_entries db_type rest ;;
      ret (e :: es)
  end.

Definition get_table_health (db_type database : string) : nat -> Check * nat :=
  attempt "table_health" (
    start_time <- now ;;
    open_cursor ;;
    execute (if String.eqb (lower db_type) "mysql" then TablesMySQL database
             else if String.eqb (lower db_type) "postgresql" then TablesPostgres
             else TablesSQLite) ;;
    rows <- fetchall ;;
    tables_info <- table_entries db_type rows ;;
    close_cursor ;;
    end_time <- now ;;
    set_detail "tables" (DTables tables_info) ;;
    set_detail "table_count" (DValue (VInt (Z.of_nat (List.length tables_info)))) ;;
    set_response_time (elapsed_ms start_time end_time) ;;
    set_success true).

End Checks.

(** *** The main function *)

(** The summary block of the report. *)
Record Summary : Type := mkSummary {
  total_tests : Z;
  successful_tests : Z;
  failed_tests : Z;
  success_rate : Q
}.

(** [sum(1 for result in all_results if result.get('success', False))] *)
Definition count_successful (rs : list Check) : Z :=
  Z.of_nat (List.length (filter success rs)).

(** [(successful_tests/max(total_tests, 1))*100] *)
Definition rate_percent (successful total : Z) : Exc Q :=
  q <~ true_div successful (Z.max total 1) ;; ok (Qmult q (inject_Z 100)).

(** The summary of a list of results. *)
Definition summarize (rs : list Check) : Exc Summary :=
  let successful := count_successful rs in
  let total := Z.of_nat (List.length rs) in
  rate <~ rate_percent successful total ;;
  ok (mkSummary total successful (total - successful) rate).

(** The document written to [db_health_results.json] (without its
    timestamp); user name and password are not part of it. *)
Record Report : Type := mkReport {
  report_db_type : string;
  report_host : PyVal;
  report_port : PyVal;
  report_database : PyVal;
  report_timeout : PyVal;
  report_overall_success : bool;
  report_summary : Summary;
  report_test_results : list Check
}.

(** What is printed, one constructor per [print] statement (the lines for
    the details of a successful check go with its SUCCESS line). *)
Inductive Line : Type :=
| LStarting
| LErrorDatabaseRequired
| LParameters (db_type : string) (host port database username timeout : PyVal)
| LEstablishing
| LConnected
| LRunning (name : string)
| LCheckSuccess (ms : Q) (shown : list (string * Detail))
| LCheckFailed (reason : option string)
| LCheckError (msg : string)
| LBlank
| LConnectionFailed (msg : string)
| LClosed
| LSummary (s : Summary)
| LSaved
| LWarning (msg : string)
| LAllPassed
| LSomeFailed.

(** [bool(v)] for a parameter. *)
Definition param_truthy (v : PyVal) : bool :=
  match v with
  | PNone => false
  | PInt z => negb (z =? 0)%Z
  | PBool b => b
  | PStr s => nonempty s
  | PList l => match l with [] => false | _ => true end
  end.

(** The driver modules. *)
Inductive Driver : Type := Pymysql | Psycopg2 | Sqlite3.

(** The arguments of [connect]. *)
Record ConnArgs : Type := mkConnArgs {
  conn_host : PyVal;
  conn_port : PyVal;
  conn_database : PyVal;
  conn_username : PyVal;
  conn_password : PyVal;
  conn_timeout : PyVal
}.

Section Main.

Variable clock : nat -> Q.
Variable getsize : string -> option Z.

(** Importing a driver and calling its [connect]. *)
Variable connect : Driver -> ConnArgs -> Exc Server.

(** [connection.close()]: [None] when it succeeds. *)
Variable close : Server -> option Exn.

(** Writing the report file: [None] when it succeeds. *)
Variable write_file : Report -> option Exn.

(** [except ImportError: raise Exception(msg)] *)
Definition without_import_error (msg : string) (c : Exc Server) : Exc Server :=
  match c with
  | inl (ImportError _) => throw (OtherError msg)
  | _ => c
  end.

Definition create_database_connection (db_type : string) (args : ConnArgs)
    : Exc Server :=
  if String.eqb (lower db_type) "mysql" then
    without_import_error "pymysql package not available" (connect Pymysql args)
  else if String.eqb (lower db_type) "postgresql" then
    without_import_error "psycopg2 package not available" (connect Psycopg2 args)
  else if String.eqb (lower db_type) "sqlite" then
    match connect Sqlite3 args with
    | inl e => throw (OtherError ("SQLite connection failed: " ++ exn_str e))
    | inr c => ok c
    end
  else throw (OtherError ("Unsupported database type: " ++ db_type)).

(** The variables of the loop over the tests. *)
Record Loop : Type := mkLoop {
  loop_ticks : nat;
  loop_results : list Check;
  loop_overall : bool;
  loop_output : list Line
}.

(** What is printed for a result: formatting a missing response time
    with [:.2f] raises. *)
Definition report_check (r : Check) : Exc (list Line) :=
  if success r then
    match response_time_ms r with
    | Some ms => ok [LCheckSuccess ms (details r)]
    | None => throw (TypeError "unsupported format string passed to NoneType.__format__")
    end
  else ok [LCheckFailed (error r)].

(** One iteration of [for test_name, test_func in tests]. *)
Definition run_test (st : Loop) (t : string * (nat -> Check * nat)) : Loop :=
  let (test_name, test_func) := t in
  let (r, ticks') := test_func (loop_ticks st) in
  match report_check r with
  | inr lines =>
      mkLoop ticks' (loop_results st ++ [r])%list
        (if success r then loop_overall st else false)
        (loop_output st ++ LRunning test_name :: lines ++ [LBlank])%list
  | inl e =>
      mkLoop ticks'
        (loop_results st
         ++ [r; error_check (replace " " "_" (lower test_name)) (exn_str e)])%list
        false
        (loop_output st ++ [LRunning test_name; LCheckError (exn_str e); LBlank])%list
  end.

(** The list [tests]. *)
Definition tests (srv : Server) (db_type database : string)
    : list (string * (nat -> Check * nat)) :=
  [("Basic Connectivity", test_basic_connectivity clock srv db_type);
   ("Database Statistics", get_database_statistics clock getsize srv db_type database);
   ("Query Performance", test_query_performance clock srv db_type);
   ("Table Health", get_table_health clock srv db_type database)].

(** The [try]/[except]/[finally] around the connection and the tests. *)
Definition run_checks (db_type database : string) (args : ConnArgs) (st : Loop)
    : Loop :=
  let st := mkLoop (loop_ticks st) (loop_results st) (loop_overall st)
              (loop_output st ++ [LEstablishing])%list in
  match create_database_connection db_type args with
  | inl e =>
      mkLoop (loop_ticks st)
        (loop_results st ++ [error_check "connection" (exn_str e)])%list
        false
        (loop_output st ++ [LConnectionFailed (exn_str e)])%list
  | inr connection =>
      let st := mkLoop (loop_ticks st) (loop_results st) (loop_overall st)
                  (loop_output st ++ [LConnected; LBlank])%list in
      let st := fold_left run_test (tests connection db_type database) st in
      match close connection with
      | None => mkLoop (loop_ticks st) (loop_results st) (loop_overall st)
                  (loop_output st ++ [LClosed])%list
      | Some _ => st
      end
  end.

(** How the process ends. *)
Record Run : Type := mkRun {
  exit_code : Z;
  output : list Line;
  all_results : list Check;
  summary : option Summary;
  saved : option Report
}.

(** The [try] block that builds and writes the report. *)
Definition save (db_type : string) (host port database timeout : PyVal)
    (overall : bool) (rs : list Check) : option Report * list Line :=
  match summarize rs with
  | inl e => (None, [LWarning (exn_str e)])
  | inr s =>
      let data := mkReport db_type host port database timeout overall s rs in
      match write_file data with
      | None => (Some data, [LSaved])
      | Some e => (None, [LWarning (exn_str e)])
      end
  end.

(** The default of [port]. *)
Definition default_port (db_type : string) : PyVal :=
  if String.eqb (lower db_type) "mysql" then PInt 3306
  else if String.eqb (lower db_type) "postgresql" then PInt 5432
  else PNone.

(** [main()]: it returns how the process ends, or raises. *)
Definition main (env : Env) : Exc Run :=
  db_type_v <~ get_parameter env "db_type" (PStr "mysql") TStr ;;
  host <~ get_parameter env "host" (PStr "localhost") TStr ;;
  db_type <~ as_str db_type_v ;;
  port <~ get_parameter env "port" (default_port db_type) TInt ;;
  database <~ get_parameter env "database" PNone TStr ;;
  username <~ get_parameter env "username" PNone TStr ;;
  password <~ get_parameter env "password" PNone TStr ;;
  timeout <~ get_parameter env "timeout" (PInt 30) TInt ;;
  if negb (param_truthy database) then
    ok (mkRun 1 [LStarting; LErrorDatabaseRequired] [] None None)
  else
    let port := match port with PNone => default_port db_type | _ => port end in
    database_name <~ as_str database ;;
    let st := run_checks db_type database_name
                (mkConnArgs host port database username password timeout)
                (mkLoop 0 [] true
                   [LStarting;
                    LParameters db_type host port database username timeout;
                    LBlank]) in
    s <~ summarize (loop_results st) ;;
    let (file, saving) := save db_type host port database timeout
                            (loop_overall st) (loop_results st) in
    ok (mkRun (if loop_overall st then 0 else 1)
          (loop_output st ++ LSummary s :: saving
           ++ [if loop_overall st then LAllPassed else LSomeFailed])%list
          (loop_results st) (Some s) file).

End Main.

End Db.

(* ===================================================================== *)
(** ** Vocabulary of the properties *)
(* ===================================================================== *)

(** An invariant of the mutated object that a computation preserves,
    whether it returns or raises. *)
Definition Keeps {S A} (I : S -> Prop) (c : M S A) : Prop :=
  forall s, I s -> I (snd (c s)).

(** A default is of the declared type, or is [None]. *)
Definition default_of_type (param_type : PType) (default : PyVal) : Prop :=
  match default with
  | PNone => True
  | PInt _ => param_type = TInt
  | PBool _ => param_type = TBool
  | PStr _ => param_type = TStr
  | PList _ => param_type = TList
  end.

(** An environment with the given variables set. *)
Fixpoint env_of (vars : list (string * string)) : Env :=
  fun key =>
    match vars with
    | [] => None
    | (k, v) :: rest => if String.eqb k key then Some v else env_of rest key
    end.

(** The value of the [hosts] parameter. *)
Definition hosts_parameter (env : Env) : string :=
  match env "PARAM_HOSTS" with
  | Some raw => raw
  | None => ""
  end.

(** The exit status the network check owes to a list of results. *)
Definition expected_exit (rs : list Ping.PingResult) : Z :=
  if forallb Ping.success rs then 0
  else if existsb Ping.success rs then 1
  else 2.

(** The request [ping_host] makes for a host. *)
Definition request (nt : bool) (count timeout : Z) (h : string)
    : list string * Z :=
  (Ping.ping_command nt h count timeout, Ping.time_limit count timeout).

(** The exceptions a computation can raise. *)
Definition Raises {S A} (P : Exn -> Prop) (c : M S A) : Prop :=
  forall s e, fst (c s) = inl e -> P e.

Definition ExcRaises {A} (P : Exn -> Prop) (c : Exc A) : Prop :=
  forall e, c = inl e -> P e.

(** The exceptions of parsing: a bad number or a missing field. *)
Definition parse_error (e : Exn) : Prop :=
  match e with
  | ValueError _ | IndexError _ => True
  | _ => False
  end.

(** A line that [parse_line] does not read as a timing line. *)
Definition untimed (line : string) : Prop :=
  Ping.is_packet_line (strip line) = true
  \/ Ping.is_timing_line (strip line) = false.

(** A property of the result a check is building. *)
Definition OnResult (P : Db.Check -> Prop) : Db.State -> Prop :=
  fun s => P (Db.result s).

(** A check that has a response time whenever it succeeded. *)
Definition timed (r : Db.Check) : Prop :=
  Db.success r = true -> Db.response_time_ms r <> None.

(** A computation that, started on a result without success, ends on a
    result that is timed. *)
Definition EndsTimed {A} (c : M Db.State A) : Prop :=
  forall s, Db.success (Db.result s) = false -> timed (Db.result (snd (c s))).

(** [successes / max(total, 1) * 100] *)
Definition guarded_rate (successes total : Z) : Q :=
  Qmult (Qdiv (inject_Z successes) (inject_Z (Z.max total 1))) (inject_Z 100).

(** The invariant of a run summary, for counts and a rate. *)
Definition summary_invariant (results successes : nat)
    (total successful failed : Z) (rate : Q) : Prop :=
  total = Z.of_nat results
  /\ successful = Z.of_nat successes
  /\ (successful + failed = total)%Z
  /\ Qle (inject_Z 0) rate /\ Qle rate (inject_Z 100)
  /\ rate = guarded_rate successful total.

Definition db_summary_ok (rs : list Db.Check) (s : Db.Summary) : Prop :=
  summary_invariant (List.length rs) (List.length (filter Db.success rs))
    (Db.total_tests s) (Db.successful_tests s) (Db.failed_tests s)
    (Db.success_rate s).

Definition ping_summary_ok (rs : list Ping.PingResult) (s : Ping.Summary) : Prop :=
  summary_invariant (List.length rs) (List.length (filter Ping.success rs))
    (Ping.total_hosts s) (Ping.successful_hosts s) (Ping.failed_hosts s)
    (Ping.success_rate s).

(** A string parameter, and an integer parameter, as [get_parameter]
    resolves them. *)
Definition text_parameter (env : Env) (name : string) (default : PyVal) : PyVal :=
  match env (env_name name) with
  | Some raw => PStr raw
  | None => default
  end.

Definition int_parameter (env : Env) (name : string) (default : PyVal) : PyVal :=
  match env (env_name name) with
  | Some raw => match parse_int raw with Some z => PInt z | None => default end
  | None => default
  end.

(** The [db_type] parameter and the arguments [main] connects with. *)
Definition db_type_parameter (env : Env) : string :=
  match env "PARAM_DB_TYPE" with
  | Some raw => raw
  | None => "mysql"
  end.

Definition connection_arguments (env : Env) : Db.ConnArgs :=
  Db.mkConnArgs
    (text_parameter env "host" (PStr "localhost"))
    (int_parameter env "port" (Db.default_port (db_type_parameter env)))
    (text_parameter env "database" PNone)
    (text_parameter env "username" PNone)
    (text_parameter env "password" PNone)
    (int_parameter env "timeout" (PInt 30)).

(** The version statement [test_basic_connectivity] executes. *)
Definition version_query (db_type : string) : option Db.Query :=
  if String.eqb (lower db_type) "mysql" then Some Db.VersionMySQL
  else if String.eqb (lower db_type) "postgresql" then Some Db.VersionPostgres
  else if String.eqb (lower db_type) "sqlite" then Some Db.VersionSQLite
  else None.

(** The number of rows the table statement of [get_table_health] selects. *)
Definition selected_count (srv : Db.Server) (db_type database : string) : nat :=
  if String.eqb (lower db_type) "mysql"
  then List.length (Db.mysql_selected database (Db.mysql_tables srv))
  else if String.eqb (lower db_type) "postgresql"
  then List.length (Db.pg_selected (Db.pg_tables srv))
  else List.length (Db.sqlite_selected (Db.sqlite_tables srv)).

(** The table statement of [get_table_health]. *)
Definition tables_statement (db_type database : string) : Db.Query :=
  if String.eqb (lower db_type) "mysql" then Db.TablesMySQL database
  else if String.eqb (lower db_type) "postgresql" then Db.TablesPostgres
  else Db.TablesSQLite.

(** The state of the table-health check when it has fetched the rows of
    the table statement. *)
Definition tables_fetched (db_type database : string) (t : nat) : Db.State :=
  Db.mkState (Db.initial_check "table_health") []
    (Some (tables_statement db_type database)) (S t).

(** Descending order of a key, and ascending order of names. *)
Definition descending {A} (key : A -> Z) : A -> A -> Prop :=
  fun a b => (key b <= key a)%Z.

Definition by_name : string -> string -> Prop :=
  fun a b => String.leb a b = true.

(** The names of the four checks, in the order they run. *)
Definition check_names : list string :=
  ["basic_connectivity"; "database_statistics"; "query_performance";
   "table_health"].

(** *** Sample inputs *)

Definition newline : string := String "010" "".

(** What a Unix [ping] prints at the end. *)
Definition sample_output : string :=
  "4 packets transmitted, 4 received, 0% packet loss, time 3004ms" ++ newline
  ++ "rtt min/avg/max/mdev = 1.234/2.345/3.456/0.567 ms" ++ newline.

(** Statistics with an errors field, as [ping] prints when it received
    error replies: the third field is not the loss. *)
Definition errors_line : string :=
  "4 packets transmitted, 4 received, +1 errors, 0% packet loss, time 3004ms".

Definition timing_line : string :=
  "rtt min/avg/max/mdev = 1.234/2.345/3.456/0.567 ms".

Definition errors_output : string := errors_line ++ newline ++ timing_line.

(** A timing line whose second number is not a number. *)
Definition broken_timing : string :=
  "rtt min/avg/max/mdev = 1.0/abc/3.0/0.5 ms".

(** A subprocess layer without state that answers by the host, the last
    word of the command: one host answers, one hangs, the others are
    unknown. *)
Definition sample_run (_ : unit) (cmd : list string) (_ : Z)
    : Ping.RunOutcome * unit :=
  let h := last cmd "" in
  if String.eqb h "10.0.0.1" then (Ping.Completed 0 sample_output "", tt)
  else if String.eqb h "slow.host" then (Ping.Raised TimeoutExpired, tt)
  else (Ping.Completed 2 "" "ping: unknown host", tt).

Definition sample_world : Ping.World unit := Ping.mkWorld unit tt [].

(** The network check on the sample subprocess layer, with a report file
    that can be written: exit status, success flags and summary. *)
Definition sample_ping (hosts : string)
    : option (Z * list bool * option Ping.Summary) :=
  match Ping.main unit sample_run false (fun _ => None)
          (env_of [("PARAM_HOSTS", hosts)]) sample_world with
  | inr r => Some (Ping.exit_code unit r, map Ping.success (Ping.results unit r),
                   Ping.summary unit r)
  | inl _ => None
  end.

(** The environments of the samples. *)
Definition two_hosts_env : Env := env_of [("PARAM_HOSTS", "10.0.0.1, bad.host")].
Definition shop_env : Env := env_of [("PARAM_DATABASE", "shop")].

(** A driver that refuses every connection. *)
Definition refuse (_ : Db.Driver) (_ : Db.ConnArgs) : Exc Db.Server :=
  throw (OtherError "Access denied").

(** The clock of the samples: one second per reading. *)
Definition sample_clock (n : nat) : Q := inject_Z (Z.of_nat n).

(** A MySQL server in good health: no call fails, [SELECT 1] returns the
    row [(1,)] and [SELECT VERSION()] one row with the version. *)
Definition healthy_mysql : Db.Server :=
  Db.mkServer (fun _ => None)
    (fun q => match q with
              | Db.SelectOne => [[Db.VInt 1]]
              | Db.VersionMySQL => [[Db.VStr "8.0.32"]]
              | _ => []
              end)
    [] [] [] None (fun _ => None) None.

(** An SQLite database with twenty-one empty tables. *)
Definition twenty_one_names : list string :=
  ["t01"; "t02"; "t03"; "t04"; "t05"; "t06"; "t07"; "t08"; "t09"; "t10"; "t11";
   "t12"; "t13"; "t14"; "t15"; "t16"; "t17"; "t18"; "t19"; "t20"; "t21"].

Definition sqlite_with_21_tables : Db.Server :=
  Db.mkServer (fun _ => None)
    (fun q => match q with
              | Db.SelectOne => [[Db.VInt 1]]
              | Db.VersionSQLite => [[Db.VStr "3.45.1"]]
              | Db.CountTablesSQLite => [[Db.VInt 21]]
              | Db.CountRows _ => [[Db.VInt 0]]
              | _ => []
              end)
    [] [] twenty_one_names None (fun _ => None) None.

(** *** Vocabulary of the further properties *)

(** [c in s] for a character. *)
Fixpoint has_char (c : ascii) (s : string) : bool :=
  match s with
  | EmptyString => false
  | String b r => Ascii.eqb c b || has_char c r
  end.

(** A string that does not start with whitespace. *)
Definition starts_clean (s : string) : Prop :=
  match s with
  | EmptyString => True
  | String c _ => is_space c = false
  end.


(** The words [get_parameter] reads as true. *)
Definition true_words : list string := ["true"; "1"; "yes"; "on"].

(** The value of a decimal numeral read from the left, after [acc]. *)
Fixpoint digits_value (acc : Z) (d : Decimal.uint) : Z :=
  match d with
  | Decimal.Nil => acc
  | Decimal.D0 l => digits_value (10 * acc + 0) l
  | Decimal.D1 l => digits_value (10 * acc + 1) l
  | Decimal.D2 l => digits_value (10 * acc + 2) l
  | Decimal.D3 l => digits_value (10 * acc + 3) l
  | Decimal.D4 l => digits_value (10 * acc + 4) l
  | Decimal.D5 l => digits_value (10 * acc + 5) l
  | Decimal.D6 l => digits_value (10 * acc + 6) l
  | Decimal.D7 l => digits_value (10 * acc + 7) l
  | Decimal.D8 l => digits_value (10 * acc + 8) l
  | Decimal.D9 l => digits_value (10 * acc + 9) l
  end.

(** A string without whitespace. *)
Definition no_space (s : string) : Prop :=
  forall c, has_char c s = true -> is_space c = false.

(** A numeral of [n] digits. *)
Fixpoint ones (n : nat) : string :=
  match n with
  | O => EmptyString
  | S k => String "1" (ones k)
  end.

(** How many digits the decimal text of an integer has. *)
Definition digit_count (z : Z) : Z :=
  Z.of_nat (String.length (str_of_int (Z.abs z))).

(** An integer parameter with an integer default, as [get_parameter]
    resolves it: the variable when it is an integer literal, else the
    default. *)
Definition resolved_int (env : Env) (name : string) (default : Z) : Z :=
  match env (env_name name) with
  | Some raw => match parse_int raw with Some z => z | None => default end
  | None => default
  end.

(** The error of a probe whose tool returned a status other than zero. *)
Definition status_error (returncode : Z) (stderr : string) : string :=
  if nonempty stderr then stderr
  else "Ping failed with return code " ++ str_of_int returncode.

(** The database types [create_database_connection] knows. *)
Definition supported (db_type : string) : bool :=
  existsb (String.eqb (lower db_type)) ["mysql"; "postgresql"; "sqlite"].

(** A driver that refuses the MySQL port and accepts every other. *)
Definition refuse_mysql_port (_ : Db.Driver) (args : Db.ConnArgs) : Exc Db.Server :=
  match Db.conn_port args with
  | PInt 3306 => throw (OtherError "Access denied")
  | _ => ok healthy_mysql
  end.

(** A result that has neither succeeded nor failed yet, and one that has
    no details either. *)
Definition unfailed (r : Db.Check) : Prop :=
  Db.success r = false /\ Db.error r = None.

Definition pending (r : Db.Check) : Prop :=
  Db.success r = false /\ Db.error r = None /\ Db.details r = [].

(** A computation that leaves the result with [I] when it raises and with
    [Q] when it returns, started on a result with [I]. *)
Definition Concludes {A} (I Q : Db.Check -> Prop) (c : M Db.State A) : Prop :=
  forall s, I (Db.result s) ->
    match fst (c s) with
    | inl _ => I (Db.result (snd (c s)))
    | inr _ => Q (Db.result (snd (c s)))
    end.

(** A check that succeeded without an error, or failed with one and
    without details. *)
Definition all_or_nothing (r : Db.Check) : Prop :=
  (Db.success r = true /\ Db.error r = None)
  \/ (Db.success r = false /\ Db.error r <> None /\ Db.details r = []).

(** The same server with a cursor that cannot be closed. *)
Definition closing_fails (e : Exn) (srv : Db.Server) : Db.Server :=
  Db.mkServer (Db.fault srv) (Db.answer srv) (Db.mysql_tables srv)
    (Db.pg_tables srv) (Db.sqlite_tables srv) (Db.cursor_fault srv)
    (Db.fetch_fault srv) (Some e).

(** A check that failed without an error. *)
Definition silent (r : Db.Check) : Prop :=
  Db.success r = false /\ Db.error r = None.

(** A response time that is not negative, when there is one. *)
Definition nonnegative_time (r : Db.Check) : Prop :=
  match Db.response_time_ms r with
  | Some ms => Qle (inject_Z 0) ms
  | None => True
  end.

(** A server whose version statement returns two rows, the second with a
    2 at its head. *)
Definition two_version_rows : Db.Server :=
  Db.mkServer (fun _ => None)
    (fun q => match q with
              | Db.VersionMySQL => [[Db.VStr "8.0.32"]; [Db.VInt 2]]
              | _ => []
              end)
    [] [] [] None (fun _ => None) None.

(** An SQLite database with two tables, one of which cannot be read. *)
Definition locked_table : Db.Server :=
  Db.mkServer
    (fun q => match q with
              | Db.CountRows (Db.VStr name) =>
                  if String.eqb name "orders"
                  then Some (OtherError "database table is locked")
                  else None
              | _ => None
              end)
    (fun q => match q with
              | Db.CountRows _ => [[Db.VInt 7]]
              | _ => []
              end)
    [] [] ["items"; "orders"] None (fun _ => None) None.

(** An environment that asks for a database type the script does not know. *)
Definition oracle_env : Env :=
  env_of [("PARAM_DB_TYPE", "Oracle"); ("PARAM_DATABASE", "shop")].

(** The statistics line a Unix [ping] prints, followed by [tail]. *)
Definition statistics_line (sent received loss : Z) (tail : string) : string :=
  str_of_int sent ++ " packets transmitted, " ++ str_of_int received
  ++ " received, " ++ str_of_int loss ++ "% packet loss" ++ tail.

(** A character of the decimal text of an integer. *)
Definition numeral_char (c : ascii) : bool := is_digit c || Ascii.eqb c "-".

(** The statistics line a Windows [ping] prints, with or without the
    comma that ends it. *)
Definition packets_line (sent received lost loss : Z) (comma : bool) : string :=
  "Packets: Sent = " ++ str_of_int sent ++ ", Received = " ++ str_of_int received
  ++ ", Lost = " ++ str_of_int lost ++ " (" ++ str_of_int loss ++ "% loss)"
  ++ (if comma then "," else "").

(** The timing line a Windows [ping] prints, in milliseconds. *)
Definition timings_line (minimum maximum average : Z) : string :=
  "Minimum = " ++ str_of_int minimum ++ "ms, Maximum = " ++ str_of_int maximum
  ++ "ms, Average = " ++ str_of_int average ++ "ms".

(** A time as [ping] prints it: a whole part, a point and the digits of
    the fraction; and its value. *)
Definition decimal_text (whole : N) (fraction : Decimal.uint) : string :=
  str_of_int (Z.of_N whole) ++ "." ++ NilEmpty.string_of_uint fraction.

Definition decimal_value (whole : N) (fraction : Decimal.uint) : Q :=
  Qplus (inject_Z (Z.of_N whole))
    (Qdiv (inject_Z (digits_value 0 fraction))
       (inject_Z (10 ^ Z.of_nat (Decimal.nb_digits fraction)))).

(** The rational [float] computes for such a text: the mantissa, scaled
    by ten to the zero. *)
Definition read_decimal (whole : N) (fraction : Decimal.uint) : Q :=
  scale10 (mantissa (Z.of_N whole) (digits_value 0 fraction)
             (Decimal.nb_digits fraction)) 0.

Definition decimal_char (c : ascii) : bool :=
  numeral_char c || Ascii.eqb c ".".

(** The timing line a Unix [ping] prints, from four times. *)
Definition rtt_line (minimum average maximum deviation : string) : string :=
  "rtt min/avg/max/mdev = " ++ minimum ++ "/" ++ average ++ "/" ++ maximum
  ++ "/" ++ deviation ++ " ms".

(** A string that does not continue a run of digits. *)
Definition stops (rest : string) : Prop :=
  match rest with
  | EmptyString => True
  | String c _ => digit_val c = None /\ Ascii.eqb c "_" = false
  end.

(* ===================================================================== *)
(** ** Properties of the primitives *)
(* ===================================================================== *)

Lemma keeps_ret {S A} (I : S -> Prop) (a : A) : Keeps I (ret a).
Proof. intros s H. exact H. Qed.

Lemma keeps_raise {S A} (I : S -> Prop) (e : Exn) : Keeps I (@raise S A e).
Proof. intros s H. exact H. Qed.

Lemma keeps_lift {S A} (I : S -> Prop) (c : Exc A) : Keeps I (@lift S A c).
Proof. intros s H. exact H. Qed.

Lemma keeps_modify {S} (I : S -> Prop) (f : S -> S) :
  (forall s, I s -> I (f s)) -> Keeps I (modify f).
Proof. intros Hf s H. apply Hf, H. Qed.

Lemma keeps_bind {S A B} (I : S -> Prop) (c : M S A) (k : A -> M S B) :
  Keeps I c -> (forall a, Keeps I (k a)) -> Keeps I (bind c k).
Proof.
  intros Hc Hk s H. unfold bind.
  specialize (Hc s H). destruct (c s) as [[e | a] s']; simpl in *.
  - exact Hc.
  - apply Hk, Hc.
Qed.

Lemma keeps_for_each {S A} (I : S -> Prop) (l : list A) (body : A -> M S unit) :
  (forall x, In x l -> Keeps I (body x)) -> Keeps I (for_each l body).
Proof.
  induction l as [| x r IH]; intros Hb; simpl.
  - apply keeps_ret.
  - apply keeps_bind.
    + apply Hb. now left.
    + intros _. apply IH. intros y Hy. apply Hb. now right.
Qed.

Lemma keeps_if {S A} (I : S -> Prop) (b : bool) (c1 c2 : M S A) :
  Keeps I c1 -> Keeps I c2 -> Keeps I (if b then c1 else c2).
Proof. destruct b; auto. Qed.

Lemma raises_ret {S A} (P : Exn -> Prop) (a : A) : Raises P (@ret S A a).
Proof. intros s e H. discriminate. Qed.

Lemma raises_modify {S} (P : Exn -> Prop) (f : S -> S) : Raises P (modify f).
Proof. intros s e H. discriminate. Qed.

Lemma raises_lift {S A} (P : Exn -> Prop) (c : Exc A) :
  ExcRaises P c -> Raises P (@lift S A c).
Proof. intros Hc s e H. apply Hc, H. Qed.

Lemma raises_bind {S A B} (P : Exn -> Prop) (c : M S A) (k : A -> M S B) :
  Raises P c -> (forall a, Raises P (k a)) -> Raises P (bind c k).
Proof.
  intros Hc Hk s e. unfold bind.
  specialize (Hc s). destruct (c s) as [[e' | a] s']; simpl in *.
  - intros H. injection H as <-. now apply Hc.
  - apply Hk.
Qed.

Lemma raises_for_each {S A} (P : Exn -> Prop) (l : list A) (body : A -> M S unit) :
  (forall x, Raises P (body x)) -> Raises P (for_each l body).
Proof.
  intros Hb. induction l as [| x r IH]; simpl.
  - apply raises_ret.
  - apply raises_bind; [apply Hb | intros _; exact IH].
Qed.

Lemma exc_raises_ok {A} (P : Exn -> Prop) (a : A) : ExcRaises P (ok a).
Proof. intros e H. discriminate. Qed.

Lemma exc_raises_bind {A B} (P : Exn -> Prop) (c : Exc A) (k : A -> Exc B) :
  ExcRaises P c -> (forall a, ExcRaises P (k a)) -> ExcRaises P (ebind c k).
Proof.
  intros Hc Hk e. destruct c as [e' | a]; simpl.
  - intros H. injection H as <-. now apply Hc.
  - apply Hk.
Qed.

Lemma index_raises {A} (l : list A) (i : nat) : ExcRaises parse_error (index l i).
Proof.
  intros e. unfold index. destruct (nth_error l i); [discriminate |].
  intros H. injection H as <-. exact I.
Qed.

Lemma int_of_str_raises (s : string) : ExcRaises parse_error (int_of_str s).
Proof.
  intros e. unfold int_of_str.
  destruct (read_int s); [discriminate | |]; intros H; injection H as <-; exact I.
Qed.

Lemma float_of_str_raises (s : string) : ExcRaises parse_error (float_of_str s).
Proof.
  intros e. unfold float_of_str. destruct (parse_float s); [discriminate |].
  intros H. injection H as <-. exact I.
Qed.

(** A loop that raises does not reach the rest of its list. *)
Lemma for_each_stops {S A} (pre rest : list A) (body : A -> M S unit) s e :
  fst (for_each pre body s) = inl e ->
  for_each (pre ++ rest) body s = for_each pre body s.
Proof.
  revert s. induction pre as [| x pre IH]; intros s; simpl.
  - discriminate.
  - unfold bind. destruct (body x s) as [[e' | u] s']; [reflexivity |].
    apply IH.
Qed.

(** A string is the empty string exactly when it is falsy. *)
Lemma nonempty_false (s : string) : nonempty s = false <-> s = "".
Proof. destruct s; simpl; split; congruence. Qed.

(** A string is a prefix of itself followed by anything. *)
Lemma prefix_append (s t : string) : prefix s (s ++ t) = true.
Proof.
  induction s as [| a s IH]; simpl; [now destruct t |].
  destruct (ascii_dec a a); [exact IH | contradiction].
Qed.

(** True division by a positive number does not raise. *)
Lemma true_div_pos (a b : Z) :
  (0 < b)%Z -> true_div a b = ok (Qdiv (inject_Z a) (inject_Z b)).
Proof.
  intros H. unfold true_div.
  destruct (Z.eqb_spec b 0); [lia | reflexivity].
Qed.

(** A quotient of counts, as a percentage, lies between 0 and 100. *)
Lemma percent_bounds (a b : Z) :
  (0 <= a <= b)%Z -> (0 < b)%Z ->
  Qle (inject_Z 0) (Qmult (Qdiv (inject_Z a) (inject_Z b)) (inject_Z 100))
  /\ Qle (Qmult (Qdiv (inject_Z a) (inject_Z b)) (inject_Z 100)) (inject_Z 100).
Proof.
  intros Ha Hb.
  assert (Hq : Qlt (inject_Z 0) (inject_Z b)) by (rewrite <- Zlt_Qlt; exact Hb).
  assert (H0 : Qle (inject_Z 0) (Qdiv (inject_Z a) (inject_Z b))).
  { apply Qle_shift_div_l; [exact Hq |].
    rewrite <- inject_Z_mult, <- Zle_Qle. lia. }
  assert (H1 : Qle (Qdiv (inject_Z a) (inject_Z b)) (inject_Z 1)).
  { apply Qle_shift_div_r; [exact Hq |].
    rewrite <- inject_Z_mult, <- Zle_Qle. lia. }
  split.
  - apply Qmult_le_0_compat; [exact H0 | unfold Qle; simpl; lia].
  - apply Qle_trans with (Qmult (inject_Z 1) (inject_Z 100)).
    + apply Qmult_le_compat_r; [exact H1 | unfold Qle; simpl; lia].
    + rewrite <- inject_Z_mult, <- Zle_Qle. lia.
Qed.

(* ===================================================================== *)
(** ** Parameter resolution *)
(* ===================================================================== *)

Lemma truthy_text_bool (b : bool) : truthy_text (PBool b) = b.
Proof. destruct b; reflexivity. Qed.

(** Coercing a string to [int] gives an integer or the default. *)
Lemma int_or_default_str (raw : string) (default : PyVal) :
  int_or_default (PStr raw) default
  = ok (match parse_int raw with Some z => PInt z | None => default end).
Proof.
  unfold int_or_default, py_int, int_of_str, parse_int.
  destruct (read_int raw); reflexivity.
Qed.

(** With an integer default, [param_type=int] always gives an integer. *)
Lemma ping_get_parameter_int (env : Env) (name : string) (d : Z) :
  exists z, Ping.get_parameter env name (PInt d) TInt = ok (PInt z).
Proof.
  unfold Ping.get_parameter, environ_get.
  destruct (env _) as [raw |].
  - rewrite int_or_default_str. destruct (parse_int raw); eauto.
  - eexists. reflexivity.
Qed.

Lemma db_get_parameter_int (env : Env) (name : string) (d : Z) :
  exists z, Db.get_parameter env name (PInt d) TInt = ok (PInt z).
Proof.
  unfold Db.get_parameter, environ_get.
  destruct (env _) as [raw |].
  - rewrite int_or_default_str. destruct (parse_int raw); eauto.
  - eexists. reflexivity.
Qed.

(** With a string default and no [param_type], the result is the variable
    or the default. *)
Lemma ping_get_parameter_str (env : Env) (name d : string) :
  Ping.get_parameter env name (PStr d) TStr
  = ok (PStr (match env (env_name name) with Some raw => raw | None => d end)).
Proof.
  unfold Ping.get_parameter, environ_get, env_name.
  destruct (env _); reflexivity.
Qed.

Lemma db_get_parameter_str (env : Env) (name d : string) :
  Db.get_parameter env name (PStr d) TStr
  = ok (PStr (match env (env_name name) with Some raw => raw | None => d end)).
Proof.
  unfold Db.get_parameter, environ_get, env_name.
  destruct (env _); reflexivity.
Qed.

(** With [None] as default and no [param_type], the result is the variable
    or [None]. *)
Lemma db_get_parameter_none (env : Env) (name : string) :
  Db.get_parameter env name PNone TStr
  = ok (match env (env_name name) with Some raw => PStr raw | None => PNone end).
Proof.
  unfold Db.get_parameter, environ_get, env_name.
  destruct (env _); reflexivity.
Qed.

(** An absent variable gives the default of the declared type. *)
Lemma ping_get_parameter_absent env name default param_type :
  default_of_type param_type default ->
  env (env_name name) = None ->
  Ping.get_parameter env name default param_type = ok default.
Proof.
  unfold Ping.get_parameter, environ_get, env_name. intros Ht ->.
  destruct default; simpl in Ht; subst; try reflexivity.
  now rewrite truthy_text_bool.
Qed.

Lemma db_get_parameter_absent env name default param_type :
  default_of_type param_type default ->
  env (env_name name) = None ->
  Db.get_parameter env name default param_type = ok default.
Proof.
  unfold Db.get_parameter, environ_get, env_name. intros Ht ->.
  destruct default; simpl in Ht; subst; try reflexivity.
  now rewrite truthy_text_bool.
Qed.

(** A variable that is set never makes [get_parameter] raise. *)
Lemma ping_get_parameter_present env name default param_type raw :
  env (env_name name) = Some raw ->
  exists v, Ping.get_parameter env name default param_type = ok v.
Proof.
  unfold Ping.get_parameter, environ_get, env_name. intros ->.
  destruct param_type; try rewrite int_or_default_str; eauto.
Qed.

Lemma db_get_parameter_present env name default param_type raw :
  env (env_name name) = Some raw ->
  exists v, Db.get_parameter env name default param_type = ok v.
Proof.
  unfold Db.get_parameter, environ_get, env_name. intros ->.
  destruct param_type; try rewrite int_or_default_str; eauto.
Qed.

(** Every default the two scripts declare is of the declared type or
    [None]. *)
Lemma declared_defaults_of_type (db_type : string) :
  Forall (fun call => default_of_type (snd call) (fst call))
    [(PStr "", TStr); (PInt 4, TInt); (PInt 5, TInt);
     (PStr "mysql", TStr); (PStr "localhost", TStr);
     (Db.default_port db_type, TInt); (PNone, TStr); (PInt 30, TInt)].
Proof.
  repeat constructor. unfold Db.default_port.
  destruct (String.eqb _ _); [reflexivity |].
  destruct (String.eqb _ _); reflexivity.
Qed.

(** C7. For both copies of [get_parameter] and a default that is of the
    declared type or [None]: when the environment variable is absent the
    default is returned unchanged; when it is present and [int] does not
    read it, which is when [int] raises, [param_type=int] returns the
    default; and no call raises. *)
Theorem get_parameter_lenient
    (env : Env) (name : string) (default : PyVal) (param_type : PType)
    (Htype : default_of_type param_type default) :
  (env (env_name name) = None ->
     Ping.get_parameter env name default param_type = ok default
     /\ Db.get_parameter env name default param_type = ok default)
  /\ (forall raw, env (env_name name) = Some raw -> param_type = TInt ->
        parse_int raw = None ->
        Ping.get_parameter env name default param_type = ok default
        /\ Db.get_parameter env name default param_type = ok default)
  /\ (exists v, Ping.get_parameter env name default param_type = ok v)
  /\ (exists v, Db.get_parameter env name default param_type = ok v)
  /\ (forall raw, parse_int raw = None <-> exists e, int_of_str raw = inl e).
Proof.
  split; [| split; [| split; [| split]]].
  - intros Habsent. split.
    + now apply ping_get_parameter_absent.
    + now apply db_get_parameter_absent.
  - intros raw Hraw -> Hbad.
    unfold Ping.get_parameter, Db.get_parameter, environ_get.
    rewrite Hraw, int_or_default_str, Hbad. split; reflexivity.
  - destruct (env (env_name name)) as [raw |] eqn:E.
    + eapply ping_get_parameter_present, E.
    + eexists. now apply ping_get_parameter_absent.
  - destruct (env (env_name name)) as [raw |] eqn:E.
    + eapply db_get_parameter_present, E.
    + eexists. now apply db_get_parameter_absent.
  - intros raw. unfold parse_int, int_of_str.
    destruct (read_int raw); split;
      try discriminate; try (intros [e H]; discriminate); eauto.
Qed.

(** C7 at [PARAM_COUNT] holding a 5 behind the separator 28, which [int]
    does not trim, with default 4: the default comes back. *)
Lemma get_parameter_lenient_witness :
  default_of_type TInt (PInt 4)
  /\ parse_int (String "028" "5") = None
  /\ Ping.get_parameter (env_of [("PARAM_COUNT", String "028" "5")]) "count"
       (PInt 4) TInt
     = ok (PInt 4)
  /\ Db.get_parameter (env_of [("PARAM_COUNT", String "028" "5")]) "count"
       (PInt 4) TInt
     = ok (PInt 4).
Proof.
  split; [reflexivity |]. split; [reflexivity |].
  apply (proj1 (proj2 (get_parameter_lenient
                         (env_of [("PARAM_COUNT", String "028" "5")]) "count"
                         (PInt 4) TInt eq_refl)) (String "028" "5"));
    reflexivity.
Defined.

(* ===================================================================== *)
(** ** The ping probe *)
(* ===================================================================== *)

Ltac keeps_step :=
  first
    [ apply keeps_ret
    | apply keeps_lift
    | apply keeps_raise
    | apply keeps_modify; solve [auto]
    | apply keeps_bind
    | apply keeps_for_each
    | match goal with
      | |- Keeps _ (if ?b then _ else _) => destruct b
      | |- forall _, _ => intro
      end ].

Ltac keeps := repeat keeps_step.

Section ParserInvariants.

Variable I : Ping.PingResult -> Prop.

(** The invariant survives the assignments of the packet statistics. *)
Hypothesis I_sent : forall z r, I r -> I (Ping.set_packets_sent z r).
Hypothesis I_received : forall z r, I r -> I (Ping.set_packets_received z r).
Hypothesis I_loss : forall f r, I r -> I (Ping.set_packet_loss_percent f r).

Lemma parse_packets_nt_keeps line : Keeps I (Ping.parse_packets_nt line).
Proof. unfold Ping.parse_packets_nt. keeps. Qed.

Lemma parse_packets_unix_keeps line : Keeps I (Ping.parse_packets_unix line).
Proof. unfold Ping.parse_packets_unix. keeps. Qed.

(** A line that is not read as a timing line. *)
Lemma parse_line_keeps_untimed nt line :
  Ping.is_packet_line (strip line) = true
  \/ Ping.is_timing_line (strip line) = false ->
  Keeps I (Ping.parse_line nt line).
Proof.
  unfold Ping.parse_line. intros [H | H].
  - rewrite H. destruct nt;
      [apply parse_packets_nt_keeps | apply parse_packets_unix_keeps].
  - rewrite H. destruct (Ping.is_packet_line (strip line)).
    + destruct nt; [apply parse_packets_nt_keeps | apply parse_packets_unix_keeps].
    + apply keeps_ret.
Qed.

(** The invariant also survives the assignments of the timings. *)
Hypothesis I_min : forall f r, I r -> I (Ping.set_min_time f r).
Hypothesis I_avg : forall f r, I r -> I (Ping.set_avg_time f r).
Hypothesis I_max : forall f r, I r -> I (Ping.set_max_time f r).

Lemma parse_times_nt_keeps line : Keeps I (Ping.parse_times_nt line).
Proof. unfold Ping.parse_times_nt. keeps. Qed.

Lemma parse_times_unix_keeps line : Keeps I (Ping.parse_times_unix line).
Proof. unfold Ping.parse_times_unix. keeps. Qed.

Lemma parse_line_keeps nt line : Keeps I (Ping.parse_line nt line).
Proof.
  unfold Ping.parse_line.
  destruct (Ping.is_packet_line (strip line)).
  - destruct nt; [apply parse_packets_nt_keeps | apply parse_packets_unix_keeps].
  - destruct (Ping.is_timing_line (strip line)).
    + destruct nt; [apply parse_times_nt_keeps | apply parse_times_unix_keeps].
    + apply keeps_ret.
Qed.

Lemma parse_output_keeps nt output : Keeps I (Ping.parse_output nt output).
Proof.
  unfold Ping.parse_output. apply keeps_for_each.
  intros line _. apply parse_line_keeps.
Qed.

End ParserInvariants.

(** Parsing never touches the host or the success flag. *)
Lemma parse_output_host nt output r :
  Ping.host (snd (Ping.parse_output nt output r)) = Ping.host r.
Proof.
  apply (parse_output_keeps (fun x => Ping.host x = Ping.host r)); auto.
Qed.

Lemma parse_output_success nt output r :
  Ping.success (snd (Ping.parse_output nt output r)) = Ping.success r.
Proof.
  apply (parse_output_keeps (fun x => Ping.success x = Ping.success r)); auto.
Qed.

(** The [except] clauses only assign the error: [handle] is [set_error]. *)
Lemma handle_is_set_error count timeout e r :
  exists m, Ping.handle count timeout e r = Ping.set_error m r.
Proof. destruct e; simpl; eauto. Qed.

(** The result is what the [try] block left, with the error assigned when
    the block raised. *)
Lemma ping_result_fields nt h count timeout outcome :
  let r := snd (Ping.try_block nt outcome (Ping.initial_result h)) in
  let p := Ping.ping_result nt h count timeout outcome in
  Ping.host p = Ping.host r /\ Ping.success p = Ping.success r
  /\ Ping.packets_sent p = Ping.packets_sent r
  /\ Ping.packets_received p = Ping.packets_received r
  /\ Ping.packet_loss_percent p = Ping.packet_loss_percent r
  /\ Ping.min_time p = Ping.min_time r /\ Ping.avg_time p = Ping.avg_time r
  /\ Ping.max_time p = Ping.max_time r.
Proof.
  unfold Ping.ping_result.
  destruct (Ping.try_block nt outcome (Ping.initial_result h)) as [[e | u] r].
  - destruct (handle_is_set_error count timeout e r) as [m ->].
    simpl. repeat split.
  - simpl. repeat split.
Qed.

(** What the [try] block leaves when the tool returned status zero. *)
Lemma try_block_zero nt h stdout stderr :
  Ping.try_block nt (Ping.Completed 0 stdout stderr) (Ping.initial_result h)
  = Ping.parse_output nt stdout (Ping.set_success true (Ping.initial_result h)).
Proof. reflexivity. Qed.

(** What it leaves when the tool returned another status, or raised. *)
Lemma try_block_nonzero nt h returncode stdout stderr :
  returncode <> 0%Z ->
  exists m,
    snd (Ping.try_block nt (Ping.Completed returncode stdout stderr)
           (Ping.initial_result h))
    = Ping.set_error m (Ping.initial_result h).
Proof.
  intros H. unfold Ping.try_block.
  destruct (Z.eqb_spec returncode 0); [contradiction |].
  eexists. reflexivity.
Qed.

(** The host of a result is the host that was pinged. *)
Lemma ping_result_host nt h count timeout outcome :
  Ping.host (Ping.ping_result nt h count timeout outcome) = h.
Proof.
  destruct (ping_result_fields nt h count timeout outcome) as (-> & _).
  destruct outcome as [rc out err | e]; [| reflexivity].
  unfold Ping.try_block. destruct (rc =? 0)%Z; [| reflexivity].
  unfold bind, modify. simpl. now rewrite parse_output_host.
Qed.

(** The success flag is the test of the return status. *)
Lemma ping_result_success nt h count timeout returncode stdout stderr :
  Ping.success
    (Ping.ping_result nt h count timeout (Ping.Completed returncode stdout stderr))
  = (returncode =? 0)%Z.
Proof.
  destruct (ping_result_fields nt h count timeout
              (Ping.Completed returncode stdout stderr)) as (_ & -> & _).
  unfold Ping.try_block. destruct (returncode =? 0)%Z; [| reflexivity].
  unfold bind, modify. simpl. now rewrite parse_output_success.
Qed.

Lemma ping_result_raised nt h count timeout e :
  Ping.success (Ping.ping_result nt h count timeout (Ping.Raised e)) = false.
Proof.
  now destruct (ping_result_fields nt h count timeout (Ping.Raised e))
    as (_ & -> & _).
Qed.

(** A failed result carries the initial packet statistics. *)
Lemma failed_result_defaults nt h count timeout outcome :
  Ping.success (Ping.ping_result nt h count timeout outcome) = false ->
  Ping.packets_sent (Ping.ping_result nt h count timeout outcome) = 0%Z
  /\ Ping.packets_received (Ping.ping_result nt h count timeout outcome) = 0%Z
  /\ Ping.packet_loss_percent (Ping.ping_result nt h count timeout outcome)
     = Ping.NInt 100.
Proof.
  intros Hfail.
  destruct (ping_result_fields nt h count timeout outcome)
    as (_ & _ & -> & -> & -> & _).
  destruct outcome as [rc out err | e]; [| now repeat split].
  rewrite ping_result_success in Hfail.
  destruct (try_block_nonzero nt h rc out err) as [m ->].
  - intros ->. discriminate.
  - now repeat split.
Qed.

(* ===================================================================== *)
(** ** The network check *)
(* ===================================================================== *)

Section PingMain.

Variable W : Type.
Variable run : W -> list string -> Z -> Ping.RunOutcome * W.
Variable nt : bool.
Variable write_file : Ping.Report -> option Exn.

Local Abbreviation World := (Ping.World W).
Local Abbreviation Loop := (Ping.Loop W).
Local Abbreviation ping_host := (Ping.ping_host W run nt).
Local Abbreviation ping_step := (Ping.ping_step W run nt).
Local Abbreviation ping_all := (Ping.ping_all W run nt).
Local Abbreviation main := (Ping.main W run nt write_file).

(** One probe: one command run under the time limit, one result. *)
Lemma ping_host_spec h count timeout (w : World) :
  let cmd := Ping.ping_command nt h count timeout in
  let limit := Ping.time_limit count timeout in
  ping_host h count timeout w
  = (Ping.ping_result nt h count timeout (fst (run (Ping.net W w) cmd limit)),
     Ping.mkWorld W (snd (run (Ping.net W w) cmd limit))
       (Ping.calls W w ++ [(cmd, limit)])%list).
Proof.
  simpl. unfold Ping.ping_host, Ping.subprocess_run.
  destruct (run _ _ _); reflexivity.
Qed.

(** The progress lines of a probe never include the partial-success line. *)
Lemma progress_no_partial h count timeout outcome a b :
  ~ In (Ping.LPartialSuccess a b)
      (Ping.progress (Ping.ping_result nt h count timeout outcome)).
Proof.
  unfold Ping.progress.
  destruct (Ping.success _) eqn:E.
  - unfold Ping.avg_line. intros [H | H]; [discriminate |].
    destruct (Ping.avg_time _) as [t |]; [destruct (float_truthy t) |];
      simpl in H; intuition discriminate.
  - destruct (failed_result_defaults nt h count timeout outcome E) as (_ & _ & ->).
    simpl. intuition discriminate.
Qed.

(** One iteration of the loop. *)
Lemma ping_step_spec count timeout total (st : Loop) i h :
  let o := fst (run (Ping.net W (Ping.loop_world W st))
                  (Ping.ping_command nt h count timeout)
                  (Ping.time_limit count timeout)) in
  let n := snd (run (Ping.net W (Ping.loop_world W st))
                  (Ping.ping_command nt h count timeout)
                  (Ping.time_limit count timeout)) in
  let r := Ping.ping_result nt h count timeout o in
  ping_step count timeout total st (i, h)
  = Ping.mkLoop W
      (Ping.mkWorld W n
         (Ping.calls W (Ping.loop_world W st)
          ++ [(Ping.ping_command nt h count timeout,
               Ping.time_limit count timeout)])%list)
      (Ping.loop_results W st ++ [r])%list
      (if Ping.success r then Ping.loop_successful W st + 1
       else Ping.loop_successful W st)%Z
      (Ping.loop_output W st
       ++ Ping.LPinging i total h :: Ping.progress r ++ [Ping.LBlank])%list.
Proof.
  simpl. unfold Ping.ping_step. rewrite ping_host_spec. reflexivity.
Qed.

(** The loop over the hosts, from any state of its variables. *)
Lemma ping_loop_spec count timeout total (hosts : list string) :
  forall (i : Z) (st : Loop),
    let st' := fold_left (ping_step count timeout total) (Ping.enumerate i hosts) st in
    exists rs,
      Ping.loop_results W st' = (Ping.loop_results W st ++ rs)%list
      /\ map Ping.host rs = hosts
      /\ Ping.loop_successful W st'
         = (Ping.loop_successful W st
            + Z.of_nat (List.length (filter Ping.success rs)))%Z
      /\ Ping.calls W (Ping.loop_world W st')
         = (Ping.calls W (Ping.loop_world W st)
            ++ map (fun h => (Ping.ping_command nt h count timeout,
                              Ping.time_limit count timeout)) hosts)%list
      /\ (forall a b, In (Ping.LPartialSuccess a b) (Ping.loop_output W st') ->
                      In (Ping.LPartialSuccess a b) (Ping.loop_output W st))
      /\ Forall (fun r => exists o,
                   r = Ping.ping_result nt (Ping.host r) count timeout o) rs.
Proof.
  induction hosts as [| h hosts IH]; intros i st;
    cbn [fold_left Ping.enumerate]; cbv zeta.
  - exists []. rewrite !app_nil_r. simpl. repeat split; auto. lia.
  - rewrite ping_step_spec.
    set (o := fst (run _ _ _)). set (n := snd (run _ _ _)).
    set (r := Ping.ping_result nt h count timeout o).
    match goal with
    | |- context [fold_left _ _ ?s] => destruct (IH (i + 1)%Z s) as (rs & H1 & H2 & H3 & H4 & H5 & H6)
    end.
    cbn [Ping.loop_results Ping.loop_successful Ping.loop_world Ping.loop_output
         Ping.calls] in H1, H3, H4, H5.
    exists (r :: rs).
    split; [| split; [| split; [| split; [| split]]]].
    + rewrite H1, <- app_assoc. reflexivity.
    + simpl. unfold r at 1. now rewrite ping_result_host, H2.
    + rewrite H3. simpl. destruct (Ping.success r); simpl List.length; lia.
    + rewrite H4, <- app_assoc. reflexivity.
    + intros a b Hin. apply H5 in Hin.
      apply in_app_or in Hin. destruct Hin as [Hin | Hin]; [exact Hin |].
      simpl in Hin. destruct Hin as [Hin | Hin]; [discriminate |].
      apply in_app_or in Hin. destruct Hin as [Hin | Hin].
      * now apply progress_no_partial in Hin.
      * simpl in Hin. intuition discriminate.
    + constructor; [| exact H6].
      exists o. unfold r at 2. now rewrite ping_result_host.
Qed.

(** Counting the successes of a list. *)
Lemma count_all {A} (f : A -> bool) (l : list A) :
  (List.length (filter f l) =? List.length l)%nat = forallb f l.
Proof.
  induction l as [| x l IH]; [reflexivity |].
  simpl. pose proof (filter_length_le f l) as Hle.
  destruct (f x); simpl.
  - exact IH.
  - apply Nat.eqb_neq. lia.
Qed.

Lemma count_some {A} (f : A -> bool) (l : list A) :
  (0 <? List.length (filter f l))%nat = existsb f l.
Proof.
  induction l as [| x l IH]; [reflexivity |].
  simpl. destruct (f x); simpl; [reflexivity | exact IH].
Qed.

(** The final verdict, in terms of the results. *)
Lemma verdict_expected (rs : list Ping.PingResult) :
  fst (Ping.verdict (Z.of_nat (List.length (filter Ping.success rs)))
         (Z.of_nat (List.length rs)))
  = expected_exit rs.
Proof.
  unfold Ping.verdict, expected_exit.
  rewrite <- count_all, <- count_some.
  destruct (Nat.eqb_spec (List.length (filter Ping.success rs)) (List.length rs))
    as [E | E].
  - rewrite E, Z.eqb_refl. reflexivity.
  - destruct (Z.eqb_spec (Z.of_nat (List.length (filter Ping.success rs)))
                (Z.of_nat (List.length rs))); [lia |].
    destruct (Nat.ltb_spec 0 (List.length (filter Ping.success rs)));
      destruct (Z.gtb_spec (Z.of_nat (List.length (filter Ping.success rs))) 0);
      try lia; reflexivity.
Qed.

(** The whole loop of [main], from its initial state. *)
Lemma ping_all_spec hosts count timeout (w : World) (out : list Ping.Line) :
  (forall a b, ~ In (Ping.LPartialSuccess a b) out) ->
  let st := ping_all hosts count timeout (Ping.mkLoop W w [] 0 out) in
  map Ping.host (Ping.loop_results W st) = hosts
  /\ Ping.loop_successful W st
     = Z.of_nat (List.length (filter Ping.success (Ping.loop_results W st)))
  /\ Ping.calls W (Ping.loop_world W st)
     = (Ping.calls W w ++ map (request nt count timeout) hosts)%list
  /\ (forall a b, ~ In (Ping.LPartialSuccess a b) (Ping.loop_output W st))
  /\ Forall (fun r => exists o,
               r = Ping.ping_result nt (Ping.host r) count timeout o)
       (Ping.loop_results W st).
Proof.
  intros Hout. unfold Ping.ping_all.
  destruct (ping_loop_spec count timeout (Z.of_nat (List.length hosts)) hosts 1
              (Ping.mkLoop W w [] 0 out)) as (rs & H1 & H2 & H3 & H4 & H5 & H6).
  cbn [Ping.loop_results Ping.loop_successful Ping.loop_world Ping.loop_output
       app] in H1, H3, H4, H5.
  cbv zeta. rewrite H1, H3, H4. repeat split; auto.
  intros a b Hin. exact (Hout a b (H5 a b Hin)).
Qed.

(** How [main] ends: without valid hosts it exits with 1 before the loop;
    otherwise it runs the loop and never raises. *)
Lemma ping_main_spec env (w : World) :
  let hosts := split_items (hosts_parameter env) in
  exists r, main env w = ok r
    /\ (hosts = [] ->
          Ping.exit_code W r = 1%Z /\ Ping.results W r = []
          /\ Ping.summary W r = None /\ Ping.saved W r = None
          /\ Ping.final W r = w
          /\ (forall a b, ~ In (Ping.LPartialSuccess a b) (Ping.output W r)))
    /\ (hosts <> [] ->
          exists count timeout rate,
            let st := ping_all hosts count timeout
                        (Ping.mkLoop W w [] 0
                           [Ping.LStarting; Ping.LParameters hosts count timeout]) in
            let total := Z.of_nat (List.length hosts) in
            let successful := Ping.loop_successful W st in
            Ping.rate_percent successful total = ok rate
            /\ Ping.exit_code W r = fst (Ping.verdict successful total)
            /\ Ping.results W r = Ping.loop_results W st
            /\ Ping.summary W r
               = Some (Ping.mkSummary total successful (total - successful) rate)
            /\ Ping.final W r = Ping.loop_world W st
            /\ (forall a b, ~ In (Ping.LPartialSuccess a b) (Ping.output W r))
            /\ (forall data, Ping.saved W r = Some data ->
                  Some (Ping.report_summary data) = Ping.summary W r
                  /\ Ping.report_results data = Ping.results W r)).
Proof.
  cbv zeta. unfold Ping.main.
  rewrite ping_get_parameter_str.
  change (env (env_name "hosts")) with (env "PARAM_HOSTS").
  fold (hosts_parameter env).
  destruct (ping_get_parameter_int env "count" 4) as [count ->].
  destruct (ping_get_parameter_int env "timeout" 5) as [timeout ->].
  cbn [ebind as_str as_int ok].
  destruct (nonempty (hosts_parameter env)) eqn:Hne; cbn [negb].
  - destruct (split_items (hosts_parameter env)) as [| h hosts] eqn:Hhosts.
    + eexists. split; [reflexivity |]. split; [| congruence].
      intros _. cbn. repeat split. intros a b [H | [H | []]]; discriminate.
    + set (hs := h :: hosts).
      set (st := ping_all hs count timeout _).
      assert (Htotal : (0 < Z.of_nat (List.length hs))%Z) by (simpl; lia).
      assert (Hrate : Ping.rate_percent (Ping.loop_successful W st)
                        (Z.of_nat (List.length hs))
                      = ok (Qmult (Qdiv (inject_Z (Ping.loop_successful W st))
                                     (inject_Z (Z.of_nat (List.length hs))))
                              (inject_Z 100))).
      { unfold Ping.rate_percent. now rewrite (true_div_pos _ _ Htotal). }
      rewrite Hrate. cbn [ebind ok].
      destruct (Ping.save write_file hs count timeout _ _ _) as [file saving] eqn:Hsave.
      destruct (Ping.verdict _ _) as [code last] eqn:Hverdict.
      eexists. split; [reflexivity |]. split; [discriminate |].
      intros _. exists count, timeout. eexists.
      cbn [Ping.exit_code Ping.results Ping.summary Ping.final Ping.output].
      split; [| split; [| split; [| split; [| split; [| split]]]]];
        [| | reflexivity | reflexivity | reflexivity | |].
      * exact Hrate.
      * fold st. now rewrite Hverdict.
      * intros a b Hin.
        destruct (ping_all_spec hs count timeout w
                    [Ping.LStarting; Ping.LParameters hs count timeout])
          as (_ & _ & _ & Hno & _).
        { intros x y [H | [H | []]]; discriminate. }
        apply in_app_or in Hin. destruct Hin as [Hin | Hin].
        { exact (Hno a b Hin). }
        destruct Hin as [Hin | Hin]; [discriminate |].
        apply in_app_or in Hin. destruct Hin as [Hin | Hin].
        { apply in_map_iff in Hin. destruct Hin as (x & Hx & _). discriminate. }
        apply in_app_or in Hin. destruct Hin as [Hin | Hin].
        { unfold Ping.save in Hsave.
          destruct (Ping.rate_percent _ _);
            [| destruct (write_file _)]; inversion Hsave; subst saving;
            destruct Hin as [Hin | []]; discriminate. }
        { unfold Ping.verdict in Hverdict.
          destruct (_ =? _)%Z; [| destruct (_ >? _)%Z];
            inversion Hverdict; subst last;
            destruct Hin as [Hin | []]; discriminate. }
      * intros data Hdata. unfold Ping.save in Hsave. fold st in Hsave.
        rewrite Hrate in Hsave. cbv beta iota delta [ok] in Hsave.
        destruct (write_file _); injection Hsave as Hfile _;
          rewrite <- Hfile in Hdata; [discriminate |].
        injection Hdata as Hd. rewrite <- Hd. split; reflexivity.
  - apply nonempty_false in Hne. rewrite Hne.
    eexists. split; [reflexivity |]. split; [| intros H; now elim H].
    intros _. cbn. repeat split. intros a b [H | [H | []]]; discriminate.
Qed.

(** C2. The exit status of the network check: there is one result per
    valid host of the [hosts] parameter; without a valid host (the
    parameter is missing, empty, or holds only separators and blanks) the
    process exits with 1 and no command was run; otherwise it exits with 0
    when every result succeeded, with 1 when some but not all succeeded,
    and with 2 when none did. *)
Theorem ping_exit_code env (w : World) :
  exists r, main env w = ok r
    /\ map Ping.host (Ping.results W r) = split_items (hosts_parameter env)
    /\ (env "PARAM_HOSTS" = None \/ env "PARAM_HOSTS" = Some "" ->
          split_items (hosts_parameter env) = [])
    /\ (split_items (hosts_parameter env) = [] ->
          Ping.exit_code W r = 1%Z /\ Ping.results W r = []
          /\ Ping.final W r = w)
    /\ (split_items (hosts_parameter env) <> [] ->
          Ping.exit_code W r = expected_exit (Ping.results W r)).
Proof.
  destruct (ping_main_spec env w) as (r & Hr & Hnone & Hsome).
  exists r. split; [exact Hr |].
  assert (Hempty : env "PARAM_HOSTS" = None \/ env "PARAM_HOSTS" = Some "" ->
                   split_items (hosts_parameter env) = []).
  { unfold hosts_parameter. intros [-> | ->]; reflexivity. }
  destruct (split_items (hosts_parameter env)) as [| h hosts] eqn:Hhosts.
  - destruct (Hnone eq_refl) as (Hcode & Hres & _ & _ & Hw & _).
    rewrite Hres. repeat split; auto. congruence.
  - destruct Hsome as (count & timeout & rate & _ & Hcode & Hres & _);
      [discriminate |].
    destruct (ping_all_spec (h :: hosts) count timeout w
                [Ping.LStarting; Ping.LParameters (h :: hosts) count timeout])
      as (Hmap & Hsucc & _).
    { intros x y [H | [H | []]]; discriminate. }
    cbv zeta in Hcode, Hres.
    set (st := ping_all (h :: hosts) count timeout _) in *.
    assert (Hlen : List.length (h :: hosts)
                   = List.length (Ping.loop_results W st))
      by (now rewrite <- Hmap, length_map).
    rewrite Hres. split; [exact Hmap |]. split; [exact Hempty |].
    split; [discriminate |]. intros _.
    rewrite Hcode, Hsucc, Hlen. apply verdict_expected.
Qed.



(** C10. A failed result (the tool returned a status other than zero,
    timed out, or could not be run) has no packets sent, none received and
    a loss of 100; so the results of a run are such, and the run never
    prints the partial-success line. *)
Theorem failed_result_has_defaults env (w : World) :
  (forall h count timeout outcome,
     Ping.success (Ping.ping_result nt h count timeout outcome) = false ->
     Ping.packets_sent (Ping.ping_result nt h count timeout outcome) = 0%Z
     /\ Ping.packets_received (Ping.ping_result nt h count timeout outcome) = 0%Z
     /\ Ping.packet_loss_percent (Ping.ping_result nt h count timeout outcome)
        = Ping.NInt 100)
  /\ exists r, main env w = ok r
       /\ Forall (fun x => Ping.success x = false ->
                           Ping.packets_sent x = 0%Z
                           /\ Ping.packets_received x = 0%Z
                           /\ Ping.packet_loss_percent x = Ping.NInt 100)
            (Ping.results W r)
       /\ forall a b, ~ In (Ping.LPartialSuccess a b) (Ping.output W r).
Proof.
  split; [intros; now apply failed_result_defaults |].
  destruct (ping_main_spec env w) as (r & Hr & Hnone & Hsome).
  exists r. split; [exact Hr |].
  destruct (split_items (hosts_parameter env)) as [| h hosts] eqn:Hhosts.
  - destruct (Hnone eq_refl) as (_ & Hres & _ & _ & _ & Hout).
    rewrite Hres. split; [constructor | exact Hout].
  - destruct Hsome as (count & timeout & rate & _ & _ & Hres & _ & _ & Hout & _);
      [discriminate |].
    split; [| exact Hout]. rewrite Hres.
    destruct (ping_all_spec (h :: hosts) count timeout w
                [Ping.LStarting; Ping.LParameters (h :: hosts) count timeout])
      as (_ & _ & _ & _ & Hall).
    { intros x y [H | [H | []]]; discriminate. }
    eapply Forall_impl; [| exact Hall].
    intros x [o Hx] Hfail. rewrite Hx in Hfail |- *.
    now apply failed_result_defaults.
Qed.

End PingMain.

(** C2 on a reachable and an unknown host: the exit status is 1. *)
Lemma ping_exit_code_witness :
  exists r,
    Ping.main unit sample_run false (fun _ => None) two_hosts_env sample_world = ok r
    /\ split_items (hosts_parameter two_hosts_env) <> []
    /\ Ping.exit_code unit r = expected_exit (Ping.results unit r)
    /\ map Ping.success (Ping.results unit r) = [true; false]
    /\ Ping.exit_code unit r = 1%Z.
Proof.
  destruct (ping_exit_code unit sample_run false (fun _ => None) two_hosts_env
              sample_world) as (r & Hr & _ & _ & _ & Hsome).
  assert (Hne : split_items (hosts_parameter two_hosts_env) <> [])
    by (vm_compute; discriminate).
  exists r. split; [exact Hr |]. split; [exact Hne |].
  split; [exact (Hsome Hne) |].
  vm_compute in Hr. injection Hr as <-. split; reflexivity.
Defined.

(** C10 on a run over a host that hangs and a host that is unknown. *)
Lemma failed_result_has_defaults_witness :
  Ping.success (Ping.ping_result false "slow.host" 4 5 (Ping.Raised TimeoutExpired))
  = false
  /\ Ping.packet_loss_percent
       (Ping.ping_result false "slow.host" 4 5 (Ping.Raised TimeoutExpired))
     = Ping.NInt 100.
Proof.
  split; [reflexivity |].
  apply (proj1 (failed_result_has_defaults unit sample_run false (fun _ => None)
                  (env_of [("PARAM_HOSTS", "slow.host,bad.host")]) sample_world)
           "slow.host" 4%Z 5%Z (Ping.Raised TimeoutExpired)).
  reflexivity.
Defined.

Ltac raises_step :=
  first
    [ apply raises_ret
    | apply raises_modify
    | apply raises_lift
    | apply raises_bind
    | apply raises_for_each
    | apply exc_raises_ok
    | apply exc_raises_bind
    | apply index_raises
    | apply int_of_str_raises
    | apply float_of_str_raises
    | match goal with
      | |- Raises _ (if ?b then _ else _) => destruct b
      | |- forall _, _ => intro
      end ].

(** Parsing raises nothing but parse errors. *)
Lemma parse_output_raises nt output :
  Raises parse_error (Ping.parse_output nt output).
Proof.
  unfold Ping.parse_output. apply raises_for_each. intros line.
  unfold Ping.parse_line, Ping.parse_packets_nt, Ping.parse_packets_unix,
    Ping.parse_times_nt, Ping.parse_times_unix, Ping.ms_value, Ping.field.
  destruct nt; repeat raises_step.
Qed.

(** The parser raises on the broken timing line after it has assigned the
    minimum: the result is successful, has an error and a minimum time. *)
Lemma parse_failure_after_min_time :
  fst (Ping.parse_output false broken_timing
         (Ping.set_success true (Ping.initial_result "h")))
  = inl (ValueError "could not convert string to float: 'abc'")
  /\ Ping.ping_result false "h" 4 5 (Ping.Completed 0 broken_timing "")
     = Ping.mkPingResult "h" true 0 0 (Ping.NInt 100)
         (Some (FNum (Qmake 10 10))) None None
         (Some "could not convert string to float: 'abc'").
Proof. split; vm_compute; reflexivity. Qed.

(** C4, as the code has it. When the tool ran to completion, the result
    is successful exactly when the return status is zero.  When the status
    is zero and parsing the output raises, the result is still successful
    and its error is the text of the exception.  The three timings are
    null when no line of the output is read as a timing line, and also
    when parsing raises before it reaches such a line; a timing line that
    raises midway keeps the timings assigned before. *)
Theorem success_iff_status_zero nt h count timeout returncode stdout stderr :
  let r := Ping.ping_result nt h count timeout
             (Ping.Completed returncode stdout stderr) in
  let start := Ping.set_success true (Ping.initial_result h) in
  let null_timings :=
    Ping.min_time r = None /\ Ping.avg_time r = None /\ Ping.max_time r = None in
  (Ping.success r = true <-> returncode = 0%Z)
  /\ (forall e,
        returncode = 0%Z ->
        fst (Ping.parse_output nt stdout start) = inl e ->
        Ping.success r = true /\ Ping.error r = Some (exn_str e))
  /\ (returncode = 0%Z ->
      Forall untimed (split_on "010" stdout) ->
      null_timings)
  /\ (forall pre rest e,
        returncode = 0%Z ->
        split_on "010" stdout = (pre ++ rest)%list ->
        Forall untimed pre ->
        fst (for_each pre (Ping.parse_line nt) start) = inl e ->
        null_timings).
Proof.
  cbv zeta.
  assert (Hkeep : forall lines,
             Forall untimed lines ->
             Keeps (fun x => Ping.min_time x = None /\ Ping.avg_time x = None
                             /\ Ping.max_time x = None)
               (for_each lines (Ping.parse_line nt))).
  { intros lines Hlines. apply keeps_for_each.
    intros line Hin. apply parse_line_keeps_untimed; auto.
    eapply Forall_forall in Hlines; [exact Hlines | exact Hin]. }
  split; [| split; [| split]].
  - rewrite ping_result_success. apply Z.eqb_eq.
  - intros e -> He. split.
    + now rewrite ping_result_success.
    + pose proof (parse_output_raises nt stdout _ _ He) as Hclass.
      unfold Ping.ping_result. rewrite try_block_zero.
      destruct (Ping.parse_output _ _ _) as [[e' | u] r']; [| discriminate].
      simpl in He. injection He as ->.
      destruct e; simpl in Hclass; try contradiction; reflexivity.
  - intros -> Hlines.
    destruct (ping_result_fields nt h count timeout (Ping.Completed 0 stdout stderr))
      as (_ & _ & _ & _ & _ & -> & -> & ->).
    rewrite try_block_zero. apply (Hkeep _ Hlines). repeat split.
  - intros pre rest e -> Hsplit Hpre Hraise.
    destruct (ping_result_fields nt h count timeout (Ping.Completed 0 stdout stderr))
      as (_ & _ & _ & _ & _ & -> & -> & ->).
    rewrite try_block_zero. unfold Ping.parse_output.
    rewrite Hsplit, (for_each_stops pre rest _ _ _ Hraise).
    apply (Hkeep _ Hpre). repeat split.
Qed.

(** C4 on statistics with an errors field: parsing raises on the first
    line, the result is successful with that error, and the timings of the
    line that follows are not read. *)
Lemma success_iff_status_zero_witness :
  split_on "010" errors_output = [errors_line; timing_line]
  /\ Forall untimed [errors_line]
  /\ fst (for_each [errors_line] (Ping.parse_line false)
            (Ping.set_success true (Ping.initial_result "h")))
     = inl (ValueError "could not convert string to float: '+1 errors'")
  /\ Ping.min_time (Ping.ping_result false "h" 4 5
                      (Ping.Completed 0 errors_output "")) = None.
Proof.
  assert (H1 : split_on "010" errors_output = [errors_line; timing_line])
    by reflexivity.
  assert (H2 : Forall untimed [errors_line])
    by (constructor; [left; reflexivity | constructor]).
  assert (H3 : fst (for_each [errors_line] (Ping.parse_line false)
                      (Ping.set_success true (Ping.initial_result "h")))
               = inl (ValueError "could not convert string to float: '+1 errors'"))
    by (vm_compute; reflexivity).
  split; [exact H1 |]. split; [exact H2 |]. split; [exact H3 |].
  exact (proj1 (proj2 (proj2 (proj2 (success_iff_status_zero false "h" 4 5 0
                                       errors_output "")))
                 [errors_line] [timing_line] _ eq_refl H1 H2 H3)).
Defined.

(* ===================================================================== *)
(** ** The database checks *)
(* ===================================================================== *)

Section CheckInvariants.

Variable clock : nat -> Q.
Variable srv : Db.Server.
Variable P : Db.Check -> Prop.

Lemma keeps_now : Keeps (OnResult P) (Db.now clock).
Proof. intros s H. exact H. Qed.

Lemma keeps_execute q : Keeps (OnResult P) (Db.execute srv q).
Proof.
  intros s H. unfold Db.execute. destruct (Db.run_query srv q); exact H.
Qed.

Lemma keeps_open_cursor : Keeps (OnResult P) (Db.open_cursor srv).
Proof.
  intros s H. unfold Db.open_cursor. destruct (Db.cursor_fault srv); exact H.
Qed.

Lemma keeps_close_cursor : Keeps (OnResult P) (Db.close_cursor srv).
Proof.
  intros s H. unfold Db.close_cursor. destruct (Db.close_fault srv); exact H.
Qed.

Lemma keeps_fetchone : Keeps (OnResult P) (Db.fetchone srv).
Proof.
  intros s H. unfold Db.fetchone.
  destruct (Db.fetch_fault srv _); [exact H |]. destruct (Db.cursor s); exact H.
Qed.

Lemma keeps_fetchall : Keeps (OnResult P) (Db.fetchall srv).
Proof.
  intros s H. unfold Db.fetchall. destruct (Db.fetch_fault srv _); exact H.
Qed.

Lemma keeps_fetch_first : Keeps (OnResult P) (Db.fetch_first srv).
Proof.
  unfold Db.fetch_first. apply keeps_bind; [apply keeps_fetchone |].
  intros row. apply keeps_lift.
Qed.

Lemma keeps_on_result f :
  (forall r, P r -> P (f r)) -> Keeps (OnResult P) (Db.on_result f).
Proof. intros Hf s H. apply Hf, H. Qed.

Lemma keeps_round_trips n q :
  Keeps (OnResult P) (Db.round_trips srv n q).
Proof.
  induction n as [| n IH]; simpl.
  - apply keeps_ret.
  - apply keeps_bind; [apply keeps_execute | intros _].
    apply keeps_bind; [apply keeps_fetchone | intros _]. exact IH.
Qed.

End CheckInvariants.

Ltac db_keeps_step :=
  first
    [ apply keeps_now
    | apply keeps_open_cursor
    | apply keeps_close_cursor
    | apply keeps_execute
    | apply keeps_fetchone
    | apply keeps_fetchall
    | apply keeps_fetch_first
    | apply keeps_round_trips
    | apply keeps_on_result; solve [auto]
    | keeps_step ].

Ltac db_keeps :=
  unfold Db.set_detail, Db.set_details, Db.set_response_time, Db.set_success;
  repeat db_keeps_step.

Section TableEntries.

Variable srv : Db.Server.
Variable P : Db.Check -> Prop.

Lemma keeps_table_entry db_type row :
  Keeps (OnResult P) (Db.table_entry srv db_type row).
Proof. unfold Db.table_entry. db_keeps. Qed.

Lemma keeps_table_entries db_type rows :
  Keeps (OnResult P) (Db.table_entries srv db_type rows).
Proof.
  induction rows as [| row rows IH]; simpl.
  - apply keeps_ret.
  - apply keeps_bind; [apply keeps_table_entry | intros e].
    apply keeps_bind; [exact IH | intros es]. apply keeps_ret.
Qed.

End TableEntries.

(** A computation that leaves the success flag alone ends timed. *)
Lemma ends_timed_quiet {A} (c : M Db.State A) :
  Keeps (OnResult (fun r => Db.success r = false)) c -> EndsTimed c.
Proof.
  intros Hc s Hs Htrue. apply Hc in Hs. unfold OnResult in Hs. congruence.
Qed.

Lemma ends_timed_bind {A B} (c : M Db.State A) (k : A -> M Db.State B) :
  Keeps (OnResult (fun r => Db.success r = false)) c ->
  (forall a, EndsTimed (k a)) -> EndsTimed (bind c k).
Proof.
  intros Hc Hk s Hs. unfold bind.
  specialize (Hc s Hs). unfold OnResult in Hc.
  destruct (c s) as [[e | a] s']; simpl in *.
  - intros Htrue. congruence.
  - now apply Hk.
Qed.

(** Once the response time is assigned, nothing removes it. *)
Lemma ends_timed_after {A} (ms : Q) (tail : M Db.State A) :
  Keeps (OnResult (fun r => Db.response_time_ms r <> None)) tail ->
  EndsTimed (bind (Db.set_response_time ms) (fun _ => tail)).
Proof.
  intros Ht s _ _. unfold bind, Db.set_response_time, Db.on_result, modify.
  simpl. apply Ht. unfold OnResult. simpl. discriminate.
Qed.

(** What [attempt] returns is timed and keeps its name. *)
Lemma attempt_timed name (body : M Db.State unit) t :
  EndsTimed body -> timed (fst (Db.attempt name body t)).
Proof.
  intros Hb. unfold Db.attempt.
  specialize (Hb (Db.mkState (Db.initial_check name) [] None t) eq_refl).
  destruct (body _) as [[e | u] s]; simpl in *; exact Hb.
Qed.

Lemma attempt_test name (body : M Db.State unit) t :
  Keeps (OnResult (fun r => Db.test r = name)) body ->
  Db.test (fst (Db.attempt name body t)) = name.
Proof.
  intros Hb. unfold Db.attempt.
  specialize (Hb (Db.mkState (Db.initial_check name) [] None t) eq_refl).
  unfold OnResult in Hb.
  destruct (body _) as [[e | u] s]; simpl in *; exact Hb.
Qed.

Ltac ends_timed :=
  repeat first
    [ apply ends_timed_after; db_keeps
    | apply ends_timed_bind; [solve [db_keeps] | intro] ].

Section FourChecks.

Variable clock : nat -> Q.
Variable getsize : string -> option Z.
Variable srv : Db.Server.

Lemma connectivity_timed db_type t :
  timed (fst (Db.test_basic_connectivity clock srv db_type t)).
Proof. apply attempt_timed. ends_timed. Qed.

Lemma statistics_timed db_type database t :
  timed (fst (Db.get_database_statistics clock getsize srv db_type database t)).
Proof. apply attempt_timed. ends_timed. Qed.

Lemma performance_timed db_type t :
  timed (fst (Db.test_query_performance clock srv db_type t)).
Proof. apply attempt_timed. ends_timed. Qed.

Lemma table_health_timed db_type database t :
  timed (fst (Db.get_table_health clock srv db_type database t)).
Proof.
  apply attempt_timed. ends_timed.
  apply ends_timed_bind; [apply keeps_table_entries |]. intros es. ends_timed.
Qed.

Lemma connectivity_test db_type t :
  Db.test (fst (Db.test_basic_connectivity clock srv db_type t))
  = "basic_connectivity".
Proof. apply attempt_test. db_keeps. Qed.

Lemma statistics_test db_type database t :
  Db.test (fst (Db.get_database_statistics clock getsize srv db_type database t))
  = "database_statistics".
Proof. apply attempt_test. db_keeps. Qed.

Lemma performance_test db_type t :
  Db.test (fst (Db.test_query_performance clock srv db_type t))
  = "query_performance".
Proof. apply attempt_test. db_keeps. Qed.

Lemma table_health_test db_type database t :
  Db.test (fst (Db.get_table_health clock srv db_type database t))
  = "table_health".
Proof.
  apply attempt_test. db_keeps. apply keeps_table_entries.
Qed.

End FourChecks.

(* ===================================================================== *)
(** ** The database check *)
(* ===================================================================== *)

(** The summary of any list of results: it never raises. *)
Lemma summarize_spec (rs : list Db.Check) :
  Db.summarize rs
  = ok (Db.mkSummary (Z.of_nat (List.length rs)) (Db.count_successful rs)
          (Z.of_nat (List.length rs) - Db.count_successful rs)
          (guarded_rate (Db.count_successful rs) (Z.of_nat (List.length rs)))).
Proof.
  unfold Db.summarize, Db.rate_percent.
  rewrite true_div_pos by lia. reflexivity.
Qed.

Lemma summarize_ok (rs : list Db.Check) :
  exists s, Db.summarize rs = ok s /\ db_summary_ok rs s.
Proof.
  rewrite summarize_spec. eexists. split; [reflexivity |].
  unfold db_summary_ok, summary_invariant, Db.count_successful. simpl.
  pose proof (filter_length_le Db.success rs) as Hle.
  split; [reflexivity |]. split; [reflexivity |]. split; [lia |].
  assert (H : Qle (inject_Z 0)
                (guarded_rate (Z.of_nat (List.length (filter Db.success rs)))
                   (Z.of_nat (List.length rs)))
              /\ Qle (guarded_rate (Z.of_nat (List.length (filter Db.success rs)))
                        (Z.of_nat (List.length rs))) (inject_Z 100)).
  { apply percent_bounds; lia. }
  destruct H as [H0 H1]. repeat split; assumption.
Qed.

Lemma db_get_parameter_text env name default :
  default = PNone \/ (exists s, default = PStr s) ->
  Db.get_parameter env name default TStr = ok (text_parameter env name default).
Proof.
  unfold Db.get_parameter, environ_get, text_parameter, env_name.
  intros [-> | [s ->]]; destruct (env _); reflexivity.
Qed.

Lemma db_get_parameter_integer env name default :
  default = PNone \/ (exists z, default = PInt z) ->
  Db.get_parameter env name default TInt = ok (int_parameter env name default).
Proof.
  unfold Db.get_parameter, environ_get, int_parameter, env_name.
  intros [-> | [z ->]]; destruct (env _) as [raw |]; try reflexivity;
    rewrite int_or_default_str; destruct (parse_int raw); reflexivity.
Qed.

Lemma default_port_cases db_type :
  Db.default_port db_type = PNone \/ exists z, Db.default_port db_type = PInt z.
Proof.
  unfold Db.default_port.
  destruct (String.eqb _ _); [eauto |]. destruct (String.eqb _ _); eauto.
Qed.

(** [if port is None] changes nothing: a missing port has no default. *)
Lemma port_unchanged env db_type :
  let port := int_parameter env "port" (Db.default_port db_type) in
  match port with
  | PNone => Db.default_port db_type
  | _ => port
  end = port.
Proof.
  unfold int_parameter.
  destruct (env _) as [raw |]; [destruct (parse_int raw) |];
    try reflexivity; destruct (Db.default_port db_type); reflexivity.
Qed.

Section DbMain.

Variable clock : nat -> Q.
Variable getsize : string -> option Z.
Variable connect : Db.Driver -> Db.ConnArgs -> Exc Db.Server.
Variable close : Db.Server -> option Exn.
Variable write_file : Db.Report -> option Exn.

Local Abbreviation create_database_connection :=
  (Db.create_database_connection connect).
Local Abbreviation run_test := Db.run_test.
Local Abbreviation tests := (Db.tests clock getsize).
Local Abbreviation run_checks := (Db.run_checks clock getsize connect close).
Local Abbreviation main := (Db.main clock getsize connect close write_file).

(** One iteration of the loop over the tests, for a test whose result is
    timed: its result is appended, and nothing else. *)
Lemma run_test_spec (st : Db.Loop) name (f : nat -> Db.Check * nat) :
  timed (fst (f (Db.loop_ticks st))) ->
  exists lines,
    run_test st (name, f)
    = Db.mkLoop (snd (f (Db.loop_ticks st)))
        (Db.loop_results st ++ [fst (f (Db.loop_ticks st))])%list
        (if Db.success (fst (f (Db.loop_ticks st))) then Db.loop_overall st
         else false)
        (Db.loop_output st ++ Db.LRunning name :: lines ++ [Db.LBlank])%list.
Proof.
  unfold Db.run_test, Db.report_check, timed.
  destruct (f (Db.loop_ticks st)) as [r t']. simpl. intros Ht.
  destruct (Db.success r).
  - destruct (Db.response_time_ms r) as [ms |].
    + eexists. reflexivity.
    + now elim Ht.
  - eexists. reflexivity.
Qed.

(** The loop over the four tests. *)
Lemma run_tests_spec srv db_type database (st : Db.Loop) :
  let st' := fold_left run_test (tests srv db_type database) st in
  exists r2 r3 r4,
    let r1 := fst (Db.test_basic_connectivity clock srv db_type (Db.loop_ticks st)) in
    Db.loop_results st' = (Db.loop_results st ++ [r1; r2; r3; r4])%list
    /\ map Db.test [r1; r2; r3; r4] = check_names
    /\ Db.loop_overall st'
       = Db.loop_overall st && forallb Db.success [r1; r2; r3; r4].
Proof.
  unfold Db.tests. cbn [fold_left].
  destruct (run_test_spec st "Basic Connectivity"
              (Db.test_basic_connectivity clock srv db_type)) as [l1 ->];
    [apply connectivity_timed |].
  set (st1 := Db.mkLoop _ _ _ _).
  destruct (run_test_spec st1 "Database Statistics"
              (Db.get_database_statistics clock getsize srv db_type database))
    as [l2 ->]; [apply statistics_timed |].
  set (st2 := Db.mkLoop _ _ _ _).
  destruct (run_test_spec st2 "Query Performance"
              (Db.test_query_performance clock srv db_type)) as [l3 ->];
    [apply performance_timed |].
  set (st3 := Db.mkLoop _ _ _ _).
  destruct (run_test_spec st3 "Table Health"
              (Db.get_table_health clock srv db_type database)) as [l4 ->];
    [apply table_health_timed |].
  cbv zeta.
  exists (fst (Db.get_database_statistics clock getsize srv db_type database
                 (Db.loop_ticks st1))),
         (fst (Db.test_query_performance clock srv db_type (Db.loop_ticks st2))),
         (fst (Db.get_table_health clock srv db_type database (Db.loop_ticks st3))).
  cbn [Db.loop_results Db.loop_overall map forallb].
  split; [| split].
  - subst st1 st2 st3. cbn [Db.loop_results]. now rewrite <- !app_assoc.
  - rewrite connectivity_test, statistics_test, performance_test, table_health_test.
    reflexivity.
  - subst st1 st2 st3. cbn [Db.loop_overall Db.loop_ticks].
    destruct (Db.loop_overall st);
      repeat match goal with |- context [Db.success ?r] =>
               destruct (Db.success r) end; reflexivity.
Qed.

(** The connection and the tests: a failed connection leaves one failed
    result named [connection] and takes no reading of the clock; an open
    connection leaves the results of the four checks. *)
Lemma run_checks_spec db_type database args (st : Db.Loop) :
  match create_database_connection db_type args with
  | inl e =>
      run_checks db_type database args st
      = Db.mkLoop (Db.loop_ticks st)
          (Db.loop_results st ++ [Db.error_check "connection" (exn_str e)])%list
          false
          (Db.loop_output st
           ++ [Db.LEstablishing; Db.LConnectionFailed (exn_str e)])%list
  | inr srv =>
      exists r2 r3 r4,
        let r1 := fst (Db.test_basic_connectivity clock srv db_type
                         (Db.loop_ticks st)) in
        Db.loop_results (run_checks db_type database args st)
        = (Db.loop_results st ++ [r1; r2; r3; r4])%list
        /\ map Db.test [r1; r2; r3; r4] = check_names
        /\ Db.loop_overall (run_checks db_type database args st)
           = Db.loop_overall st && forallb Db.success [r1; r2; r3; r4]
  end.
Proof.
  unfold Db.run_checks.
  destruct (create_database_connection db_type args) as [e | srv].
  - cbn [Db.loop_ticks Db.loop_results Db.loop_output].
    now rewrite <- app_assoc.
  - set (st0 := Db.mkLoop _ _ _ (_ ++ [Db.LConnected; Db.LBlank])%list).
    destruct (run_tests_spec srv db_type database st0) as (r2 & r3 & r4 & H).
    exists r2, r3, r4. cbv zeta in H |- *.
    destruct (close srv); cbn [Db.loop_results Db.loop_overall]; exact H.
Qed.

(** How [main] ends: without a database name it exits with 1 before
    connecting; otherwise it runs the connection and the tests, and never
    raises. *)
Lemma db_main_spec env :
  exists r, main env = ok r
    /\ (Db.param_truthy (text_parameter env "database" PNone) = false ->
          Db.exit_code r = 1%Z /\ Db.all_results r = []
          /\ Db.summary r = None /\ Db.saved r = None)
    /\ (Db.param_truthy (text_parameter env "database" PNone) = true ->
          exists database out,
            let st := run_checks (db_type_parameter env) database
                        (connection_arguments env) (Db.mkLoop 0 [] true out) in
            text_parameter env "database" PNone = PStr database
            /\ Db.all_results r = Db.loop_results st
            /\ Db.exit_code r = (if Db.loop_overall st then 0 else 1)%Z
            /\ option_map ok (Db.summary r) = Some (Db.summarize (Db.all_results r))
            /\ (forall data, Db.saved r = Some data ->
                  write_file data = None
                  /\ Db.report_test_results data = Db.all_results r
                  /\ Db.report_overall_success data = Db.loop_overall st
                  /\ Some (Db.report_summary data) = Db.summary r)
            /\ ((forall data, write_file data = None) -> Db.saved r <> None)).
Proof.
  unfold Db.main.
  rewrite db_get_parameter_str. cbn [ebind ok].
  rewrite (db_get_parameter_text env "host") by eauto. cbn [ebind ok as_str].
  change (match env (env_name "db_type") with
          | Some raw => raw
          | None => "mysql"
          end) with (db_type_parameter env).
  rewrite (db_get_parameter_integer env "port") by apply default_port_cases.
  cbn [ebind ok].
  rewrite (db_get_parameter_text env "database") by eauto. cbn [ebind ok].
  rewrite (db_get_parameter_text env "username") by eauto. cbn [ebind ok].
  rewrite (db_get_parameter_text env "password") by eauto. cbn [ebind ok].
  rewrite (db_get_parameter_integer env "timeout") by eauto. cbn [ebind ok].
  rewrite (port_unchanged env (db_type_parameter env)).
  fold (connection_arguments env).
  destruct (text_parameter env "database" PNone) as [| z | b | name | l] eqn:Hdb;
    try (unfold text_parameter in Hdb; destruct (env _); discriminate).
  - eexists. split; [reflexivity |]. split; [| discriminate].
    intros _. repeat split.
  - cbn [Db.param_truthy]. destruct (nonempty name) eqn:Hname; cbn [negb].
    + cbn [as_str ebind ok].
      set (st := run_checks _ _ _ _).
      rewrite (summarize_spec (Db.loop_results st)). cbn [ebind ok].
      destruct (Db.save _ _ _ _ _ _ _ _) as [file saving] eqn:Hsave.
      eexists. split; [reflexivity |]. split; [discriminate |].
      intros _. exists name. eexists. cbv zeta. fold st.
      cbn [Db.all_results Db.exit_code Db.summary Db.saved option_map].
      rewrite (summarize_spec (Db.loop_results st)).
      unfold Db.save in Hsave.
      rewrite (summarize_spec (Db.loop_results st)) in Hsave.
      cbv beta iota delta [ok] in Hsave.
      split; [reflexivity |]. split; [reflexivity |]. split; [reflexivity |].
      split; [reflexivity |]. split.
      * intros data Hdata.
        destruct (write_file _) eqn:Hw; injection Hsave as Hfile Hsaving;
          rewrite <- Hfile in Hdata; [discriminate |].
        injection Hdata as Hd. rewrite <- Hd. repeat split. exact Hw.
      * intros Hall. rewrite Hall in Hsave. injection Hsave as Hfile _.
        rewrite <- Hfile. discriminate.
    + eexists. split; [reflexivity |]. split; [| discriminate].
      intros _. repeat split.
Qed.

(** C6. A run with a database name either fails to connect or runs the
    four checks.  When the connection cannot be established, no check runs
    (the loop state gets one result and no clock reading): the only result
    is named [connection], has [success] false and the text of the
    exception as its error, and neither a response time nor details; the
    summary counts one failure, and the process exits with 1.  Otherwise the results are those of the
    four checks.  Either way the report holds the results when the file
    can be written, and the process exits with 0 exactly when every result
    succeeded.  Without a database name it exits with 1 without a
    result. *)
Theorem db_connection_failure env :
  (forall db_type database args st e,
     create_database_connection db_type args = inl e ->
     Db.loop_ticks (run_checks db_type database args st) = Db.loop_ticks st
     /\ Db.loop_results (run_checks db_type database args st)
        = (Db.loop_results st
           ++ [Db.mkCheck "connection" false None (Some (exn_str e)) []])%list)
  /\ exists r, main env = ok r
    /\ (Db.param_truthy (text_parameter env "database" PNone) = false ->
          Db.exit_code r = 1%Z /\ Db.all_results r = [])
    /\ (Db.param_truthy (text_parameter env "database" PNone) = true ->
          match create_database_connection (db_type_parameter env)
                  (connection_arguments env) with
          | inl e =>
              Db.all_results r
              = [Db.mkCheck "connection" false None (Some (exn_str e)) []]
              /\ Db.summary r = Some (Db.mkSummary 1 0 1 (guarded_rate 0 1))
              /\ Db.exit_code r = 1%Z
          | inr _ => map Db.test (Db.all_results r) = check_names
          end
          /\ (Db.exit_code r = 0%Z <-> forallb Db.success (Db.all_results r) = true)
          /\ (forall data, Db.saved r = Some data ->
                Db.report_test_results data = Db.all_results r)
          /\ ((forall data, write_file data = None) -> Db.saved r <> None)).
Proof.
  split.
  - intros db_type database args st e He.
    pose proof (run_checks_spec db_type database args st) as H.
    rewrite He in H. rewrite H. split; reflexivity.
  - destruct (db_main_spec env) as (r & Hr & Hnone & Hsome).
    exists r. split; [exact Hr |]. split.
    + intros Hdb. destruct (Hnone Hdb) as (Hcode & Hres & _). now split.
    + intros Hdb.
      destruct (Hsome Hdb) as (database & out & _ & Hres & Hcode & Hsum & Hsaved & Hw).
      cbv zeta in Hres, Hcode, Hsaved.
      pose proof (run_checks_spec (db_type_parameter env) database
                    (connection_arguments env) (Db.mkLoop 0 [] true out)) as H.
      set (st := run_checks _ _ _ _) in *.
      destruct (create_database_connection _ _) as [e | srv].
      * rewrite H in Hres, Hcode. cbn in Hres, Hcode.
        rewrite Hres in Hsum |- *. rewrite summarize_spec in Hsum.
        destruct (Db.summary r) as [s |]; [| discriminate].
        injection Hsum as Hs. rewrite Hs, Hcode.
        split; [repeat split |]. split; [split; discriminate |].
        split; [| exact Hw].
        intros data Hdata. now destruct (Hsaved data Hdata) as (_ & -> & _).
      * destruct H as (r2 & r3 & r4 & H1 & H2 & H3).
        cbn [Db.loop_results Db.loop_overall app andb] in H1, H3.
        rewrite Hres, H1. split; [exact H2 |].
        split; [| split; [| exact Hw]].
        -- rewrite Hcode, H3.
           destruct (forallb Db.success _); split; (reflexivity || discriminate).
        -- intros data Hdata. destruct (Hsaved data Hdata) as (_ & -> & _).
           now rewrite Hres, H1.
Qed.

End DbMain.

(** C6 on a driver that refuses the connection: the only result is the
    failed one named [connection], and the process exits with 1. *)
Lemma db_connection_failure_witness :
  exists r,
    Db.main sample_clock (fun _ => None) refuse (fun _ => None) (fun _ => None)
      shop_env = ok r
    /\ Db.param_truthy (text_parameter shop_env "database" PNone) = true
    /\ Db.all_results r
       = [Db.mkCheck "connection" false None (Some "Access denied") []]
    /\ Db.exit_code r = 1%Z.
Proof.
  destruct (proj2 (db_connection_failure sample_clock (fun _ => None) refuse
                     (fun _ => None) (fun _ => None) shop_env))
    as (r & Hr & _ & Hsome).
  exists r. split; [exact Hr |]. split; [reflexivity |].
  destruct (Hsome eq_refl) as ((Hres & _ & Hcode) & _).
  split; [exact Hres | exact Hcode].
Defined.

(* ===================================================================== *)
(** ** ORDER BY and LIMIT *)
(* ===================================================================== *)

Section SortProperties.

Variable A : Type.
Variable before : A -> A -> bool.
Hypothesis before_total : forall a b, before a b = true \/ before b a = true.

Local Abbreviation R := (fun a b => before a b = true).

Lemma insert_perm x l : Permutation (x :: l) (Db.insert before x l).
Proof.
  induction l as [| y l IH]; simpl; [reflexivity |].
  destruct (before x y); [reflexivity |].
  rewrite perm_swap. now apply perm_skip.
Qed.

Lemma order_by_perm l : Permutation l (Db.order_by before l).
Proof.
  induction l as [| x l IH]; simpl; [reflexivity |].
  rewrite <- insert_perm. now apply perm_skip.
Qed.

Lemma insert_head x y l :
  before y x = true -> HdRel R y l -> HdRel R y (Db.insert before x l).
Proof.
  intros Hyx Hl. destruct l as [| z l]; simpl.
  - now constructor.
  - destruct (before x z); constructor; [exact Hyx |].
    now inversion Hl.
Qed.

Lemma insert_sorted x l : Sorted R l -> Sorted R (Db.insert before x l).
Proof.
  induction 1 as [| y l Hs IH Hd]; simpl.
  - repeat constructor.
  - destruct (before x y) eqn:E.
    + constructor; [now constructor | now constructor].
    + constructor; [exact IH |].
      apply insert_head; [| exact Hd].
      destruct (before_total x y); congruence.
Qed.

Lemma order_by_sorted l : Sorted R (Db.order_by before l).
Proof.
  induction l as [| x l IH]; simpl; [constructor |].
  now apply insert_sorted.
Qed.

Lemma firstn_sorted n l : Sorted R l -> Sorted R (firstn n l).
Proof.
  intros Hs. revert n. induction Hs as [| x l Hs IH Hd]; intros [| n]; simpl;
    try constructor.
  - apply IH.
  - destruct Hd; destruct n; simpl; constructor; assumption.
Qed.

End SortProperties.

Lemma sorted_weaken {A} (R R' : A -> A -> Prop) (l : list A) :
  (forall a b, R a b -> R' a b) -> Sorted R l -> Sorted R' l.
Proof.
  intros Himp. induction 1 as [| x l Hs IH Hd]; constructor; [exact IH |].
  destruct Hd; constructor. now apply Himp.
Qed.

Lemma firstn_incl {A} (n : nat) (l : list A) : incl (firstn n l) l.
Proof.
  intros x Hx. rewrite <- (firstn_skipn n l). apply in_or_app. now left.
Qed.

(** Ordering by a key, descending, and keeping the first [n]. *)
Lemma top_by_key {A} (key : A -> Z) (n : nat) (l : list A) :
  let top := firstn n (Db.order_by (fun a b => (key b <=? key a)%Z) l) in
  (List.length top <= n)%nat /\ Sorted (descending key) top /\ incl top l.
Proof.
  cbv zeta. split; [| split].
  - apply firstn_le_length.
  - apply sorted_weaken with (R := fun a b => (key b <=? key a)%Z = true).
    + intros a b H. now apply Z.leb_le.
    + apply firstn_sorted, order_by_sorted.
      intros a b. rewrite !Z.leb_le. lia.
  - intros x Hx. apply firstn_incl in Hx.
    eapply Permutation_in; [| exact Hx].
    symmetry. apply order_by_perm.
Qed.

(** The rows selected for MySQL: at most twenty base tables of the schema,
    in descending order of their size on disk. *)
Lemma mysql_selected_spec database cat :
  (List.length (Db.mysql_selected database cat) <= 20)%nat
  /\ Sorted (descending Db.on_disk) (Db.mysql_selected database cat)
  /\ incl (Db.mysql_selected database cat) cat.
Proof.
  unfold Db.mysql_selected.
  destruct (top_by_key Db.on_disk Db.limit
              (filter (fun t => String.eqb (Db.table_schema t) database
                                && String.eqb (Db.table_type t) "BASE TABLE") cat))
    as (H1 & H2 & H3).
  repeat split; try assumption.
  intros x Hx. apply H3 in Hx. now apply filter_In in Hx.
Qed.

(** The rows selected for PostgreSQL: at most twenty tables, in descending
    order of their live tuples. *)
Lemma pg_selected_spec cat :
  (List.length (Db.pg_selected cat) <= 20)%nat
  /\ Sorted (descending Db.n_live_tup) (Db.pg_selected cat)
  /\ incl (Db.pg_selected cat) cat.
Proof. apply (top_by_key Db.n_live_tup Db.limit cat). Qed.

(** The rows selected for SQLite: every table, in the order of the names. *)
Lemma sqlite_selected_spec names :
  Sorted by_name (Db.sqlite_selected names)
  /\ Permutation names (Db.sqlite_selected names)
  /\ List.length (Db.sqlite_selected names) = List.length names.
Proof.
  unfold Db.sqlite_selected, by_name. split; [| split].
  - apply order_by_sorted, String.leb_total.
  - apply order_by_perm.
  - symmetry. apply Permutation_length, order_by_perm.
Qed.

(* ===================================================================== *)
(** ** The table-health and connectivity checks *)
(* ===================================================================== *)

Section TableHealth.

Variable clock : nat -> Q.
Variable srv : Db.Server.

(** One dictionary per row. *)
Lemma table_entries_length db_type rows :
  forall s es s',
    Db.table_entries srv db_type rows s = (inr es, s') ->
    List.length es = List.length rows.
Proof.
  induction rows as [| row rows IH]; simpl; intros s es s' H.
  - unfold ret, ok in H. injection H as <- _. reflexivity.
  - unfold bind in H.
    destruct (Db.table_entry srv db_type row s) as [[e | en] s1]; [discriminate |].
    destruct (Db.table_entries srv db_type rows s1) as [[e | es0] s2] eqn:E;
      [discriminate |].
    unfold ret, ok in H. injection H as <- _. simpl. f_equal.
    eapply IH, E.
Qed.

(** Building the dictionaries leaves the result of the check alone. *)
Lemma table_entries_result db_type rows s :
  Db.result (snd (Db.table_entries srv db_type rows s)) = Db.result s.
Proof.
  apply (keeps_table_entries srv (fun r => r = Db.result s) db_type rows s).
  reflexivity.
Qed.

(** The rows of the table statement are the selected ones. *)
Lemma table_query_rows db_type database rows :
  Db.run_query srv
    (if String.eqb (lower db_type) "mysql" then Db.TablesMySQL database
     else if String.eqb (lower db_type) "postgresql" then Db.TablesPostgres
     else Db.TablesSQLite) = inr rows ->
  List.length rows = selected_count srv db_type database.
Proof.
  unfold Db.run_query, selected_count.
  destruct (String.eqb (lower db_type) "mysql");
    [| destruct (String.eqb (lower db_type) "postgresql")];
    destruct (Db.fault srv _); try discriminate;
    intros H; injection H as <-; apply length_map.
Qed.

(** The check, step by step. *)
Lemma get_table_health_steps db_type database t :
  Db.get_table_health clock srv db_type database t
  = let failed := fun (e : Exn) (s : Db.State) =>
                    (Db.set_error (exn_str e) (Db.result s), Db.ticks s) in
    let start := Db.mkState (Db.initial_check "table_health") [] None (S t) in
    match Db.cursor_fault srv with
    | Some e => failed e start
    | None =>
        match Db.run_query srv (tables_statement db_type database) with
        | inl e => failed e start
        | inr rows =>
            match Db.fetch_fault srv (Some (tables_statement db_type database)) with
            | Some e => failed e start
            | None =>
                match Db.table_entries srv db_type rows
                        (tables_fetched db_type database t) with
                | (inl e, s) => failed e s
                | (inr es, s) =>
                    match Db.close_fault srv with
                    | Some e => failed e s
                    | None =>
                        (Db.mkCheck (Db.test (Db.result s)) true
                           (Some (Db.elapsed_ms (clock t) (clock (Db.ticks s))))
                           (Db.error (Db.result s))
                           (Db.details (Db.result s)
                            ++ [("tables", Db.DTables es);
                                ("table_count",
                                 Db.DValue (Db.VInt (Z.of_nat (List.length es))))])%list,
                         S (Db.ticks s))
                    end
                end
            end
        end
    end.
Proof.
  cbv zeta. unfold Db.get_table_health, Db.attempt, tables_fetched.
  fold (tables_statement db_type database).
  unfold bind at 1. unfold Db.now at 1. cbn [ok].
  unfold bind at 1. unfold Db.open_cursor at 1.
  cbn [Db.result Db.cursor Db.statement Db.ticks].
  destruct (Db.cursor_fault srv) as [e |]; [reflexivity |].
  unfold bind at 1. unfold Db.execute at 1.
  cbn [Db.result Db.cursor Db.statement Db.ticks].
  destruct (Db.run_query srv _) as [e | rows]; [reflexivity |].
  unfold bind at 1. unfold Db.fetchall at 1.
  cbn [ok Db.result Db.cursor Db.statement Db.ticks].
  destruct (Db.fetch_fault srv _) as [e |]; [reflexivity |].
  cbv beta iota delta [ok]. unfold bind at 1.
  destruct (Db.table_entries srv db_type rows _) as [[e | es] s]; [reflexivity |].
  unfold bind at 1. unfold Db.close_cursor at 1.
  destruct (Db.close_fault srv) as [e |]; [reflexivity |].
  cbn. now rewrite <- app_assoc.
Qed.

(** A successful table-health check lists one table per selected row. *)
Lemma table_health_count db_type database t :
  Db.success (fst (Db.get_table_health clock srv db_type database t)) = true ->
  exists tables,
    Db.details (fst (Db.get_table_health clock srv db_type database t))
    = [("tables", Db.DTables tables);
       ("table_count", Db.DValue (Db.VInt (Z.of_nat (List.length tables))))]
    /\ List.length tables = selected_count srv db_type database.
Proof.
  rewrite get_table_health_steps. cbv zeta.
  destruct (Db.cursor_fault srv) as [e |]; [discriminate |].
  destruct (Db.run_query srv _) as [e | rows] eqn:Hq; [discriminate |].
  destruct (Db.fetch_fault srv _) as [e |]; [discriminate |].
  pose proof (table_entries_result db_type rows
                (tables_fetched db_type database t)) as Hres.
  destruct (Db.table_entries srv db_type rows _) as [[e | es] s] eqn:Ht;
    cbn [snd fst Db.result] in Hres |- *.
  - rewrite Hres. discriminate.
  - destruct (Db.close_fault srv) as [e |];
      cbn [snd fst Db.result] in Hres |- *; rewrite Hres; [discriminate |].
    intros _. exists es. split; [reflexivity |].
    rewrite (table_entries_length _ _ _ _ _ Ht).
    eapply table_query_rows, Hq.
Qed.

End TableHealth.

(** C8, as the code has it. The table statement selects at most twenty
    tables in descending order of size on disk for MySQL and at most
    twenty in descending order of live tuples for PostgreSQL, but every
    table, in the order of the names, for SQLite; a successful check lists
    one table per selected row, so on the SQLite database with twenty-one
    tables it lists twenty-one. *)
Theorem table_health_enumeration :
  (forall database cat,
     (List.length (Db.mysql_selected database cat) <= 20)%nat
     /\ Sorted (descending Db.on_disk) (Db.mysql_selected database cat)
     /\ incl (Db.mysql_selected database cat) cat)
  /\ (forall cat,
        (List.length (Db.pg_selected cat) <= 20)%nat
        /\ Sorted (descending Db.n_live_tup) (Db.pg_selected cat)
        /\ incl (Db.pg_selected cat) cat)
  /\ (forall names,
        Sorted by_name (Db.sqlite_selected names)
        /\ Permutation names (Db.sqlite_selected names)
        /\ List.length (Db.sqlite_selected names) = List.length names)
  /\ (forall clock srv db_type database t,
        Db.success (fst (Db.get_table_health clock srv db_type database t)) = true ->
        exists tables,
          Db.details (fst (Db.get_table_health clock srv db_type database t))
          = [("tables", Db.DTables tables);
             ("table_count", Db.DValue (Db.VInt (Z.of_nat (List.length tables))))]
          /\ List.length tables = selected_count srv db_type database)
  /\ (let r := fst (Db.get_table_health sample_clock sqlite_with_21_tables
                      "sqlite" "/data/app.db" 0) in
      Db.success r = true
      /\ exists tables,
           Db.details r = [("tables", Db.DTables tables);
                           ("table_count", Db.DValue (Db.VInt 21))]
           /\ List.length tables = 21%nat).
Proof.
  split; [exact mysql_selected_spec |].
  split; [exact pg_selected_spec |].
  split; [exact sqlite_selected_spec |].
  split; [exact table_health_count |].
  cbv zeta. split; [vm_compute; reflexivity |].
  eexists. split; vm_compute; reflexivity.
Qed.

(** C8 on the SQLite database with twenty-one tables: the check succeeds
    and lists them all. *)
Lemma table_health_enumeration_witness :
  Db.success (fst (Db.get_table_health sample_clock sqlite_with_21_tables
                     "sqlite" "/data/app.db" 0)) = true
  /\ selected_count sqlite_with_21_tables "sqlite" "/data/app.db" = 21%nat
  /\ exists tables,
       Db.details (fst (Db.get_table_health sample_clock sqlite_with_21_tables
                          "sqlite" "/data/app.db" 0))
       = [("tables", Db.DTables tables);
          ("table_count", Db.DValue (Db.VInt (Z.of_nat (List.length tables))))]
       /\ List.length tables = 21%nat.
Proof.
  assert (Hs : Db.success (fst (Db.get_table_health sample_clock
                                  sqlite_with_21_tables "sqlite" "/data/app.db" 0))
               = true) by (vm_compute; reflexivity).
  split; [exact Hs |]. split; [reflexivity |].
  destruct (proj1 (proj2 (proj2 (proj2 table_health_enumeration)))
              sample_clock sqlite_with_21_tables "sqlite" "/data/app.db" 0%nat Hs)
    as (tables & Hd & Hl).
  exists tables. split; [exact Hd | exact Hl].
Defined.

(** C5, as the code has it. The connectivity check executes the trivial
    statement, then the version statement, and only then fetches the row
    it compares with 1: that row is the second row of the version
    statement.  So whenever the version statement returns at most one
    row, the check fails, whatever the trivial statement returns. *)
Theorem connectivity_fails_with_one_version_row clock srv db_type t
    (Hone : forall q rows,
        version_query db_type = Some q ->
        Db.run_query srv q = inr rows ->
        (List.length rows <= 1)%nat) :
  Db.success (fst (Db.test_basic_connectivity clock srv db_type t)) = false.
Proof.
  unfold Db.test_basic_connectivity, Db.attempt, version_query in *.
  unfold bind, Db.now, Db.open_cursor, Db.close_cursor, Db.execute, Db.fetchone,
    lift, Db.set_detail, Db.set_response_time, Db.set_success, Db.on_result,
    modify, ret, Db.version_of.
  cbn [Db.result Db.cursor Db.statement Db.ticks].
  destruct (Db.cursor_fault srv); [reflexivity |].
  destruct (String.eqb (lower db_type) "mysql");
    [| destruct (String.eqb (lower db_type) "postgresql");
       [| destruct (String.eqb (lower db_type) "sqlite")]];
    cbn;
    try (destruct (Db.run_query srv Db.SelectOne); cbn; [reflexivity |];
         match goal with
         | |- context [Db.run_query srv ?q] =>
             destruct (Db.run_query srv q) as [e | rows] eqn:E; cbn;
             [reflexivity |]; specialize (Hone q rows eq_refl E)
         end;
         destruct rows as [| row [| row' rows]]; simpl in Hone; [| | lia]);
    repeat (cbn; try reflexivity;
            match goal with
            | |- context [Db.fetch_fault srv ?q] => destruct (Db.fetch_fault srv q)
            | |- context [Db.close_fault srv] => destruct (Db.close_fault srv)
            | |- context [match ?row with [] => _ | _ :: _ => _ end] =>
                is_var row; destruct row
            end).
Qed.

(** C5 on the MySQL server in good health: the trivial statement returns
    1, and the check fails. *)
Lemma connectivity_fails_with_one_version_row_witness :
  Db.run_query healthy_mysql Db.SelectOne = inr [[Db.VInt 1]]
  /\ Db.run_query healthy_mysql Db.VersionMySQL = inr [[Db.VStr "8.0.32"]]
  /\ Db.success (fst (Db.test_basic_connectivity sample_clock healthy_mysql
                        "mysql" 0)) = false.
Proof.
  split; [reflexivity |]. split; [reflexivity |].
  apply (connectivity_fails_with_one_version_row sample_clock healthy_mysql
           "mysql" 0%nat).
  intros q rows Hq Hrows.
  injection Hq as <-. injection Hrows as <-. apply le_n.
Defined.

(** The result of the check on that server. *)
Lemma connectivity_on_healthy_server :
  fst (Db.test_basic_connectivity sample_clock healthy_mysql "mysql" 0)
  = Db.mkCheck "basic_connectivity" false (Some (inject_Z 1000))
      (Some "'NoneType' object is not subscriptable")
      [("version", Db.DValue (Db.VStr "8.0.32"))].
Proof. vm_compute. reflexivity. Qed.

(* ===================================================================== *)
(** ** The run summary *)
(* ===================================================================== *)

(** The rate of the network check has no guard of its own: on a total of
    zero the division would raise.  [main] never gets there, because it
    exits when there is no valid host. *)
Lemma ping_rate_unguarded successful :
  Ping.rate_percent successful 0 = throw (ZeroDivisionError "division by zero").
Proof. reflexivity. Qed.

(** The rate of the network check, on at least one host, is the guarded
    rate. *)
Lemma ping_rate_guarded successful total rate :
  (0 < total)%Z ->
  Ping.rate_percent successful total = ok rate ->
  rate = guarded_rate successful total.
Proof.
  intros Ht. unfold Ping.rate_percent, guarded_rate.
  rewrite (true_div_pos _ _ Ht). cbn [ebind ok]. intros H. injection H as <-.
  now rewrite Z.max_l by lia.
Qed.

(** C1. The summary of the database check is defined for every list of
    results, the empty one included, for which the rate is 0; the summary
    either script prints and the one it saves satisfy: total is the
    number of results, successful the number of successful ones,
    successful plus failed is total, the rate lies between 0 and 100 and
    equals [successful / max(total, 1) * 100]; and computing it never
    raises (the network check reaches it with at least one host). *)
Theorem run_summary_invariant :
  (forall rs, exists s, Db.summarize rs = ok s /\ db_summary_ok rs s)
  /\ (exists s, Db.summarize [] = ok s /\ Db.success_rate s = inject_Z 0)
  /\ (forall clock getsize connect close write_file env,
        exists r,
          Db.main clock getsize connect close write_file env = ok r
          /\ (forall s, Db.summary r = Some s -> db_summary_ok (Db.all_results r) s)
          /\ (forall data, Db.saved r = Some data ->
                db_summary_ok (Db.report_test_results data)
                  (Db.report_summary data)))
  /\ (forall W run nt write_file env w,
        exists r,
          Ping.main W run nt write_file env w = ok r
          /\ (forall s, Ping.summary W r = Some s ->
                ping_summary_ok (Ping.results W r) s)
          /\ (forall data, Ping.saved W r = Some data ->
                ping_summary_ok (Ping.report_results data)
                  (Ping.report_summary data))).
Proof.
  split; [exact summarize_ok |].
  split; [eexists; split; reflexivity |].
  split.
  - intros clock getsize connect close write_file env.
    destruct (db_main_spec clock getsize connect close write_file env)
      as (r & Hr & Hnone & Hsome).
    exists r. split; [exact Hr |].
    destruct (Db.param_truthy (text_parameter env "database" PNone)).
    + destruct (Hsome eq_refl) as (database & out & _ & _ & _ & Hsum & Hsaved & _).
      assert (Hs : forall s, Db.summary r = Some s ->
                             db_summary_ok (Db.all_results r) s).
      { intros s Hs. rewrite Hs in Hsum. cbn in Hsum. injection Hsum as Hsum.
        destruct (summarize_ok (Db.all_results r)) as (s' & Hs' & Hok).
        rewrite Hs' in Hsum. injection Hsum as ->. exact Hok. }
      split; [exact Hs |].
      intros data Hdata. destruct (Hsaved data Hdata) as (_ & -> & _ & Hd).
      apply Hs. now symmetry.
    + destruct (Hnone eq_refl) as (_ & _ & Hsum & Hsaved).
      rewrite Hsum, Hsaved. split; intros; discriminate.
  - intros W run nt write_file env w.
    destruct (ping_main_spec W run nt write_file env w) as (r & Hr & Hnone & Hsome).
    exists r. split; [exact Hr |].
    destruct (split_items (hosts_parameter env)) as [| h hosts] eqn:Hhosts.
    + destruct (Hnone eq_refl) as (_ & _ & Hsum & Hsaved & _).
      rewrite Hsum, Hsaved. split; intros; discriminate.
    + destruct Hsome as (count & timeout & rate & Hrate & _ & Hres & Hsum & _ & _
                         & Hsaved); [discriminate |].
      cbv zeta in Hrate, Hres, Hsum.
      assert (Hpos : (0 < List.length (h :: hosts))%nat) by (simpl; lia).
      set (hs := h :: hosts) in *. clearbody hs.
      destruct (ping_all_spec W run nt hs count timeout w
                  [Ping.LStarting; Ping.LParameters hs count timeout])
        as (Hmap & Hsucc & _).
      { intros x y [H | [H | []]]; discriminate. }
      set (st := Ping.ping_all W run nt hs count timeout _) in *.
      assert (Hlen : List.length hs = List.length (Ping.loop_results W st))
        by (now rewrite <- Hmap, length_map).
      assert (Hs : forall s, Ping.summary W r = Some s ->
                             ping_summary_ok (Ping.results W r) s).
      { intros s Hs. rewrite Hsum in Hs. injection Hs as <-.
        rewrite Hres. unfold ping_summary_ok, summary_invariant.
        cbn [Ping.total_hosts Ping.successful_hosts Ping.failed_hosts
             Ping.success_rate].
        pose proof (filter_length_le Ping.success (Ping.loop_results W st)) as Hle.
        assert (Hg : rate = guarded_rate (Ping.loop_successful W st)
                              (Z.of_nat (List.length hs))).
        { apply ping_rate_guarded; [lia | exact Hrate]. }
        split; [now rewrite Hlen |]. split; [exact Hsucc |]. split; [lia |].
        rewrite Hg. unfold guarded_rate.
        rewrite Z.max_l by lia.
        destruct (percent_bounds (Ping.loop_successful W st)
                    (Z.of_nat (List.length hs))) as [H0 H1];
          [rewrite Hsucc, Hlen; lia | lia |].
        repeat split; assumption. }
      split; [exact Hs |].
      intros data Hdata. destruct (Hsaved data Hdata) as (Hd & ->).
      apply Hs. now symmetry.
Qed.

(** C1 on a reachable and an unknown host: the summary counts two hosts,
    one success and one failure, at a rate of 50. *)
Lemma run_summary_invariant_witness :
  exists r s,
    Ping.main unit sample_run false (fun _ => None) two_hosts_env sample_world = ok r
    /\ Ping.summary unit r = Some s
    /\ s = Ping.mkSummary 2 1 1 (Qmake 100 2)
    /\ ping_summary_ok (Ping.results unit r) s.
Proof.
  destruct (proj2 (proj2 (proj2 run_summary_invariant)) unit sample_run false
              (fun _ => None) two_hosts_env sample_world) as (r & Hr & Hs & _).
  exists r, (Ping.mkSummary 2 1 1 (Qmake 100 2)).
  assert (Hsum : Ping.summary unit r = Some (Ping.mkSummary 2 1 1 (Qmake 100 2))).
  { vm_compute in Hr. injection Hr as <-. reflexivity. }
  split; [exact Hr |]. split; [exact Hsum |]. split; [reflexivity |].
  exact (Hs _ Hsum).
Defined.

(* ===================================================================== *)
(** ** Scenarios *)
(* ===================================================================== *)

(** Two reachable hosts: exit 0, rate 100. *)
Example both_hosts_reachable :
  sample_ping "10.0.0.1,10.0.0.1"
  = Some (0%Z, [true; true], Some (Ping.mkSummary 2 2 0 (Qmake 200 2))).
Proof. vm_compute. reflexivity. Qed.

(** One reachable host and one unknown: exit 1, rate 50. *)
Example one_host_unreachable :
  sample_ping "10.0.0.1, bad.host"
  = Some (1%Z, [true; false], Some (Ping.mkSummary 2 1 1 (Qmake 100 2))).
Proof. vm_compute. reflexivity. Qed.

(** A host that hangs and an unknown one: exit 2, rate 0. *)
Example no_host_reachable :
  sample_ping "slow.host,bad.host"
  = Some (2%Z, [false; false], Some (Ping.mkSummary 2 0 2 (Qmake 0 2))).
Proof. vm_compute. reflexivity. Qed.

(** An empty list of hosts, or one of separators only: exit 1 before any
    result. *)
Example no_hosts_given :
  sample_ping "" = Some (1%Z, [], None)
  /\ sample_ping " , ," = Some (1%Z, [], None).
Proof. split; vm_compute; reflexivity. Qed.

(** The output of a Unix [ping] to a reachable host: 1.234, 2.345 and 3.456
    as the binary64 numbers [float] makes of them. *)
Example parsed_sample_output :
  Ping.ping_result false "10.0.0.1" 4 5 (Ping.Completed 0 sample_output "")
  = Ping.mkPingResult "10.0.0.1" true 4 4 (Ping.NFloat (FNum (Qmake 0 1)))
      (Some (FNum (Qmake 694680242521899 562949953421312)))
      (Some (FNum (Qmake 5280470563091907 2251799813685248)))
      (Some (FNum (Qmake 7782220156096217 2251799813685248))) None.
Proof. vm_compute. reflexivity. Qed.

(** [int] at its edges: the separators 28 to 31 are not trimmed, NEL and
    the no-break space are; an underscore stands between two digits; a
    numeral of 4301 digits is refused for its length, whatever follows
    it, unless an underscore is misplaced or nothing of it is a numeral. *)
Example int_edges :
  parse_int (String "028" "5") = None
  /\ parse_int (String "133" "5") = Some 5%Z
  /\ parse_int ("5" ++ String "160" "") = Some 5%Z
  /\ parse_int "1_000" = Some 1000%Z
  /\ parse_int "1__0" = None
  /\ parse_int (ones 4300) <> None
  /\ int_of_str (ones 4301)
     = throw (ValueError
                ("Exceeds the limit (4300 digits) for integer string conversion: "
                 ++ "value has 4301 digits; "
                 ++ "use sys.set_int_max_str_digits() to increase the limit"))
  /\ int_of_str (ones 4301 ++ "x") = int_of_str (ones 4301)
  /\ read_int (ones 4301 ++ "_") = IntInvalid
  /\ read_int ("x" ++ ones 4301) = IntInvalid.
Proof. repeat split; vm_compute; congruence. Qed.

(** [float] at its edges: the nearest binary64, ties to even; an infinity
    from [2^1024] on; zero below half of [2^-1074]. *)
Example float_edges :
  parse_float "0.1" = Some (FNum (Qmake 3602879701896397 36028797018963968))
  /\ parse_float "1.5" = Some (FNum (Qmake 15 10))
  /\ parse_float "1e23" = Some (FNum (inject_Z 99999999999999991611392))
  /\ parse_float "9007199254740993" = Some (FNum (inject_Z 9007199254740992))
  /\ parse_float "1.7976931348623157e308"
     = Some (FNum (inject_Z (2 ^ 1024 - 2 ^ 971)))
  /\ parse_float "1.7976931348623159e308" = Some (FInf false)
  /\ parse_float "-1e400" = Some (FInf true)
  /\ parse_float "2.5e-324" = Some (FNum (Qmake 1 (2 ^ 1074)))
  /\ parse_float "2.4e-324" = Some (FNum (inject_Z 0))
  /\ parse_float (String "028" "12") = None.
Proof. repeat split; vm_compute; reflexivity. Qed.

(** A count behind a separator, or of 4301 digits, is not an integer for
    [get_parameter]: the default comes back. *)
Example count_not_read :
  Ping.get_parameter (env_of [("PARAM_COUNT", String "028" "5")]) "count"
    (PInt 4) TInt = ok (PInt 4)
  /\ Db.get_parameter (env_of [("PARAM_TIMEOUT", ones 4301)]) "timeout"
       (PInt 30) TInt = ok (PInt 30).
Proof. split; vm_compute; reflexivity. Qed.

(** A database whose connection is refused: one failed result named
    [connection], exit 1. *)
Example connection_refused :
  match Db.main sample_clock (fun _ => None)
          (fun _ _ => throw (OtherError "Access denied"))
          (fun _ => None) (fun _ => None)
          (env_of [("PARAM_DATABASE", "shop")]) with
  | inr r =>
      Db.exit_code r = 1%Z
      /\ Db.all_results r
         = [Db.mkCheck "connection" false None (Some "Access denied") []]
  | inl _ => False
  end.
Proof. vm_compute. split; reflexivity. Qed.

(* ===================================================================== *)
(** ** Further properties: strings *)
(* ===================================================================== *)

Lemma lower_upper_char (c : ascii) : lower_char (upper_char c) = lower_char c.
Proof. destruct c as [[] [] [] [] [] [] [] []]; reflexivity. Qed.

Lemma lower_lower_char (c : ascii) : lower_char (lower_char c) = lower_char c.
Proof. destruct c as [[] [] [] [] [] [] [] []]; reflexivity. Qed.

(** Lowering ignores the case of its argument. *)
Lemma lower_upper (s : string) : lower (upper s) = lower s.
Proof.
  induction s as [| c s IH]; [reflexivity |].
  unfold lower, upper in *. simpl. now rewrite lower_upper_char, IH.
Qed.

Lemma lower_lower (s : string) : lower (lower s) = lower s.
Proof.
  induction s as [| c s IH]; [reflexivity |].
  unfold lower in *. simpl. now rewrite lower_lower_char, IH.
Qed.


Lemma lstrip_clean (s : string) : starts_clean s -> lstrip s = s.
Proof. destruct s as [| c s]; simpl; [reflexivity |]. now intros ->. Qed.









(* ===================================================================== *)
(** ** Further properties: parameters *)
(* ===================================================================== *)



(** X2. A value that is set resolves as a boolean to whether its
    lower-case form is one of [true], [1], [yes], [on]: the default plays
    no part and neither does the case of the value. *)
Theorem get_parameter_bool env name default raw
    (Hraw : env (env_name name) = Some raw) :
  let truth := existsb (String.eqb (lower raw)) true_words in
  Ping.get_parameter env name default TBool = ok (PBool truth)
  /\ Db.get_parameter env name default TBool = ok (PBool truth)
  /\ (forall env' default' raw',
        env' (env_name name) = Some raw' ->
        lower raw' = lower raw ->
        Ping.get_parameter env' name default' TBool = ok (PBool truth)
        /\ Db.get_parameter env' name default' TBool = ok (PBool truth))
  /\ lower (upper raw) = lower raw.
Proof.
  cbv zeta. unfold Ping.get_parameter, Db.get_parameter, environ_get.
  rewrite Hraw. repeat split; try reflexivity.
  - rewrite H. unfold truthy_text. simpl py_str. now rewrite H0.
  - rewrite H. unfold truthy_text. simpl py_str. now rewrite H0.
  - apply lower_upper.
Qed.

(** X2 on [PARAM_VERBOSE=Yes] with default false. *)
Lemma get_parameter_bool_witness :
  Ping.get_parameter (env_of [("PARAM_VERBOSE", "Yes")]) "verbose" (PBool false) TBool
  = ok (PBool true).
Proof.
  exact (proj1 (get_parameter_bool (env_of [("PARAM_VERBOSE", "Yes")]) "verbose"
                  (PBool false) "Yes" eq_refl)).
Defined.

(** X3. The two copies of [get_parameter] return the same on every call
    but one: for [param_type=list] and a string value (the variable, or a
    string default when the variable is absent) the network copy returns
    the list of items and the database copy the string itself. *)
Theorem get_parameter_copies env name default param_type :
  match param_type, environ_get env (env_name name) default with
  | TList, PStr s =>
      Ping.get_parameter env name default param_type = ok (PList (split_items s))
      /\ Db.get_parameter env name default param_type = ok (PStr s)
  | _, _ =>
      Ping.get_parameter env name default param_type
      = Db.get_parameter env name default param_type
  end.
Proof.
  unfold Ping.get_parameter, Db.get_parameter.
  destruct param_type, (environ_get env (env_name name) default);
    try reflexivity; split; reflexivity.
Qed.

(* ===================================================================== *)
(** ** Further properties: integers written in decimal *)
(* ===================================================================== *)

Lemma scan_uint (d : Decimal.uint) :
  forall acc n,
    scan_digits acc n (NilEmpty.string_of_uint d)
    = (digits_value acc d, (n + Decimal.nb_digits d)%nat, "").
Proof.
  induction d; intros acc n; cbn [NilEmpty.string_of_uint Decimal.nb_digits];
    [now rewrite Nat.add_0_r | ..];
    cbn [scan_digits digit_val is_digit digits_value]; simpl; rewrite IHd;
    now rewrite Nat.add_succ_r.
Qed.

Lemma digits_value_pos (d : Decimal.uint) :
  forall p, digits_value (Zpos p) d = Zpos (Pos.of_uint_acc d p).
Proof.
  induction d; intros p; cbn [digits_value Pos.of_uint_acc]; try reflexivity;
    rewrite <- IHd; f_equal; lia.
Qed.

Lemma digits_value_zero (d : Decimal.uint) :
  digits_value 0 d = Z.of_N (Pos.of_uint d).
Proof.
  induction d; cbn [digits_value Pos.of_uint]; try reflexivity; try exact IHd;
    apply (digits_value_pos d).
Qed.

Lemma no_space_tail c s : no_space (String c s) -> no_space s.
Proof. intros H b Hb. apply H. simpl. rewrite Hb. apply orb_true_r. Qed.

Lemma no_space_cons c s : is_space c = false -> no_space s -> no_space (String c s).
Proof.
  intros Hc Hs b. simpl. intros Hb. apply orb_true_iff in Hb.
  destruct Hb as [Hb | Hb]; [| now apply Hs].
  apply Ascii.eqb_eq in Hb. now subst.
Qed.

Lemma uint_no_space (d : Decimal.uint) : no_space (NilEmpty.string_of_uint d).
Proof.
  induction d; simpl; try (apply no_space_cons; [reflexivity | exact IHd]).
  intros c H. discriminate.
Qed.

(** Stripping leaves a string without whitespace as it is. *)
Lemma strip_no_space (s : string) : no_space s -> strip s = s.
Proof.
  intros H. unfold strip.
  assert (Hl : lstrip s = s).
  { destruct s as [| c s]; [reflexivity |]. simpl.
    rewrite (H c); [reflexivity |]. simpl. now rewrite Ascii.eqb_refl. }
  rewrite Hl. clear Hl.
  induction s as [| c s IH]; [reflexivity |].
  simpl. rewrite (IH (no_space_tail c s H)).
  destruct s; [| reflexivity].
  rewrite (H c); [reflexivity |]. simpl. now rewrite Ascii.eqb_refl.
Qed.

(** What a number is trimmed of is whitespace. *)
Lemma is_blank_space c : is_space c = false -> is_blank c = false.
Proof.
  destruct c as [[] [] [] [] [] [] [] []]; vm_compute; congruence.
Qed.

(** Trimming, too, leaves a string without whitespace as it is. *)
Lemma trim_no_space (s : string) : no_space s -> trim s = s.
Proof.
  intros H. unfold trim.
  assert (Hc : forall c, has_char c s = true -> is_blank c = false)
    by (intros c Hc; apply is_blank_space, H, Hc).
  clear H.
  assert (Hl : ltrim s = s).
  { destruct s as [| c s]; [reflexivity |]. simpl.
    rewrite (Hc c); [reflexivity |]. simpl. now rewrite Ascii.eqb_refl. }
  rewrite Hl. clear Hl.
  induction s as [| c s IH]; [reflexivity |].
  simpl. rewrite IH by (intros b Hb; apply Hc; simpl; rewrite Hb; apply orb_true_r).
  destruct s; [| reflexivity].
  rewrite (Hc c); [reflexivity |]. simpl. now rewrite Ascii.eqb_refl.
Qed.

Lemma sign_uint (d : Decimal.uint) :
  sign (NilEmpty.string_of_uint d) = (false, NilEmpty.string_of_uint d).
Proof. destruct d; reflexivity. Qed.

Lemma digitpart_uint (d : Decimal.uint) :
  d <> Decimal.Nil ->
  digitpart (NilEmpty.string_of_uint d)
  = Some (digits_value 0 d, Decimal.nb_digits d, "").
Proof.
  destruct d; intros Hd; [now elim Hd | ..];
    cbn [NilEmpty.string_of_uint digitpart digit_val is_digit]; simpl;
    now rewrite scan_uint.
Qed.

Lemma uint_length (d : Decimal.uint) :
  String.length (NilEmpty.string_of_uint d) = Decimal.nb_digits d.
Proof. induction d; simpl; congruence. Qed.

(** The digits of a positive number, as [int] counts them. *)
Lemma digit_count_pos (p : positive) :
  digit_count (Zpos p) = Z.of_nat (Decimal.nb_digits (Pos.to_uint p))
  /\ digit_count (Zneg p) = Z.of_nat (Decimal.nb_digits (Pos.to_uint p)).
Proof.
  pose proof (Unsigned.to_uint_nonnil p) as Hnil.
  unfold digit_count, str_of_int. cbn [Z.abs Z.to_int].
  unfold NilZero.string_of_int, NilZero.string_of_uint.
  destruct (Pos.to_uint p) eqn:E; [now elim Hnil | ..]; rewrite <- E;
    now rewrite uint_length.
Qed.

(** Reading the digits of a positive number, with or without a sign: the
    number, unless the digits are too many. *)
Lemma read_positive (p : positive) (neg : bool) :
  match digitpart (NilEmpty.string_of_uint (Pos.to_uint p)) with
  | Some (v, n, rest) =>
      if starts_with_underscore rest then IntInvalid
      else if (max_str_digits <? Z.of_nat n)%Z then IntTooLong n
      else match rest with
           | EmptyString => IntValue (if neg then - v else v)
           | _ => IntInvalid
           end
  | None => IntInvalid
  end
  = if (max_str_digits <? digit_count (Zpos p))%Z
    then IntTooLong (Decimal.nb_digits (Pos.to_uint p))
    else IntValue (if neg then Zneg p else Zpos p).
Proof.
  rewrite (digitpart_uint (Pos.to_uint p) (Unsigned.to_uint_nonnil p)).
  rewrite (proj1 (digit_count_pos p)). cbn [starts_with_underscore].
  destruct (max_str_digits <? _)%Z; [reflexivity |].
  rewrite digits_value_zero, Unsigned.of_to. destruct neg; reflexivity.
Qed.

(** [int(str(z))]: [z], unless [str(z)] has more digits than [int] reads. *)
Lemma read_int_str_of_int (z : Z) :
  read_int (str_of_int z)
  = if (max_str_digits <? digit_count z)%Z
    then IntTooLong (Z.to_nat (digit_count z))
    else IntValue z.
Proof.
  destruct z as [| p | p]; [reflexivity | |].
  - rewrite (proj1 (digit_count_pos p)) at 2. rewrite Nat2Z.id.
    unfold read_int, str_of_int. simpl Z.to_int.
    unfold NilZero.string_of_int, NilZero.string_of_uint.
    pose proof (Unsigned.to_uint_nonnil p) as Hnil.
    destruct (Pos.to_uint p) eqn:E; [now elim Hnil | ..]; rewrite <- E;
      (rewrite trim_no_space by apply uint_no_space);
      rewrite sign_uint; apply (read_positive p false).
  - rewrite (proj2 (digit_count_pos p)) at 2. rewrite Nat2Z.id.
    replace (digit_count (Zneg p)) with (digit_count (Zpos p))
      by (now rewrite (proj1 (digit_count_pos p)), (proj2 (digit_count_pos p))).
    unfold read_int, str_of_int. simpl Z.to_int.
    unfold NilZero.string_of_int, NilZero.string_of_uint.
    pose proof (Unsigned.to_uint_nonnil p) as Hnil.
    destruct (Pos.to_uint p) eqn:E; [now elim Hnil | ..]; rewrite <- E;
      (rewrite trim_no_space
         by (apply no_space_cons; [reflexivity | apply uint_no_space]));
      cbn [sign]; apply (read_positive p true).
Qed.

Lemma parse_int_str_of_int (z : Z) :
  (digit_count z <= max_str_digits)%Z -> parse_int (str_of_int z) = Some z.
Proof.
  intros H. unfold parse_int. rewrite read_int_str_of_int.
  destruct (Z.ltb_spec max_str_digits (digit_count z)); [lia | reflexivity].
Qed.

Lemma parse_int_too_long (z : Z) :
  (max_str_digits < digit_count z)%Z -> parse_int (str_of_int z) = None.
Proof.
  intros H. unfold parse_int. rewrite read_int_str_of_int.
  destruct (Z.ltb_spec max_str_digits (digit_count z)); [reflexivity | lia].
Qed.

(** X4. Both copies of [get_parameter] read back the decimal text of an
    integer, as far as [int] reads it: when the variable holds [str(z)],
    [param_type=int] returns [z] if [z] has at most 4300 digits, whatever
    the default, and the default if it has more. *)
Theorem get_parameter_reads_decimal env name default z
    (Hraw : env (env_name name) = Some (str_of_int z)) :
  ((digit_count z <= max_str_digits)%Z ->
   Ping.get_parameter env name default TInt = ok (PInt z)
   /\ Db.get_parameter env name default TInt = ok (PInt z))
  /\ ((max_str_digits < digit_count z)%Z ->
      Ping.get_parameter env name default TInt = ok default
      /\ Db.get_parameter env name default TInt = ok default).
Proof.
  unfold Ping.get_parameter, Db.get_parameter, environ_get.
  rewrite Hraw, int_or_default_str. split; intros Hz.
  - rewrite (parse_int_str_of_int z Hz). split; reflexivity.
  - rewrite (parse_int_too_long z Hz). split; reflexivity.
Qed.

(** X4 on [PARAM_TIMEOUT=-12]. *)
Lemma get_parameter_reads_decimal_witness :
  Db.get_parameter (env_of [("PARAM_TIMEOUT", "-12")]) "timeout" (PInt 30) TInt
  = ok (PInt (-12)).
Proof.
  refine (proj2 (proj1 (get_parameter_reads_decimal
                          (env_of [("PARAM_TIMEOUT", "-12")])
                          "timeout" (PInt 30) (-12)%Z eq_refl) _)).
  vm_compute. discriminate.
Defined.

(* ===================================================================== *)
(** ** Further properties: the network check *)
(* ===================================================================== *)

(** Parsing never assigns the error. *)
Lemma parse_output_error nt output r :
  Ping.error (snd (Ping.parse_output nt output r)) = Ping.error r.
Proof.
  apply (parse_output_keeps (fun x => Ping.error x = Ping.error r)); auto.
Qed.

(** X5. The error of a probe.  A result has no error exactly when the tool
    returned status zero and parsing its output did not raise; so every
    failed result has one.  For a status other than zero the output is not
    read, and the error is the tool's standard error, or, when that is
    empty, the text with the return code; it is never empty. *)
Theorem probe_error nt h count timeout outcome :
  let r := Ping.ping_result nt h count timeout outcome in
  (Ping.error r = None <->
   exists stdout stderr,
     outcome = Ping.Completed 0 stdout stderr
     /\ fst (Ping.parse_output nt stdout
               (Ping.set_success true (Ping.initial_result h))) = inr tt)
  /\ (Ping.success r = false -> Ping.error r <> None)
  /\ (forall returncode stdout stderr,
        outcome = Ping.Completed returncode stdout stderr ->
        returncode <> 0%Z ->
        r = Ping.set_error (status_error returncode stderr) (Ping.initial_result h)
        /\ nonempty (status_error returncode stderr) = true).
Proof.
  cbv zeta.
  assert (Hiff : Ping.error (Ping.ping_result nt h count timeout outcome) = None <->
                 exists stdout stderr,
                   outcome = Ping.Completed 0 stdout stderr
                   /\ fst (Ping.parse_output nt stdout
                             (Ping.set_success true (Ping.initial_result h)))
                      = inr tt).
  { unfold Ping.ping_result. destruct outcome as [rc out err | e].
    - destruct (Z.eq_dec rc 0) as [-> | Hrc].
      + rewrite try_block_zero.
        pose proof (parse_output_error nt out
                      (Ping.set_success true (Ping.initial_result h))) as Herr.
        destruct (Ping.parse_output nt out
                    (Ping.set_success true (Ping.initial_result h)))
          as [[e | []] r'] eqn:Hp; cbn [fst snd] in *.
        * destruct (handle_is_set_error count timeout e r') as [m Hm].
          rewrite Hm. split; [discriminate |].
          intros (o & e' & Ho & Hparse).
          injection Ho as <- _. rewrite Hp in Hparse. discriminate.
        * split; [| intros _; exact Herr].
          intros _. exists out, err. rewrite Hp. split; reflexivity.
      + unfold Ping.try_block. destruct (Z.eqb_spec rc 0); [contradiction |].
        cbn. split; [discriminate |].
        intros (o & e' & Ho & _). injection Ho as -> _ _. now elim Hrc.
    - cbn [Ping.try_block raise throw].
      destruct (handle_is_set_error count timeout e (Ping.initial_result h))
        as [m Hm].
      rewrite Hm. split; [discriminate |]. intros (o & e' & Ho & _). discriminate. }
  split; [exact Hiff |]. split.
  - intros Hfail Hnone. apply Hiff in Hnone.
    destruct Hnone as (out & err & -> & _).
    rewrite ping_result_success in Hfail. discriminate.
  - intros rc out err -> Hrc. split.
    + unfold Ping.ping_result, Ping.try_block.
      destruct (Z.eqb_spec rc 0); [contradiction | reflexivity].
    + unfold status_error. destruct (nonempty err) eqn:E; [exact E | reflexivity].
Qed.

(** X5 on a tool that returned status 2 without a word. *)
Lemma probe_error_witness :
  Ping.ping_result false "h" 4 5 (Ping.Completed 2 "" "")
  = Ping.set_error "Ping failed with return code 2" (Ping.initial_result "h").
Proof.
  exact (proj1 (proj2 (proj2 (probe_error false "h" 4 5 (Ping.Completed 2 "" "")))
                 2%Z "" "" eq_refl ltac:(discriminate))).
Defined.

Lemma ping_get_parameter_resolved env name d :
  Ping.get_parameter env name (PInt d) TInt = ok (PInt (resolved_int env name d)).
Proof.
  unfold Ping.get_parameter, environ_get, resolved_int.
  destruct (env _) as [raw |]; [| reflexivity].
  rewrite int_or_default_str. destruct (parse_int raw); reflexivity.
Qed.

Section PingRun.

Variable W : Type.
Variable run : W -> list string -> Z -> Ping.RunOutcome * W.
Variable nt : bool.

(** The run of [main] on at least one valid host, in full. *)
Lemma ping_main_eq write_file env (w : Ping.World W) :
  let hosts := split_items (hosts_parameter env) in
  let count := resolved_int env "count" 4 in
  let timeout := resolved_int env "timeout" 5 in
  let st := Ping.ping_all W run nt hosts count timeout
              (Ping.mkLoop W w [] 0
                 [Ping.LStarting; Ping.LParameters hosts count timeout]) in
  let total := Z.of_nat (List.length hosts) in
  let successful := Ping.loop_successful W st in
  let s := Ping.mkSummary total successful (total - successful)
             (guarded_rate successful total) in
  hosts <> [] ->
  Ping.main W run nt write_file env w
  = ok (Ping.mkRun W (fst (Ping.verdict successful total))
          (Ping.loop_output W st ++ Ping.LSummary s
           :: map Ping.detail (Ping.loop_results W st)
           ++ snd (Ping.save write_file hosts count timeout total successful
                     (Ping.loop_results W st))
           ++ [snd (Ping.verdict successful total)])%list
          (Ping.loop_results W st) (Some s)
          (fst (Ping.save write_file hosts count timeout total successful
                  (Ping.loop_results W st)))
          (Ping.loop_world W st)).
Proof.
  cbv zeta. intros Hne. unfold Ping.main.
  rewrite ping_get_parameter_str, !ping_get_parameter_resolved.
  change (env (env_name "hosts")) with (env "PARAM_HOSTS").
  fold (hosts_parameter env). cbn [ebind as_str as_int ok].
  destruct (nonempty (hosts_parameter env)) eqn:Hp; cbn [negb].
  - destruct (split_items (hosts_parameter env)) as [| h hosts] eqn:Hhosts;
      [now elim Hne |].
    set (hs := h :: hosts). set (st := Ping.ping_all W run nt hs _ _ _).
    assert (Htotal : (0 < Z.of_nat (List.length hs))%Z) by (simpl; lia).
    unfold Ping.rate_percent at 1. rewrite (true_div_pos _ _ Htotal).
    cbn [ebind ok]. unfold guarded_rate. rewrite Z.max_l by lia.
    destruct (Ping.save _ _ _ _ _ _ _) as [file saving].
    destruct (Ping.verdict _ _) as [code last]. reflexivity.
  - apply nonempty_false in Hp. rewrite Hp in Hne. now elim Hne.
Qed.

(** X6. Writing the report has no part in the verdict: whether the file
    can be written or not, the exit status, the results, the summary and
    the commands run are the same; a file that cannot be written only
    leaves no report. *)
Theorem ping_report_failure_is_harmless write1 write2 env (w : Ping.World W) :
  exists r1 r2,
    Ping.main W run nt write1 env w = ok r1
    /\ Ping.main W run nt write2 env w = ok r2
    /\ Ping.exit_code W r1 = Ping.exit_code W r2
    /\ Ping.results W r1 = Ping.results W r2
    /\ Ping.summary W r1 = Ping.summary W r2
    /\ Ping.final W r1 = Ping.final W r2
    /\ ((forall data, write1 data <> None) -> Ping.saved W r1 = None).
Proof.
  destruct (split_items (hosts_parameter env)) as [| h hosts] eqn:Hhosts.
  - destruct (ping_main_spec W run nt write1 env w) as (r1 & Hr1 & Hn1 & _).
    destruct (ping_main_spec W run nt write2 env w) as (r2 & Hr2 & Hn2 & _).
    rewrite Hhosts in Hn1, Hn2.
    destruct (Hn1 eq_refl) as (Hc1 & Hl1 & Hs1 & Hf1 & Hw1 & _).
    destruct (Hn2 eq_refl) as (Hc2 & Hl2 & Hs2 & _ & Hw2 & _).
    exists r1, r2. rewrite Hc1, Hc2, Hl1, Hl2, Hs1, Hs2, Hw1, Hw2.
    repeat split; auto.
  - assert (Hne : split_items (hosts_parameter env) <> [])
      by (rewrite Hhosts; discriminate).
    eexists. eexists.
    split; [apply (ping_main_eq write1 env w Hne) |].
    split; [apply (ping_main_eq write2 env w Hne) |].
    cbn [Ping.exit_code Ping.results Ping.summary Ping.final Ping.saved].
    repeat split.
    intros Hfail. unfold Ping.save.
    destruct (Ping.rate_percent _ _); [reflexivity |].
    match goal with |- context [write1 ?d] => specialize (Hfail d);
      destruct (write1 d) end; [reflexivity | now elim Hfail].
Qed.

(** X7. The commands [main] runs are those for the valid hosts, in order:
    [ping -c COUNT -W TIMEOUT HOST], and on Windows
    [ping -n COUNT -w TIMEOUT*1000 HOST], each under a time limit of
    [TIMEOUT * COUNT + 10] seconds.  COUNT and TIMEOUT are what
    [get_parameter] returns for [count] and [timeout] with the defaults 4
    and 5: the variable when [int] reads it, else the default.  The
    numbers are taken as [str] prints them, which it does up to 4300
    digits. *)
Theorem ping_uses_resolved_parameters write_file env (w : Ping.World W)
    count timeout
    (Hcount : Ping.get_parameter env "count" (PInt 4) TInt = ok (PInt count))
    (Htimeout : Ping.get_parameter env "timeout" (PInt 5) TInt = ok (PInt timeout))
    (Hprint : (digit_count (timeout * 1000) <= max_str_digits)%Z
              /\ (digit_count (timeout * count + 10) <= max_str_digits)%Z) :
  exists r,
    Ping.main W run nt write_file env w = ok r
    /\ Ping.calls W (Ping.final W r)
       = (Ping.calls W w
          ++ map (fun h =>
                    (if nt
                     then ["ping"; "-n"; str_of_int count; "-w";
                           str_of_int (timeout * 1000); h]
                     else ["ping"; "-c"; str_of_int count; "-W";
                           str_of_int timeout; h],
                     (timeout * count + 10)%Z))
               (split_items (hosts_parameter env)))%list
    /\ (forall raw z,
          env "PARAM_COUNT" = Some raw -> parse_int raw = Some z -> count = z)
    /\ (env "PARAM_COUNT" = None
        \/ (exists raw, env "PARAM_COUNT" = Some raw /\ parse_int raw = None) ->
        count = 4%Z)
    /\ (forall raw z,
          env "PARAM_TIMEOUT" = Some raw -> parse_int raw = Some z -> timeout = z)
    /\ (env "PARAM_TIMEOUT" = None
        \/ (exists raw, env "PARAM_TIMEOUT" = Some raw /\ parse_int raw = None) ->
        timeout = 5%Z).
Proof.
  rewrite ping_get_parameter_resolved in Hcount, Htimeout.
  injection Hcount as Hcount. injection Htimeout as Htimeout.
  assert (Hrun : exists r,
             Ping.main W run nt write_file env w = ok r
             /\ Ping.calls W (Ping.final W r)
                = (Ping.calls W w
                   ++ map (fun h => (Ping.ping_command nt h count timeout,
                                     (timeout * count + 10)%Z))
                        (split_items (hosts_parameter env)))%list).
  { subst count timeout.
    destruct (split_items (hosts_parameter env)) as [| h hosts] eqn:Hhosts.
    - destruct (ping_main_spec W run nt write_file env w) as (r & Hr & Hn & _).
      rewrite Hhosts in Hn. destruct (Hn eq_refl) as (_ & _ & _ & _ & Hw & _).
      exists r. split; [exact Hr |]. rewrite Hw. cbn [map]. now rewrite app_nil_r.
    - assert (Hne : split_items (hosts_parameter env) <> [])
        by (rewrite Hhosts; discriminate).
      eexists. split; [apply (ping_main_eq write_file env w Hne) |].
      cbn [Ping.final]. rewrite Hhosts.
      destruct (ping_all_spec W run nt (h :: hosts) (resolved_int env "count" 4)
                  (resolved_int env "timeout" 5) w
                  [Ping.LStarting;
                   Ping.LParameters (h :: hosts) (resolved_int env "count" 4)
                     (resolved_int env "timeout" 5)])
        as (_ & _ & Hcalls & _).
      { intros x y [H | [H | []]]; discriminate. }
      exact Hcalls. }
  destruct Hrun as (r & Hr & Hcalls).
  exists r. split; [exact Hr |]. split.
  { rewrite Hcalls. reflexivity. }
  unfold resolved_int in Hcount, Htimeout.
  change (env_name "count") with "PARAM_COUNT" in Hcount.
  change (env_name "timeout") with "PARAM_TIMEOUT" in Htimeout.
  repeat split.
  - intros raw z Hraw Hz. now rewrite Hraw, Hz in Hcount.
  - intros [Hnone | (raw & Hraw & Hz)];
      [now rewrite Hnone in Hcount | now rewrite Hraw, Hz in Hcount].
  - intros raw z Hraw Hz. now rewrite Hraw, Hz in Htimeout.
  - intros [Hnone | (raw & Hraw & Hz)];
      [now rewrite Hnone in Htimeout | now rewrite Hraw, Hz in Htimeout].
Qed.

(** X8. The exit status is a function of the counts of the summary: a run
    without a summary exits with 1; with one, there is at least one host,
    the successes lie between zero and the total, and the status is 0
    when no host failed, 2 when none succeeded and 1 otherwise. *)
Theorem ping_exit_from_summary write_file env (w : Ping.World W) :
  exists r,
    Ping.main W run nt write_file env w = ok r
    /\ match Ping.summary W r with
       | None => Ping.exit_code W r = 1%Z
       | Some s =>
           (1 <= Ping.total_hosts s)%Z
           /\ (0 <= Ping.successful_hosts s <= Ping.total_hosts s)%Z
           /\ Ping.exit_code W r
              = (if (Ping.failed_hosts s =? 0)%Z then 0
                 else if (Ping.successful_hosts s =? 0)%Z then 2
                 else 1)%Z
       end.
Proof.
  destruct (split_items (hosts_parameter env)) as [| h hosts] eqn:Hhosts.
  - destruct (ping_main_spec W run nt write_file env w) as (r & Hr & Hn & _).
    rewrite Hhosts in Hn. destruct (Hn eq_refl) as (Hcode & _ & Hs & _).
    exists r. split; [exact Hr |]. rewrite Hs. exact Hcode.
  - assert (Hne : split_items (hosts_parameter env) <> [])
      by (rewrite Hhosts; discriminate).
    eexists. split; [apply (ping_main_eq write_file env w Hne) |].
    cbn [Ping.summary Ping.exit_code Ping.total_hosts Ping.successful_hosts
         Ping.failed_hosts].
    rewrite Hhosts.
    set (c := resolved_int env "count" 4). set (t := resolved_int env "timeout" 5).
    destruct (ping_all_spec W run nt (h :: hosts) c t w
                [Ping.LStarting; Ping.LParameters (h :: hosts) c t])
      as (Hmap & Hsucc & _).
    { intros x y [H | [H | []]]; discriminate. }
    set (st := Ping.ping_all W run nt (h :: hosts) c t _) in *.
    assert (Hlen : List.length (h :: hosts) = List.length (Ping.loop_results W st))
      by (now rewrite <- Hmap, length_map).
    pose proof (filter_length_le Ping.success (Ping.loop_results W st)) as Hle.
    assert (Hpos : (0 < List.length (h :: hosts))%nat) by (simpl; lia).
    set (n := List.length (h :: hosts)) in *. clearbody n.
    rewrite Hsucc. unfold Ping.verdict.
    repeat split; try lia.
    destruct (Z.eqb_spec (Z.of_nat (List.length (filter Ping.success
                                                   (Ping.loop_results W st))))
                (Z.of_nat n));
      destruct (Z.eqb_spec (Z.of_nat n - Z.of_nat (List.length (filter Ping.success
                                                   (Ping.loop_results W st)))) 0);
      try lia; [reflexivity |].
    destruct (Z.gtb_spec (Z.of_nat (List.length (filter Ping.success
                                                   (Ping.loop_results W st)))) 0);
      destruct (Z.eqb_spec (Z.of_nat (List.length (filter Ping.success
                                                   (Ping.loop_results W st)))) 0);
      try lia; reflexivity.
Qed.

End PingRun.

(** X7 on a reachable and an unknown host, with the defaults. *)
Lemma ping_uses_resolved_parameters_witness :
  exists r,
    Ping.main unit sample_run false (fun _ => None) two_hosts_env sample_world
    = ok r
    /\ Ping.calls unit (Ping.final unit r)
       = [(["ping"; "-c"; "4"; "-W"; "5"; "10.0.0.1"], 30%Z);
          (["ping"; "-c"; "4"; "-W"; "5"; "bad.host"], 30%Z)].
Proof.
  destruct (ping_uses_resolved_parameters unit sample_run false (fun _ => None)
              two_hosts_env sample_world 4%Z 5%Z eq_refl eq_refl)
    as (r & Hr & Hcalls & _).
  - split; vm_compute; discriminate.
  - exists r. split; [exact Hr | exact Hcalls].
Defined.

(* ===================================================================== *)
(** ** Further properties: the database check *)
(* ===================================================================== *)

(** X9. The connection by database type.  The type is compared in lower
    case; a type that is none of the three raises the error that names it,
    without a call of a driver; a connection that is returned is one a
    driver returned; no import error leaves the function; and for SQLite
    every exception of the driver comes back under the text
    [SQLite connection failed]. *)
Theorem connection_by_type connect db_type args :
  (forall m,
     Db.create_database_connection connect db_type args <> inl (ImportError m))
  /\ (supported db_type = false ->
      forall connect',
        Db.create_database_connection connect' db_type args
        = throw (OtherError ("Unsupported database type: " ++ db_type)))
  /\ (supported db_type = true ->
      forall db_type',
        lower db_type' = lower db_type ->
        Db.create_database_connection connect db_type' args
        = Db.create_database_connection connect db_type args)
  /\ (forall srv,
        Db.create_database_connection connect db_type args = inr srv ->
        supported db_type = true /\ exists driver, connect driver args = inr srv)
  /\ (lower db_type = "sqlite" ->
      forall e,
        connect Db.Sqlite3 args = inl e ->
        Db.create_database_connection connect db_type args
        = throw (OtherError ("SQLite connection failed: " ++ exn_str e))).
Proof.
  unfold Db.create_database_connection, supported, Db.without_import_error, throw, ok.
  cbn [existsb].
  split; [| split; [| split; [| split]]].
  - intros m.
    destruct (String.eqb (lower db_type) "mysql");
      [destruct (connect Db.Pymysql args) as [[] |]; discriminate |].
    destruct (String.eqb (lower db_type) "postgresql");
      [destruct (connect Db.Psycopg2 args) as [[] |]; discriminate |].
    destruct (String.eqb (lower db_type) "sqlite");
      [destruct (connect Db.Sqlite3 args); discriminate | discriminate].
  - intros Hno connect'.
    destruct (String.eqb (lower db_type) "mysql"); [discriminate |].
    destruct (String.eqb (lower db_type) "postgresql"); [discriminate |].
    destruct (String.eqb (lower db_type) "sqlite"); [discriminate | reflexivity].
  - intros Hyes db_type' ->.
    destruct (String.eqb (lower db_type) "mysql"); [reflexivity |].
    destruct (String.eqb (lower db_type) "postgresql"); [reflexivity |].
    destruct (String.eqb (lower db_type) "sqlite"); [reflexivity | discriminate].
  - intros srv.
    destruct (String.eqb (lower db_type) "mysql").
    { destruct (connect Db.Pymysql args) as [[] | s] eqn:E; try discriminate.
      intros H. injection H as <-. split; [reflexivity | eauto]. }
    destruct (String.eqb (lower db_type) "postgresql").
    { destruct (connect Db.Psycopg2 args) as [[] | s] eqn:E; try discriminate.
      intros H. injection H as <-. split; [reflexivity | eauto]. }
    destruct (String.eqb (lower db_type) "sqlite"); [| discriminate].
    destruct (connect Db.Sqlite3 args) as [e | s] eqn:E; [discriminate |].
    intros H. injection H as <-. split; [reflexivity | eauto].
  - intros -> e ->. reflexivity.
Qed.

Lemma create_connection_same connect connect' db_type args :
  (forall driver, connect driver args = connect' driver args) ->
  Db.create_database_connection connect db_type args
  = Db.create_database_connection connect' db_type args.
Proof.
  intros H. unfold Db.create_database_connection. now rewrite !H.
Qed.

Section DbRun.

Variable clock : nat -> Q.
Variable getsize : string -> option Z.

(** Closing the connection changes what is printed, nothing else. *)
Lemma run_checks_close connect close1 close2 db_type database args st :
  let st1 := Db.run_checks clock getsize connect close1 db_type database args st in
  let st2 := Db.run_checks clock getsize connect close2 db_type database args st in
  Db.loop_results st1 = Db.loop_results st2
  /\ Db.loop_overall st1 = Db.loop_overall st2
  /\ Db.loop_ticks st1 = Db.loop_ticks st2.
Proof.
  cbv zeta. unfold Db.run_checks.
  destruct (Db.create_database_connection connect db_type args) as [e | srv];
    [repeat split |].
  destruct (close1 srv), (close2 srv); repeat split.
Qed.

Lemma run_checks_connect connect connect' close db_type database args st :
  (forall driver, connect driver args = connect' driver args) ->
  Db.run_checks clock getsize connect close db_type database args st
  = Db.run_checks clock getsize connect' close db_type database args st.
Proof.
  intros H. unfold Db.run_checks.
  now rewrite (create_connection_same connect connect' db_type args H).
Qed.

Ltac db_main_parameters env :=
  unfold Db.main;
  rewrite db_get_parameter_str; cbn [ebind ok];
  rewrite (db_get_parameter_text env "host") by eauto; cbn [ebind ok as_str];
  change (match env (env_name "db_type") with
          | Some raw => raw
          | None => "mysql"
          end) with (db_type_parameter env);
  rewrite (db_get_parameter_integer env "port") by apply default_port_cases;
  cbn [ebind ok];
  rewrite (db_get_parameter_text env "database") by eauto; cbn [ebind ok];
  rewrite (db_get_parameter_text env "username") by eauto; cbn [ebind ok];
  rewrite (db_get_parameter_text env "password") by eauto; cbn [ebind ok];
  rewrite (db_get_parameter_integer env "timeout") by eauto; cbn [ebind ok];
  rewrite (port_unchanged env (db_type_parameter env));
  fold (connection_arguments env).

(** The run without a database name. *)
Lemma db_main_no_database connect close write_file env :
  Db.param_truthy (text_parameter env "database" PNone) = false ->
  Db.main clock getsize connect close write_file env
  = ok (Db.mkRun 1 [Db.LStarting; Db.LErrorDatabaseRequired] [] None None).
Proof.
  intros Hdb. db_main_parameters env. now rewrite Hdb.
Qed.

(** The run with a database name, in full. *)
Lemma db_main_eq connect close write_file env database :
  text_parameter env "database" PNone = PStr database ->
  nonempty database = true ->
  let db_type := db_type_parameter env in
  let args := connection_arguments env in
  let st := Db.run_checks clock getsize connect close db_type database args
              (Db.mkLoop 0 [] true
                 [Db.LStarting;
                  Db.LParameters db_type (Db.conn_host args) (Db.conn_port args)
                    (PStr database) (Db.conn_username args) (Db.conn_timeout args);
                  Db.LBlank]) in
  let rs := Db.loop_results st in
  let s := Db.mkSummary (Z.of_nat (List.length rs)) (Db.count_successful rs)
             (Z.of_nat (List.length rs) - Db.count_successful rs)
             (guarded_rate (Db.count_successful rs) (Z.of_nat (List.length rs))) in
  let saving := Db.save write_file db_type (Db.conn_host args) (Db.conn_port args)
                  (PStr database) (Db.conn_timeout args) (Db.loop_overall st) rs in
  Db.main clock getsize connect close write_file env
  = ok (Db.mkRun (if Db.loop_overall st then 0 else 1)
          (Db.loop_output st ++ Db.LSummary s :: snd saving
           ++ [if Db.loop_overall st then Db.LAllPassed else Db.LSomeFailed])%list
          rs (Some s) (fst saving)).
Proof.
  intros Hdb Hname. cbv zeta. db_main_parameters env.
  rewrite Hdb. cbn [Db.param_truthy]. rewrite Hname. cbn [negb as_str ebind ok].
  rewrite summarize_spec. cbn [ebind ok].
  cbn [connection_arguments Db.conn_host Db.conn_port Db.conn_username
       Db.conn_timeout].
  destruct (Db.save _ _ _ _ _ _ _ _) as [file saving]. reflexivity.
Qed.

(** The database parameter is absent, empty, or a name. *)
Lemma database_cases env :
  Db.param_truthy (text_parameter env "database" PNone) = false
  \/ exists database,
       text_parameter env "database" PNone = PStr database
       /\ nonempty database = true.
Proof.
  unfold text_parameter. destruct (env _) as [raw |]; [| now left].
  cbn [Db.param_truthy]. destruct (nonempty raw) eqn:E; [right; eauto | now left].
Qed.

(** X10. Closing the connection and writing the report have no part in
    the verdict: whether they fail or not, the exit status, the results
    and the summary are the same; a file that cannot be written only
    leaves no report. *)
Theorem db_cleanup_is_harmless connect close1 close2 write1 write2 env :
  exists r1 r2,
    Db.main clock getsize connect close1 write1 env = ok r1
    /\ Db.main clock getsize connect close2 write2 env = ok r2
    /\ Db.exit_code r1 = Db.exit_code r2
    /\ Db.all_results r1 = Db.all_results r2
    /\ Db.summary r1 = Db.summary r2
    /\ ((forall data, write1 data <> None) -> Db.saved r1 = None).
Proof.
  destruct (database_cases env) as [Hdb | (database & Hdb & Hname)].
  - eexists. eexists.
    split; [apply (db_main_no_database connect close1 write1 env Hdb) |].
    split; [apply (db_main_no_database connect close2 write2 env Hdb) |].
    repeat split.
  - eexists. eexists.
    split; [apply (db_main_eq connect close1 write1 env database Hdb Hname) |].
    split; [apply (db_main_eq connect close2 write2 env database Hdb Hname) |].
    cbn [Db.exit_code Db.all_results Db.summary Db.saved].
    match goal with
    | |- context [Db.run_checks clock getsize connect close1 ?d ?n ?a ?st] =>
        destruct (run_checks_close connect close1 close2 d n a st)
          as (Hres & Hall & _)
    end.
    cbv zeta in Hres, Hall. rewrite Hres, Hall.
    repeat split.
    intros Hfail. unfold Db.save. rewrite summarize_spec.
    cbv beta iota zeta delta [ok].
    match goal with |- context [write1 ?d] => specialize (Hfail d);
      destruct (write1 d) end; [reflexivity | now elim Hfail].
Qed.

(** X11. [main] calls the drivers with the arguments of the parameters and
    no others: two drivers that agree on these arguments give the same
    run.  The port among them is the variable when [int] reads it, as it
    reads the decimal text of every integer of at most 4300 digits; when
    the variable is absent or [int] does not read it, the port is 3306
    for MySQL, 5432 for PostgreSQL and null for every other type.  The
    report that is written carries the same type, host, port, database
    and timeout. *)
Theorem db_connects_with_parameters connect connect' close write_file env
    (Hsame : forall driver,
        connect driver (connection_arguments env)
        = connect' driver (connection_arguments env)) :
  Db.main clock getsize connect close write_file env
  = Db.main clock getsize connect' close write_file env
  /\ (forall raw z, env "PARAM_PORT" = Some raw -> parse_int raw = Some z ->
        Db.conn_port (connection_arguments env) = PInt z)
  /\ (forall z, env "PARAM_PORT" = Some (str_of_int z) ->
        (digit_count z <= max_str_digits)%Z ->
        Db.conn_port (connection_arguments env) = PInt z)
  /\ (env "PARAM_PORT" = None
      \/ (exists raw, env "PARAM_PORT" = Some raw /\ parse_int raw = None) ->
      Db.conn_port (connection_arguments env)
      = if String.eqb (lower (db_type_parameter env)) "mysql" then PInt 3306
        else if String.eqb (lower (db_type_parameter env)) "postgresql"
             then PInt 5432
             else PNone)
  /\ (forall r data,
        Db.main clock getsize connect close write_file env = ok r ->
        Db.saved r = Some data ->
        Db.report_db_type data = db_type_parameter env
        /\ Db.report_host data = Db.conn_host (connection_arguments env)
        /\ Db.report_port data = Db.conn_port (connection_arguments env)
        /\ Db.report_database data = Db.conn_database (connection_arguments env)
        /\ Db.report_timeout data = Db.conn_timeout (connection_arguments env)).
Proof.
  split; [| split; [| split; [| split]]].
  - destruct (database_cases env) as [Hdb | (database & Hdb & Hname)].
    + now rewrite !db_main_no_database.
    + rewrite !(db_main_eq _ _ _ _ database Hdb Hname). cbv zeta.
      now rewrite (run_checks_connect connect connect' close _ _ _ _ Hsame).
  - intros raw z Hraw Hz. cbn [connection_arguments Db.conn_port].
    unfold int_parameter. change (env_name "port") with "PARAM_PORT".
    now rewrite Hraw, Hz.
  - intros z Hz Hdigits. cbn [connection_arguments Db.conn_port].
    unfold int_parameter. change (env_name "port") with "PARAM_PORT".
    now rewrite Hz, (parse_int_str_of_int z Hdigits).
  - intros H. cbn [connection_arguments Db.conn_port].
    unfold int_parameter. change (env_name "port") with "PARAM_PORT".
    destruct H as [-> | (raw & -> & ->)]; reflexivity.
  - intros r data Hr Hdata.
    destruct (database_cases env) as [Hdb | (database & Hdb & Hname)].
    + rewrite (db_main_no_database _ _ _ _ Hdb) in Hr. injection Hr as <-.
      discriminate.
    + rewrite (db_main_eq _ _ _ _ database Hdb Hname) in Hr. cbv zeta in Hr.
      injection Hr as <-. cbn [Db.saved] in Hdata.
      unfold Db.save in Hdata. rewrite summarize_spec in Hdata.
      cbv beta iota delta [ok] in Hdata.
      match type of Hdata with context [write_file ?d] =>
        destruct (write_file d) end; [discriminate |].
      cbn [fst] in Hdata. injection Hdata as <-.
      cbn [Db.report_db_type Db.report_host Db.report_port Db.report_database
           Db.report_timeout].
      repeat split. cbn [connection_arguments Db.conn_database]. now rewrite Hdb.
Qed.

End DbRun.

(** X11 on a driver that refuses everyone and one that refuses the MySQL
    port: without a port parameter the run is the same. *)
Lemma db_connects_with_parameters_witness :
  Db.main sample_clock (fun _ => None) refuse (fun _ => None) (fun _ => None)
    shop_env
  = Db.main sample_clock (fun _ => None) refuse_mysql_port (fun _ => None)
      (fun _ => None) shop_env.
Proof.
  apply (db_connects_with_parameters sample_clock (fun _ => None) refuse
           refuse_mysql_port (fun _ => None) (fun _ => None) shop_env).
  intros driver. reflexivity.
Defined.

(** A connectivity check that succeeds has found a second row under the
    version statement, and a 1 at its head. *)
Lemma connectivity_success clock srv db_type t :
  Db.success (fst (Db.test_basic_connectivity clock srv db_type t)) = true ->
  exists q first second rest v,
    version_query db_type = Some q
    /\ Db.run_query srv q = inr (first :: second :: rest)
    /\ nth_error second 0 = Some v
    /\ Db.equals_one v = true.
Proof.
  unfold Db.test_basic_connectivity, Db.attempt, version_query.
  unfold bind, Db.now, Db.open_cursor, Db.close_cursor, Db.execute, Db.fetchone,
    lift, Db.set_detail, Db.set_response_time, Db.set_success, Db.on_result,
    modify, ret, Db.version_of.
  cbn [Db.result Db.cursor Db.statement Db.ticks].
  destruct (Db.cursor_fault srv); [discriminate |].
  destruct (String.eqb (lower db_type) "mysql");
    [| destruct (String.eqb (lower db_type) "postgresql");
       [| destruct (String.eqb (lower db_type) "sqlite")]];
    intros Hs; cbn in Hs;
    try (destruct (Db.run_query srv Db.SelectOne); cbn in Hs; [discriminate |];
         match type of Hs with
         | context [Db.run_query srv ?q] =>
             destruct (Db.run_query srv q) as [e | rows] eqn:E; cbn in Hs;
             [discriminate |]; exists q
         end;
         destruct rows as [| first [| second rest]];
         [| | exists first, second, rest;
              destruct second as [| v second']; [| exists v]]);
    repeat (cbn in Hs; try discriminate;
            match type of Hs with
            | context [Db.fetch_fault srv ?q] => destruct (Db.fetch_fault srv q)
            | context [Db.close_fault srv] => destruct (Db.close_fault srv)
            | context [match ?row with [] => _ | _ :: _ => _ end] =>
                is_var row; destruct row
            end);
    repeat split; assumption.
Qed.

(** X12. The process exits with 0 only when the connection was opened and
    the version statement returned at least two rows, the second with a 1
    at its head: the row the connectivity check compares with 1 is fetched
    after the version statement was executed. *)
Theorem db_exit_zero_needs_second_version_row
    clock getsize connect close write_file env :
  exists r,
    Db.main clock getsize connect close write_file env = ok r
    /\ (Db.exit_code r = 0%Z ->
        exists srv q first second rest v,
          Db.create_database_connection connect (db_type_parameter env)
            (connection_arguments env) = inr srv
          /\ version_query (db_type_parameter env) = Some q
          /\ Db.run_query srv q = inr (first :: second :: rest)
          /\ nth_error second 0 = Some v
          /\ Db.equals_one v = true).
Proof.
  destruct (db_main_spec clock getsize connect close write_file env)
    as (r & Hr & Hnone & Hsome).
  exists r. split; [exact Hr |]. intros Hzero.
  destruct (Db.param_truthy (text_parameter env "database" PNone)).
  - destruct (Hsome eq_refl) as (database & out & _ & _ & Hcode & _).
    cbv zeta in Hcode.
    pose proof (run_checks_spec clock getsize connect close (db_type_parameter env)
                  database (connection_arguments env) (Db.mkLoop 0 [] true out))
      as H.
    destruct (Db.create_database_connection connect _ _) as [e | srv].
    + rewrite H in Hcode. cbn in Hcode. congruence.
    + destruct H as (r2 & r3 & r4 & _ & _ & Hall). cbv zeta in Hall.
      rewrite Hall in Hcode. cbn [Db.loop_overall Db.loop_ticks andb forallb] in Hcode.
      destruct (Db.success (fst (Db.test_basic_connectivity clock srv
                                   (db_type_parameter env) 0))) eqn:Hconn.
      * destruct (connectivity_success clock srv (db_type_parameter env) 0%nat Hconn)
          as (q & first & second & rest & v & H1 & H2 & H3 & H4).
        exists srv, q, first, second, rest, v. repeat split; assumption.
      * cbn in Hcode. congruence.
  - destruct (Hnone eq_refl) as (Hcode & _). congruence.
Qed.

(* ===================================================================== *)
(** ** Further properties: the outcome of a check *)
(* ===================================================================== *)

Lemma concludes_bind {A B} (I Q : Db.Check -> Prop)
    (c : M Db.State A) (k : A -> M Db.State B) :
  Keeps (OnResult I) c -> (forall a, Concludes I Q (k a)) ->
  Concludes I Q (bind c k).
Proof.
  intros Hc Hk s Hs. unfold bind.
  specialize (Hc s Hs). unfold OnResult in Hc.
  destruct (c s) as [[e | a] s']; cbn [fst snd] in *.
  - exact Hc.
  - apply Hk, Hc.
Qed.

(** A step that concludes with [R], followed by steps that never raise. *)
Lemma concludes_then {A B} (I R Q : Db.Check -> Prop)
    (c : M Db.State A) (k : A -> M Db.State B) :
  Concludes I R c ->
  (forall a s, R (Db.result s) ->
     exists b, fst (k a s) = inr b /\ Q (Db.result (snd (k a s)))) ->
  Concludes I Q (bind c k).
Proof.
  intros Hc Hk s Hs. unfold bind. specialize (Hc s Hs).
  destruct (c s) as [[e | a] s']; cbn [fst snd] in *.
  - exact Hc.
  - destruct (Hk a s' Hc) as (b & Hb & HQ). now rewrite Hb.
Qed.

Lemma concludes_last {A} (I Q : Db.Check -> Prop) (c : M Db.State A) :
  (forall s, I (Db.result s) ->
     exists b, fst (c s) = inr b /\ Q (Db.result (snd (c s)))) ->
  Concludes I Q c.
Proof. intros Hc s Hs. destruct (Hc s Hs) as (b & Hb & HQ). now rewrite Hb. Qed.

Lemma concludes_if {A} (I Q : Db.Check -> Prop) (b : bool) (c1 c2 : M Db.State A) :
  Concludes I Q c1 -> Concludes I Q c2 -> Concludes I Q (if b then c1 else c2).
Proof. now destruct b. Qed.

(** What [attempt] returns for a body that concludes. *)
Lemma attempt_concludes (I Q : Db.Check -> Prop) name (body : M Db.State unit) t :
  Concludes I Q body -> I (Db.initial_check name) ->
  Q (fst (Db.attempt name body t))
  \/ exists m r, I r /\ fst (Db.attempt name body t) = Db.set_error m r.
Proof.
  intros Hb Hi. unfold Db.attempt.
  specialize (Hb (Db.mkState (Db.initial_check name) [] None t) Hi).
  destruct (body _) as [[e | u] s]; cbn [fst snd] in *.
  - right. eauto.
  - now left.
Qed.

Ltac check_keeps :=
  unfold Db.set_detail, Db.set_details, Db.set_response_time, Db.set_success;
  repeat first
    [ apply keeps_now
    | apply keeps_open_cursor
    | apply keeps_close_cursor
    | apply keeps_execute
    | apply keeps_fetchone
    | apply keeps_fetchall
    | apply keeps_fetch_first
    | apply keeps_round_trips
    | apply keeps_table_entries
    | apply keeps_on_result;
      solve [let r := fresh "r" in
             let Hr := fresh "Hr" in
             intros r Hr; unfold unfailed, pending in *; cbn; intuition auto]
    | keeps_step ].

Ltac concludes_prefix :=
  cbv zeta;
  repeat (apply concludes_bind; [solve [check_keeps] | intro]).

Ltac concludes_tail :=
  apply concludes_last;
  let s := fresh "s" in
  let Hs := fresh "Hs" in
  intros s Hs; eexists; split; [reflexivity |];
  unfold unfailed, pending in *; cbn; intuition auto.

Section Outcomes.

Variable clock : nat -> Q.
Variable getsize : string -> option Z.
Variable srv : Db.Server.

Lemma all_or_nothing_of_attempt name (body : M Db.State unit) t :
  Concludes pending (fun r => Db.success r = true /\ Db.error r = None) body ->
  all_or_nothing (fst (Db.attempt name body t)).
Proof.
  intros Hb.
  destruct (attempt_concludes pending _ name body t Hb) as [H | (m & r & Hr & ->)].
  - repeat split.
  - now left.
  - right. destruct Hr as (Hs & He & Hd). cbn. repeat split; auto. discriminate.
Qed.

(** A check whose steps leave success and error alone until the last one
    has an error exactly when it failed. *)
Lemma error_or_success_of_attempt name (body : M Db.State unit) t :
  Concludes unfailed (fun r => Db.success r = true /\ Db.error r = None) body ->
  Db.error (fst (Db.attempt name body t)) = None
  <-> Db.success (fst (Db.attempt name body t)) = true.
Proof.
  intros Hb.
  destruct (attempt_concludes unfailed _ name body t Hb)
    as [[Hs He] | (m & r & [Hs He] & ->)].
  - split; reflexivity.
  - rewrite Hs, He. split; reflexivity.
  - cbn. rewrite Hs. split; discriminate.
Qed.

Lemma statistics_error_or_success db_type database t :
  let r := fst (Db.get_database_statistics clock getsize srv db_type database t) in
  Db.error r = None <-> Db.success r = true.
Proof.
  apply error_or_success_of_attempt. unfold unfailed.
  concludes_prefix. concludes_tail.
Qed.

Lemma performance_all_or_nothing db_type t :
  all_or_nothing (fst (Db.test_query_performance clock srv db_type t)).
Proof.
  apply all_or_nothing_of_attempt. unfold pending.
  concludes_prefix. concludes_tail.
Qed.

Lemma table_health_all_or_nothing db_type database t :
  all_or_nothing (fst (Db.get_table_health clock srv db_type database t)).
Proof.
  apply all_or_nothing_of_attempt. unfold pending.
  concludes_prefix. concludes_tail.
Qed.

(** With a cursor that closes, the statistics check is all or nothing
    too: nothing raises once the details are assigned. *)
Lemma statistics_all_or_nothing db_type database t :
  Db.close_fault srv = None ->
  all_or_nothing (fst (Db.get_database_statistics clock getsize srv db_type
                         database t)).
Proof.
  intros Hclose.
  apply all_or_nothing_of_attempt. unfold pending.
  apply concludes_bind; [check_keeps | intros start_time].
  apply concludes_bind; [check_keeps | intros _].
  apply concludes_then with (R := unfailed).
  - repeat apply concludes_if; concludes_prefix; concludes_tail.
  - intros _ s [Hs He]. unfold bind, Db.close_cursor. rewrite Hclose.
    eexists. split; [reflexivity |]. cbn. auto.
Qed.

(** When the cursor cannot be closed, a statistics check that would have
    succeeded fails with the details it had assigned. *)
Lemma statistics_before_close e db_type database t :
  Db.success (fst (Db.get_database_statistics clock getsize srv db_type
                     database t)) = true ->
  fst (Db.get_database_statistics clock getsize (closing_fails e srv) db_type
         database t)
  = Db.mkCheck "database_statistics" false None (Some (exn_str e))
      (Db.details (fst (Db.get_database_statistics clock getsize srv db_type
                          database t))).
Proof.
  unfold Db.get_database_statistics.
  change (Db.execute (closing_fails e srv)) with (Db.execute srv).
  change (Db.fetchone (closing_fails e srv)) with (Db.fetchone srv).
  change (Db.fetch_first (closing_fails e srv)) with (Db.fetch_first srv).
  match goal with
  | |- context [bind ?B (fun _ => bind (Db.close_cursor srv) _)] => set (body := B)
  end.
  assert (Hkeep : Keeps (OnResult (fun r => Db.test r = "database_statistics"
                                            /\ Db.success r = false
                                            /\ Db.response_time_ms r = None
                                            /\ Db.error r = None)) body)
    by (unfold body; check_keeps).
  clearbody body.
  unfold Db.attempt, bind, Db.now, Db.open_cursor, Db.close_cursor, closing_fails.
  cbn [Db.cursor_fault Db.close_fault Db.result Db.cursor Db.statement Db.ticks ok].
  destruct (Db.cursor_fault srv); [discriminate |].
  match goal with
  | |- context [body ?s0] =>
      specialize (Hkeep s0 (conj eq_refl (conj eq_refl (conj eq_refl eq_refl))));
      unfold OnResult in Hkeep; destruct (body s0) as [[e1 | []] s2]
  end; cbn in Hkeep |- *; destruct Hkeep as (Htest & Hsuccess & Htime & Herror).
  - rewrite Hsuccess. discriminate.
  - destruct (Db.close_fault srv); cbn; [rewrite Hsuccess; discriminate |].
    intros _. unfold Db.set_error. now rewrite Htest, Hsuccess, Htime.
Qed.

(** X13. The statistics, the performance and the table-health check have
    an error exactly when they fail.  The performance and the
    table-health check are all or nothing: they succeed without an error,
    or fail with an error and without a single detail.  The statistics
    check is all or nothing when its cursor closes; it closes the cursor
    after it has assigned the details, so when the cursor cannot be
    closed, a check that would have succeeded fails with the error of the
    closing and with the same details. *)
Theorem checks_all_or_nothing db_type database t :
  let statistics :=
    fst (Db.get_database_statistics clock getsize srv db_type database t) in
  let performance := fst (Db.test_query_performance clock srv db_type t) in
  let tables := fst (Db.get_table_health clock srv db_type database t) in
  Forall (fun r => Db.error r = None <-> Db.success r = true)
    [statistics; performance; tables]
  /\ all_or_nothing performance
  /\ all_or_nothing tables
  /\ (Db.close_fault srv = None -> all_or_nothing statistics)
  /\ (forall e,
        Db.success statistics = true ->
        fst (Db.get_database_statistics clock getsize (closing_fails e srv)
               db_type database t)
        = Db.mkCheck "database_statistics" false None (Some (exn_str e))
            (Db.details statistics)).
Proof.
  cbv zeta.
  assert (H : forall r, all_or_nothing r ->
                (Db.error r = None <-> Db.success r = true)).
  { intros r [[Hs He] | (Hs & He & _)]; split; intros; congruence. }
  split; [| split; [| split; [| split]]].
  - constructor; [apply statistics_error_or_success |].
    constructor; [apply H, performance_all_or_nothing |].
    constructor; [apply H, table_health_all_or_nothing | constructor].
  - apply performance_all_or_nothing.
  - apply table_health_all_or_nothing.
  - apply statistics_all_or_nothing.
  - intros e. apply statistics_before_close.
Qed.

End Outcomes.

(** The connectivity check ends without an error or without success. *)
Lemma connectivity_outcome clock srv db_type t :
  Db.error (fst (Db.test_basic_connectivity clock srv db_type t)) = None
  \/ Db.success (fst (Db.test_basic_connectivity clock srv db_type t)) = false.
Proof.
  unfold Db.test_basic_connectivity.
  match goal with
  | |- context [Db.attempt ?name ?body t] =>
      destruct (attempt_concludes unfailed (fun r => Db.error r = None)
                  name body t) as [H | (m & r & [Hs _] & Hr)]
  end.
  - unfold unfailed. concludes_prefix. concludes_tail.
  - split; reflexivity.
  - now left.
  - right. rewrite Hr. exact Hs.
Qed.

(** A connectivity check without an error has opened and closed its
    cursor, executed both statements, fetched two rows of the version
    statement, and compared the head of the second with 1. *)
Lemma connectivity_without_error clock srv db_type t :
  Db.error (fst (Db.test_basic_connectivity clock srv db_type t)) = None ->
  exists q first second rest v version,
    version_query db_type = Some q
    /\ Db.cursor_fault srv = None
    /\ (exists rows, Db.run_query srv Db.SelectOne = inr rows)
    /\ Db.run_query srv q = inr (first :: second :: rest)
    /\ Db.fetch_fault srv (Some q) = None
    /\ Db.close_fault srv = None
    /\ nth_error second 0 = Some v
    /\ fst (Db.test_basic_connectivity clock srv db_type t)
       = Db.mkCheck "basic_connectivity" (Db.equals_one v)
           (Some (Db.elapsed_ms (clock t) (clock (S t)))) None
           [("version", version)].
Proof.
  unfold Db.test_basic_connectivity, Db.attempt, version_query.
  unfold bind, Db.now, Db.open_cursor, Db.close_cursor, Db.execute, Db.fetchone,
    lift, Db.set_detail, Db.set_response_time, Db.set_success, Db.on_result,
    modify, ret, Db.version_of.
  cbn [Db.result Db.cursor Db.statement Db.ticks].
  destruct (Db.cursor_fault srv); [discriminate |].
  destruct (String.eqb (lower db_type) "mysql");
    [| destruct (String.eqb (lower db_type) "postgresql");
       [| destruct (String.eqb (lower db_type) "sqlite")]];
    intros He; cbn in He |- *;
    try (destruct (Db.run_query srv Db.SelectOne) as [e0 | rows0] eqn:E0;
         cbn in He |- *; [discriminate |];
         match type of He with
         | context [Db.run_query srv ?q] =>
             destruct (Db.run_query srv q) as [e | rows] eqn:E; cbn in He |- *;
             [discriminate |]
         end);
    repeat (cbn in He |- *; cbv delta [ok] in He |- *; cbn in He |- *;
            try discriminate;
            match type of He with
            | context [Db.fetch_fault srv ?q] =>
                destruct (Db.fetch_fault srv q) eqn:?
            | context [Db.close_fault srv] => destruct (Db.close_fault srv)
            | context [match ?row with [] => _ | _ :: _ => _ end] =>
                is_var row; destruct row
            end);
    do 6 eexists;
    (split; [reflexivity |]); (split; [reflexivity |]);
    (split; [eexists; reflexivity |]); (split; [exact E |]);
    (split; [eassumption |]); (split; [reflexivity |]);
    split; reflexivity.
Qed.

(** A connectivity check that meets no failure and finds a second row
    under the version statement ends without an error. *)
Lemma connectivity_two_rows clock srv db_type t q rows first second rest v :
  version_query db_type = Some q ->
  Db.cursor_fault srv = None ->
  Db.run_query srv Db.SelectOne = inr rows ->
  Db.run_query srv q = inr (first :: second :: rest) ->
  Db.fetch_fault srv (Some q) = None ->
  Db.close_fault srv = None ->
  nth_error second 0 = Some v ->
  exists version,
    fst (Db.test_basic_connectivity clock srv db_type t)
    = Db.mkCheck "basic_connectivity" (Db.equals_one v)
        (Some (Db.elapsed_ms (clock t) (clock (S t)))) None
        [("version", version)].
Proof.
  unfold Db.test_basic_connectivity, Db.attempt, version_query.
  unfold bind, Db.now, Db.open_cursor, Db.close_cursor, Db.execute, Db.fetchone,
    lift, Db.set_detail, Db.set_response_time, Db.set_success, Db.on_result,
    modify, ret, Db.version_of.
  cbn [Db.result Db.cursor Db.statement Db.ticks].
  intros Hq Hcursor Hone Htwo Hfetch Hclose Hv. rewrite Hcursor.
  destruct second as [| v' second']; [discriminate |].
  cbn in Hv. injection Hv as ->.
  destruct (String.eqb (lower db_type) "mysql");
    [| destruct (String.eqb (lower db_type) "postgresql");
       [| destruct (String.eqb (lower db_type) "sqlite")]];
    try discriminate; injection Hq as <-;
    cbn; rewrite Hone; cbn; rewrite Htwo; cbn; rewrite Hfetch; cbn;
    destruct first; cbn; rewrite ?Hfetch, Hclose; cbn; eexists; reflexivity.
Qed.

(** X14. The connectivity check is not all or nothing.  When it succeeds
    it has no error, but it can fail without one.  It does so exactly
    when no call raises, the version statement returns at least two rows,
    and the head of the second is not 1: that is the row it compares with
    1.  It then has a response time and the version among its details,
    and the line printed for it has no reason to show.  When the version
    statement returns at most one row, the check ends with an error. *)
Theorem connectivity_can_fail_silently clock srv db_type t :
  let r := fst (Db.test_basic_connectivity clock srv db_type t) in
  (Db.success r = true -> Db.error r = None)
  /\ (silent r <->
      exists q first second rest v,
        version_query db_type = Some q
        /\ Db.cursor_fault srv = None
        /\ (exists rows, Db.run_query srv Db.SelectOne = inr rows)
        /\ Db.run_query srv q = inr (first :: second :: rest)
        /\ Db.fetch_fault srv (Some q) = None
        /\ Db.close_fault srv = None
        /\ nth_error second 0 = Some v
        /\ Db.equals_one v = false)
  /\ (silent r ->
      Db.response_time_ms r = Some (Db.elapsed_ms (clock t) (clock (S t)))
      /\ (exists version, Db.details r = [("version", version)])
      /\ Db.report_check r = ok [Db.LCheckFailed None])
  /\ ((forall q rows,
         version_query db_type = Some q ->
         Db.run_query srv q = inr rows ->
         (List.length rows <= 1)%nat) ->
      Db.error r <> None).
Proof.
  cbv zeta. split; [| split; [| split]].
  - intros Hs.
    destruct (connectivity_outcome clock srv db_type t) as [H | H];
      [exact H | congruence].
  - split.
    + intros [Hs He].
      destruct (connectivity_without_error clock srv db_type t He)
        as (q & first & second & rest & v & version
            & Hq & Hcursor & Hone & Htwo & Hfetch & Hclose & Hv & Hr).
      exists q, first, second, rest, v. rewrite Hr in Hs. cbn in Hs.
      repeat split; assumption.
    + intros (q & first & second & rest & v
              & Hq & Hcursor & [rows Hone] & Htwo & Hfetch & Hclose & Hv & Hnot).
      destruct (connectivity_two_rows clock srv db_type t q rows first second
                  rest v Hq Hcursor Hone Htwo Hfetch Hclose Hv) as [version Hr].
      rewrite Hr. split; [exact Hnot | reflexivity].
  - intros [Hs He].
    destruct (connectivity_without_error clock srv db_type t He)
      as (q & first & second & rest & v & version & _ & _ & _ & _ & _ & _ & _ & Hr).
    rewrite Hr in Hs |- *. cbn in Hs. unfold Db.report_check. cbn. rewrite Hs.
    split; [reflexivity |]. split; [eexists |]; reflexivity.
  - intros Hrows He.
    destruct (connectivity_without_error clock srv db_type t He)
      as (q & first & second & rest & v & version & Hq & _ & _ & Htwo & _).
    specialize (Hrows q _ Hq Htwo). cbn in Hrows. lia.
Qed.

(** X14 on a server whose version statement returns two rows, the second
    with a 2 at its head. *)
Lemma connectivity_can_fail_silently_witness :
  fst (Db.test_basic_connectivity sample_clock two_version_rows "mysql" 0)
  = Db.mkCheck "basic_connectivity" false (Some (inject_Z 1000)) None
      [("version", Db.DValue (Db.VStr "8.0.32"))]
  /\ Db.report_check
       (fst (Db.test_basic_connectivity sample_clock two_version_rows "mysql" 0))
     = ok [Db.LCheckFailed None].
Proof.
  assert (Hsilent : silent (fst (Db.test_basic_connectivity sample_clock
                                   two_version_rows "mysql" 0))).
  { apply (proj1 (proj2 (connectivity_can_fail_silently sample_clock
                           two_version_rows "mysql" 0%nat))).
    exists Db.VersionMySQL, [Db.VStr "8.0.32"], [Db.VInt 2], [], (Db.VInt 2).
    repeat split; try reflexivity. eexists. reflexivity. }
  split; [vm_compute; reflexivity |].
  exact (proj2 (proj2 (proj1 (proj2 (proj2 (connectivity_can_fail_silently
                                              sample_clock two_version_rows
                                              "mysql" 0%nat))) Hsilent))).
Defined.

(** Building the dictionaries raises when the count of a listed table
    fails. *)
Lemma table_entries_fail srv db_type names name e :
  String.eqb (lower db_type) "mysql" = false ->
  String.eqb (lower db_type) "postgresql" = false ->
  In name names ->
  Db.fault srv (Db.CountRows (Db.VStr name)) = Some e ->
  forall s, exists e',
    fst (Db.table_entries srv db_type (map Db.sqlite_row names) s) = inl e'.
Proof.
  intros Hm Hp Hin Hf. induction names as [| n names IH]; [contradiction |].
  intros s. cbn [map Db.table_entries]. unfold bind at 1.
  destruct (Db.table_entry srv db_type (Db.sqlite_row n) s) as [[e1 | en] s1] eqn:E1;
    [eexists; reflexivity |].
  destruct Hin as [-> | Hin].
  - exfalso. unfold Db.table_entry in E1. rewrite Hm, Hp in E1.
    unfold bind, lift, Db.execute, Db.run_query in E1. cbn in E1.
    rewrite Hf in E1. discriminate.
  - unfold bind at 1. destruct (IH Hin s1) as [e' He'].
    destruct (Db.table_entries srv db_type _ s1) as [[e2 | es] s2];
      cbn [fst] in He'; [eexists; reflexivity | discriminate].
Qed.

(** X15. For SQLite the table-health check counts the rows of every table
    it lists; when the count of one of them fails, the whole check fails,
    with an error and without a table in its details. *)
Theorem sqlite_table_health_needs_every_count clock srv db_type database t name e
    (Hmysql : String.eqb (lower db_type) "mysql" = false)
    (Hpostgres : String.eqb (lower db_type) "postgresql" = false)
    (Hin : In name (Db.sqlite_tables srv))
    (Hfault : Db.fault srv (Db.CountRows (Db.VStr name)) = Some e) :
  let r := fst (Db.get_table_health clock srv db_type database t) in
  Db.success r = false /\ Db.error r <> None /\ Db.details r = []
  /\ Db.response_time_ms r = None.
Proof.
  cbv zeta. rewrite get_table_health_steps. cbv zeta.
  unfold tables_statement. rewrite Hmysql, Hpostgres.
  destruct (Db.cursor_fault srv) as [e0 |]; [cbn; repeat split; discriminate |].
  unfold Db.run_query. destruct (Db.fault srv Db.TablesSQLite) as [e0 |].
  - cbn. repeat split. discriminate.
  - cbv beta iota delta [ok].
    destruct (Db.fetch_fault srv _) as [e0 |]; [cbn; repeat split; discriminate |].
    assert (Hin' : In name (Db.sqlite_selected (Db.sqlite_tables srv))).
    { eapply Permutation_in; [apply order_by_perm | exact Hin]. }
    destruct (table_entries_fail srv db_type _ name e Hmysql Hpostgres Hin' Hfault
                (tables_fetched db_type database t))
      as [e' He'].
    pose proof (table_entries_result srv db_type
                  (map Db.sqlite_row (Db.sqlite_selected (Db.sqlite_tables srv)))
                  (tables_fetched db_type database t)) as Hres.
    destruct (Db.table_entries srv db_type _ _) as [[e2 | es] s2];
      cbn [fst snd] in *; [| discriminate].
    cbn [Db.result tables_fetched] in Hres. rewrite Hres. cbn.
    repeat split. discriminate.
Qed.

(** X15 on the database with a table that cannot be read. *)
Lemma sqlite_table_health_needs_every_count_witness :
  Db.success (fst (Db.get_table_health sample_clock locked_table "sqlite"
                     "/data/app.db" 0)) = false
  /\ Db.details (fst (Db.get_table_health sample_clock locked_table "sqlite"
                        "/data/app.db" 0)) = [].
Proof.
  destruct (sqlite_table_health_needs_every_count sample_clock locked_table
              "sqlite" "/data/app.db" 0%nat "orders"
              (OtherError "database table is locked")
              eq_refl eq_refl (or_intror (or_introl eq_refl)) eq_refl)
    as (Hs & _ & Hd & _).
  split; [exact Hs | exact Hd].
Defined.

(** X16. A database type the script does not know ends the run at the
    connection: no driver is called, the only result is named
    [connection], has [success] false and the error
    [Unsupported database type: ] followed by the type as it was given,
    and the process exits with 1. *)
Theorem unsupported_type_run clock getsize connect close write_file env
    (Htype : supported (db_type_parameter env) = false)
    (Hdatabase : Db.param_truthy (text_parameter env "database" PNone) = true) :
  exists r,
    Db.main clock getsize connect close write_file env = ok r
    /\ Db.all_results r
       = [Db.mkCheck "connection" false None
            (Some ("Unsupported database type: " ++ db_type_parameter env)) []]
    /\ Db.exit_code r = 1%Z
    /\ forall connect',
         Db.main clock getsize connect' close write_file env = ok r.
Proof.
  destruct (database_cases env) as [Hdb | (database & Hdb & Hname)];
    [congruence |].
  assert (Hconn : forall c,
             Db.create_database_connection c (db_type_parameter env)
               (connection_arguments env)
             = throw (OtherError ("Unsupported database type: "
                                  ++ db_type_parameter env))).
  { intros c. unfold Db.create_database_connection.
    unfold supported in Htype. cbn [existsb] in Htype.
    destruct (String.eqb (lower (db_type_parameter env)) "mysql"); [discriminate |].
    destruct (String.eqb (lower (db_type_parameter env)) "postgresql");
      [discriminate |].
    destruct (String.eqb (lower (db_type_parameter env)) "sqlite");
      [discriminate | reflexivity]. }
  assert (Hrun : forall c st,
             Db.run_checks clock getsize c close (db_type_parameter env) database
               (connection_arguments env) st
             = Db.mkLoop (Db.loop_ticks st)
                 (Db.loop_results st
                  ++ [Db.error_check "connection"
                        ("Unsupported database type: " ++ db_type_parameter env)])%list
                 false
                 (Db.loop_output st
                  ++ [Db.LEstablishing;
                      Db.LConnectionFailed
                        ("Unsupported database type: " ++ db_type_parameter env)])%list).
  { intros c st.
    pose proof (run_checks_spec clock getsize c close (db_type_parameter env)
                  database (connection_arguments env) st) as H.
    rewrite Hconn in H. exact H. }
  eexists. split; [apply (db_main_eq clock getsize connect close write_file env
                            database Hdb Hname) |].
  cbv zeta. rewrite Hrun. cbn [Db.all_results Db.exit_code Db.loop_results
                               Db.loop_overall app].
  split; [reflexivity |]. split; [reflexivity |].
  intros connect'.
  rewrite (db_main_eq clock getsize connect' close write_file env database Hdb Hname).
  cbv zeta. rewrite Hrun. reflexivity.
Qed.

(** X16 on a request for Oracle. *)
Lemma unsupported_type_run_witness :
  exists r,
    Db.main sample_clock (fun _ => None) refuse (fun _ => None) (fun _ => None)
      oracle_env = ok r
    /\ Db.all_results r
       = [Db.mkCheck "connection" false None
            (Some "Unsupported database type: Oracle") []]
    /\ Db.exit_code r = 1%Z.
Proof.
  destruct (unsupported_type_run sample_clock (fun _ => None) refuse
              (fun _ => None) (fun _ => None) oracle_env eq_refl eq_refl)
    as (r & Hr & Hres & Hcode & _).
  exists r. split; [exact Hr |]. split; [exact Hres | exact Hcode].
Defined.

(* ===================================================================== *)
(** ** Further properties: response times *)
(* ===================================================================== *)

(** The steps between two readings of the clock take none. *)
Lemma round_trips_frame srv n q s :
  Db.result (snd (Db.round_trips srv n q s)) = Db.result s
  /\ Db.ticks (snd (Db.round_trips srv n q s)) = Db.ticks s.
Proof.
  revert s. induction n as [| n IH]; intros s; [split; reflexivity |].
  cbn [Db.round_trips]. unfold bind, Db.execute, Db.fetchone.
  destruct (Db.run_query srv q) as [e | rows]; [split; reflexivity |].
  cbn [Db.result Db.cursor Db.statement Db.ticks].
  destruct (Db.fetch_fault srv _) as [e |]; [split; reflexivity |].
  destruct rows as [| row rest]; cbn [Db.cursor fst snd ok];
    rewrite (proj1 (IH _)), (proj2 (IH _)); split; reflexivity.
Qed.

Lemma table_entry_ticks srv db_type row s :
  Db.ticks (snd (Db.table_entry srv db_type row s)) = Db.ticks s.
Proof.
  unfold Db.table_entry, Db.fetch_first, bind, lift, Db.execute, Db.fetchone, ret.
  destruct (String.eqb (lower db_type) "mysql"); [reflexivity |].
  destruct (String.eqb (lower db_type) "postgresql"); [reflexivity |].
  destruct (Db.subscript (Some row) 0) as [e | name]; [reflexivity |].
  destruct (Db.run_query srv _) as [e | rows]; [reflexivity |].
  cbn [Db.result Db.cursor Db.statement Db.ticks].
  destruct (Db.fetch_fault srv _) as [e |]; [reflexivity |].
  destruct rows as [| r rest]; cbn;
    repeat match goal with
           | |- context [match ?x with _ => _ end] => destruct x
           end; reflexivity.
Qed.

Lemma table_entries_ticks srv db_type rows s :
  Db.ticks (snd (Db.table_entries srv db_type rows s)) = Db.ticks s.
Proof.
  revert s. induction rows as [| row rows IH]; intros s; [reflexivity |].
  cbn [Db.table_entries]. unfold bind, ret.
  pose proof (table_entry_ticks srv db_type row s) as H1.
  destruct (Db.table_entry srv db_type row s) as [[e | en] s1]; cbn [snd] in *;
    [exact H1 |].
  specialize (IH s1).
  destruct (Db.table_entries srv db_type rows s1) as [[e | es] s2]; cbn [snd] in *;
    congruence.
Qed.

Lemma elapsed_nonnegative (a b : Q) :
  Qle a b -> Qle (inject_Z 0) (Db.elapsed_ms a b).
Proof.
  intros H. unfold Db.elapsed_ms.
  apply Qmult_le_0_compat; [| discriminate].
  now apply -> Qle_minus_iff.
Qed.

Ltac open_check :=
  unfold Db.fetch_first;
  unfold Db.attempt, bind, Db.now, Db.open_cursor, Db.close_cursor, Db.execute,
    Db.fetchone, Db.fetchall,
    lift, Db.set_detail, Db.set_details, Db.set_response_time,
    Db.set_success, Db.on_result, modify, ret, Db.version_of.

Ltac split_cases :=
  repeat (cbn -[Db.elapsed_ms Db.round_even2 Qdiv Qplus inject_Z];
          match goal with
          | |- context [match ?x with _ => _ end] =>
              lazymatch x with
              | context [match _ with _ => _ end] => fail
              | _ => destruct x
              end
          end).

Section ResponseTimes.

Variable clock : nat -> Q.
Variable getsize : string -> option Z.
Variable srv : Db.Server.

Local Abbreviation first_span t := (Db.elapsed_ms (clock t) (clock (S t))).

Lemma connectivity_time db_type t :
  let r := fst (Db.test_basic_connectivity clock srv db_type t) in
  Db.response_time_ms r = None \/ Db.response_time_ms r = Some (first_span t).
Proof.
  cbv zeta. unfold Db.test_basic_connectivity. open_check. split_cases;
    cbn; (now left) || (now right).
Qed.

Lemma statistics_time db_type database t :
  let r := fst (Db.get_database_statistics clock getsize srv db_type database t) in
  Db.response_time_ms r = None \/ Db.response_time_ms r = Some (first_span t).
Proof.
  cbv zeta. unfold Db.get_database_statistics. open_check. split_cases;
    cbn; (now left) || (now right).
Qed.

Lemma table_health_time db_type database t :
  let r := fst (Db.get_table_health clock srv db_type database t) in
  Db.response_time_ms r = None \/ Db.response_time_ms r = Some (first_span t).
Proof.
  cbv zeta. rewrite get_table_health_steps. cbv zeta.
  destruct (Db.cursor_fault srv) as [e |]; [now left |].
  destruct (Db.run_query srv _) as [e | rows]; [now left |].
  destruct (Db.fetch_fault srv _) as [e |]; [now left |].
  pose proof (table_entries_result srv db_type rows
                (tables_fetched db_type database t)) as Hres.
  pose proof (table_entries_ticks srv db_type rows
                (tables_fetched db_type database t)) as Hticks.
  destruct (Db.table_entries srv db_type rows _) as [[e | es] s];
    cbn [fst snd Db.result Db.ticks tables_fetched] in *.
  - left. now rewrite Hres.
  - destruct (Db.close_fault srv) as [e |]; cbn [fst Db.set_error Db.response_time_ms].
    + left. now rewrite Hres.
    + right. now rewrite Hticks.
Qed.

Lemma performance_time db_type t :
  let r := fst (Db.test_query_performance clock srv db_type t) in
  Db.response_time_ms r = None
  \/ Db.response_time_ms r
     = Some (Qplus (Qplus (inject_Z 0) (first_span t)) (first_span (S (S t)))).
Proof.
  cbv zeta.
  remember (Db.test_query_performance clock srv db_type t) as c eqn:Hc.
  unfold Db.test_query_performance, Db.attempt in Hc.
  unfold bind at 1 in Hc. unfold Db.open_cursor at 1 in Hc.
  cbn [Db.result Db.cursor Db.statement Db.ticks] in Hc.
  destruct (Db.cursor_fault srv) as [e |]; [subst c; now left |].
  unfold bind at 1 in Hc. unfold Db.now at 1 in Hc.
  cbn [ok Db.result Db.cursor Db.statement Db.ticks] in Hc.
  unfold bind at 1 in Hc. unfold Db.execute at 1 in Hc.
  match type of Hc with
  | context [Db.run_query srv ?q] =>
      destruct (Db.run_query srv q) as [e | rows]
  end; [subst c; now left |].
  unfold bind at 1 in Hc. unfold Db.fetchall at 1 in Hc.
  cbn [ok Db.result Db.cursor Db.statement Db.ticks] in Hc.
  destruct (Db.fetch_fault srv _) as [e |]; [subst c; now left |].
  cbv beta iota delta [ok] in Hc.
  unfold bind at 1 in Hc. unfold Db.now at 1 in Hc.
  cbn [ok Db.result Db.cursor Db.statement Db.ticks] in Hc.
  unfold bind at 1 in Hc. unfold Db.now at 1 in Hc.
  cbn [ok Db.result Db.cursor Db.statement Db.ticks] in Hc.
  unfold bind at 1 in Hc.
  match type of Hc with
  | context [Db.round_trips srv ?n ?q ?s] =>
      destruct (round_trips_frame srv n q s) as [Hres Hticks];
      destruct (Db.round_trips srv n q s) as [[e | u] s']
  end; cbn [fst snd Db.result Db.ticks] in Hres, Hticks.
  - subst c. left. cbn. now rewrite Hres.
  - unfold bind at 1 in Hc. unfold Db.now at 1 in Hc.
    cbn [ok Db.result Db.cursor Db.statement Db.ticks] in Hc.
    unfold bind at 1 in Hc. unfold Db.close_cursor at 1 in Hc.
    destruct (Db.close_fault srv) as [e |]; subst c.
    + left. cbn. now rewrite Hres.
    + right. cbn. now rewrite Hticks.
Qed.

(** X17. The response time of a check.  When the connectivity, the
    statistics or the table-health check has one, it is the span between
    the first two readings of the clock the check takes, in milliseconds;
    the one of the performance check is the sum of the span of its first
    statement and the span of its hundred round trips, without the time
    between them.  So under a clock that does not run backwards no
    response time is negative. *)
Theorem response_times db_type database t :
  let checks :=
    [fst (Db.test_basic_connectivity clock srv db_type t);
     fst (Db.get_database_statistics clock getsize srv db_type database t);
     fst (Db.get_table_health clock srv db_type database t)] in
  let performance := fst (Db.test_query_performance clock srv db_type t) in
  Forall (fun r => Db.response_time_ms r = None
                   \/ Db.response_time_ms r
                      = Some (Db.elapsed_ms (clock t) (clock (S t)))) checks
  /\ (Db.response_time_ms performance = None
      \/ Db.response_time_ms performance
         = Some (Qplus (Qplus (inject_Z 0) (Db.elapsed_ms (clock t) (clock (S t))))
                   (Db.elapsed_ms (clock (S (S t))) (clock (S (S (S t)))))))
  /\ ((forall n, Qle (clock n) (clock (S n))) ->
      Forall nonnegative_time (performance :: checks)).
Proof.
  cbv zeta.
  pose proof (connectivity_time db_type t) as H1.
  pose proof (statistics_time db_type database t) as H2.
  pose proof (table_health_time db_type database t) as H3.
  pose proof (performance_time db_type t) as H4.
  cbv zeta in H1, H2, H3, H4.
  split; [constructor; [exact H1 |];
          constructor; [exact H2 |];
          constructor; [exact H3 | constructor] |].
  split; [exact H4 |].
  intros Hmono.
  assert (Hspan : forall r n,
             Db.response_time_ms r = None
             \/ Db.response_time_ms r = Some (Db.elapsed_ms (clock n) (clock (S n))) ->
             nonnegative_time r).
  { intros r n [H | H]; unfold nonnegative_time; rewrite H; [exact I |].
    apply elapsed_nonnegative, Hmono. }
  constructor;
    [| constructor; [exact (Hspan _ _ H1) |];
       constructor; [exact (Hspan _ _ H2) |];
       constructor; [exact (Hspan _ _ H3) | constructor]].
  unfold nonnegative_time. destruct H4 as [-> | ->]; [exact I |].
  rewrite Qplus_0_l.
  setoid_replace (inject_Z 0) with (Qplus (inject_Z 0) (inject_Z 0)) by reflexivity.
  apply Qplus_le_compat; apply elapsed_nonnegative, Hmono.
Qed.

(** X18. The size of the database file has no part in the outcome of the
    statistics check: whether the file can be measured or not, success,
    error, response time, clock readings and the keys of the details are
    the same; for MySQL and PostgreSQL the file is not looked at. *)
Theorem statistics_without_file_size getsize' db_type database t :
  let c := Db.get_database_statistics clock getsize srv db_type database t in
  let c' := Db.get_database_statistics clock getsize' srv db_type database t in
  Db.success (fst c) = Db.success (fst c')
  /\ Db.error (fst c) = Db.error (fst c')
  /\ Db.response_time_ms (fst c) = Db.response_time_ms (fst c')
  /\ map fst (Db.details (fst c)) = map fst (Db.details (fst c'))
  /\ snd c = snd c'
  /\ (String.eqb (lower db_type) "sqlite" = false -> c = c').
Proof.
  cbv zeta. unfold Db.get_database_statistics. open_check.
  destruct (String.eqb (lower db_type) "mysql"); [repeat split |].
  destruct (String.eqb (lower db_type) "postgresql"); [repeat split |].
  destruct (String.eqb (lower db_type) "sqlite"); [| repeat split].
  destruct (Db.run_query srv Db.CountTablesSQLite) as [e | rows];
    [repeat split; discriminate |].
  cbn [Db.cursor Db.result Db.ticks].
  destruct rows as [| row rest]; split_cases; repeat split; discriminate.
Qed.

End ResponseTimes.

(** X17 on the clock of the samples, which gains a second per reading. *)
Lemma response_times_witness :
  Forall nonnegative_time
    [fst (Db.test_query_performance sample_clock healthy_mysql "mysql" 0);
     fst (Db.test_basic_connectivity sample_clock healthy_mysql "mysql" 0);
     fst (Db.get_database_statistics sample_clock (fun _ => None) healthy_mysql
            "mysql" "shop" 0);
     fst (Db.get_table_health sample_clock healthy_mysql "mysql" "shop" 0)].
Proof.
  apply (response_times sample_clock (fun _ => None) healthy_mysql "mysql" "shop"
           0%nat).
  intros n. unfold sample_clock. rewrite <- Zle_Qle. lia.
Defined.

(* ===================================================================== *)
(** ** Further properties: reading the statistics line *)
(* ===================================================================== *)

Lemma append_assoc_str (a b c : string) : (a ++ b) ++ c = a ++ b ++ c.
Proof. induction a as [| x a IH]; simpl; [reflexivity | now rewrite IH]. Qed.

Lemma has_char_app c a b : has_char c (a ++ b) = has_char c a || has_char c b.
Proof.
  induction a as [| x a IH]; simpl; [reflexivity |].
  now rewrite IH, orb_assoc.
Qed.

Lemma uint_chars (d : Decimal.uint) c :
  has_char c (NilEmpty.string_of_uint d) = true -> is_digit c = true.
Proof.
  induction d; simpl; try discriminate; intros H;
    apply orb_true_iff in H; destruct H as [H | H]; auto;
    apply Ascii.eqb_eq in H; subst c; reflexivity.
Qed.

(** The decimal text of an integer: an optional minus and a numeral that
    is not empty. *)
Lemma str_of_int_shape z :
  exists d,
    d <> Decimal.Nil
    /\ ((str_of_int z = NilEmpty.string_of_uint d /\ z = digits_value 0 d)
        \/ (str_of_int z = String "-" (NilEmpty.string_of_uint d)
            /\ z = (- digits_value 0 d)%Z)).
Proof.
  unfold str_of_int. destruct z as [| p | p]; simpl Z.to_int;
    unfold NilZero.string_of_int, NilZero.string_of_uint.
  - exists (Decimal.D0 Decimal.Nil). split; [discriminate |]. left. split; reflexivity.
  - exists (Pos.to_uint p). pose proof (Unsigned.to_uint_nonnil p) as Hnil.
    split; [exact Hnil |]. left.
    rewrite digits_value_zero, Unsigned.of_to.
    destruct (Pos.to_uint p); [now elim Hnil | ..]; split; reflexivity.
  - exists (Pos.to_uint p). pose proof (Unsigned.to_uint_nonnil p) as Hnil.
    split; [exact Hnil |]. right.
    rewrite digits_value_zero, Unsigned.of_to.
    destruct (Pos.to_uint p); [now elim Hnil | ..]; split; reflexivity.
Qed.

Lemma str_of_int_chars z c :
  has_char c (str_of_int z) = true -> numeral_char c = true.
Proof.
  unfold numeral_char.
  destruct (str_of_int_shape z) as (d & _ & [[-> _] | [-> _]]).
  - intros H. now rewrite (uint_chars d c H).
  - simpl. intros H. apply orb_true_iff in H. destruct H as [H | H].
    + rewrite H. apply orb_true_r.
    + now rewrite (uint_chars d c H).
Qed.

Lemma str_of_int_without c z : numeral_char c = false -> has_char c (str_of_int z) = false.
Proof.
  intros Hc. destruct (has_char c (str_of_int z)) eqn:E; [| reflexivity].
  apply str_of_int_chars in E. congruence.
Qed.

Lemma numeral_char_no_space c : numeral_char c = true -> is_space c = false.
Proof.
  destruct c as [[] [] [] [] [] [] [] []]; vm_compute; congruence.
Qed.

Lemma str_of_int_no_space z : no_space (str_of_int z).
Proof. intros c H. now apply numeral_char_no_space, (str_of_int_chars z). Qed.

Lemma str_of_int_nonempty z : nonempty (str_of_int z) = true.
Proof.
  destruct (str_of_int_shape z) as (d & Hd & [[-> _] | [-> _]]); [| reflexivity].
  destruct d; [now elim Hd | ..]; reflexivity.
Qed.

Lemma split_on_sep sep a y :
  has_char sep a = false ->
  split_on sep (a ++ String sep y) = a :: split_on sep y.
Proof.
  induction a as [| c a IH]; simpl; intros H.
  - now rewrite Ascii.eqb_refl.
  - apply orb_false_iff in H. destruct H as [Hc Ha].
    rewrite Ascii.eqb_sym, Hc. now rewrite (IH Ha).
Qed.

Lemma split_on_head sep a y :
  has_char sep a = false ->
  exists h t, split_on sep (a ++ y) = (a ++ h) :: t.
Proof.
  induction a as [| c a IH]; simpl; intros H.
  - destruct y as [| c y]; simpl; [eauto |].
    destruct (Ascii.eqb c sep); [eauto |].
    destruct (split_on sep y); eauto.
  - apply orb_false_iff in H. destruct H as [Hc Ha].
    rewrite Ascii.eqb_sym, Hc. destruct (IH Ha) as (h & t & ->). eauto.
Qed.

Lemma rstrip_keeps a c y :
  is_space c = false -> rstrip (a ++ String c y) = a ++ String c (rstrip y).
Proof.
  intros Hc. induction a as [| x a IH].
  - simpl. rewrite Hc. destruct (rstrip y); reflexivity.
  - cbn [append rstrip]. rewrite IH. destruct a; reflexivity.
Qed.

Lemma words_from_word a y :
  no_space a ->
  words_from (a ++ String " " y)
  = (a, let (w, ws) := words_from y in cons_word w ws).
Proof.
  induction a as [| c a IH]; intros H.
  - simpl. destruct (words_from y); reflexivity.
  - cbn [append words_from]. rewrite (IH (no_space_tail c a H)).
    rewrite (H c); [reflexivity |]. simpl. now rewrite Ascii.eqb_refl.
Qed.

Lemma split_ws_word a y :
  no_space a -> nonempty a = true ->
  exists ws, split_ws (a ++ String " " y) = a :: ws.
Proof.
  intros Ha Hne. unfold split_ws. rewrite (words_from_word a y Ha).
  unfold cons_word at 1. rewrite Hne. eauto.
Qed.

Lemma split_ws_space y : split_ws (String " " y) = split_ws y.
Proof. unfold split_ws. simpl. destruct (words_from y); reflexivity. Qed.

Lemma contains_cons needle c r :
  contains needle (String c r)
  = if prefix needle (String c r) then true else contains needle r.
Proof. reflexivity. Qed.

Lemma contains_skip needle a b :
  contains needle b = true -> contains needle (a ++ b) = true.
Proof.
  intros H. induction a as [| c a IH]; [exact H |].
  cbn [append]. rewrite contains_cons, IH. now destruct (prefix _ _).
Qed.

Lemma contains_here needle b : contains needle (needle ++ b) = true.
Proof.
  destruct needle as [| c needle]; [destruct b; reflexivity |].
  change (String c needle ++ b) with (String c (needle ++ b)).
  rewrite contains_cons.
  change (String c (needle ++ b)) with (String c needle ++ b).
  now rewrite prefix_append.
Qed.

Lemma uint_not_a_word (d : Decimal.uint) (neg : bool) :
  d <> Decimal.Nil ->
  let w := lower (NilEmpty.string_of_uint d) in
  (if String.eqb w "inf" || String.eqb w "infinity" then Some (FInf neg)
   else if String.eqb w "nan" then Some FNan
   else None) = None.
Proof. destruct d; intros H; [now elim H | ..]; reflexivity. Qed.

Lemma scale_by_one (z : Z) : scale10 (inject_Z z) 0 = inject_Z z.
Proof.
  unfold scale10, Qmult, inject_Z. simpl. f_equal; lia.
Qed.

Lemma parse_decimal_uint (d : Decimal.uint) :
  d <> Decimal.Nil ->
  parse_decimal (NilEmpty.string_of_uint d) = Some (inject_Z (digits_value 0 d)).
Proof.
  intros Hd. unfold parse_decimal.
  rewrite (digitpart_uint d Hd).
  cbn [exponent option_map]. now rewrite scale_by_one.
Qed.

Lemma nearest_even_one (n : Z) : nearest_even n 1 = n.
Proof. unfold nearest_even. now rewrite Z.div_1_r, Z.mod_1_r. Qed.

Lemma floor_log2_one (n : Z) : (0 < n)%Z -> floor_log2 n 1 = Z.log2 n.
Proof.
  intros Hn. unfold floor_log2. change (Z.log2 1) with 0%Z. rewrite Z.sub_0_r.
  pose proof (Z.log2_nonneg n) as H0. pose proof (Z.log2_spec n Hn) as Hs.
  destruct (Z.leb_spec 0 (Z.log2 n)); [| lia].
  destruct (Z.leb_spec (1 * 2 ^ Z.log2 n) n); lia.
Qed.

(** An integer below [2^53] is a binary64. *)
Lemma binary64_int (z : Z) :
  (Z.abs z < 2 ^ 53)%Z -> binary64 (inject_Z z) = FNum (inject_Z z).
Proof.
  intros Hz. unfold binary64. cbn [inject_Z Qnum Qden].
  destruct (Z.eqb_spec (Z.abs z) 0) as [| Hnz]; [reflexivity |].
  assert (Hn : (0 < Z.abs z)%Z) by lia.
  rewrite (floor_log2_one _ Hn).
  assert (He : (Z.log2 (Z.abs z) < 53)%Z) by (apply Z.log2_lt_pow2; lia).
  pose proof (Z.log2_nonneg (Z.abs z)) as H0.
  remember (Z.log2 (Z.abs z)) as e eqn:Ee. clear Ee.
  rewrite Z.max_l by lia.
  assert (Hbig : (2 ^ 53 < 2 ^ 1024)%Z) by (apply Z.pow_lt_mono_r; lia).
  match goal with
  | |- (if ?c then _ else if Qeq_bool ?v ?q then _ else _) = _ =>
      assert (Hc : c = false); [| assert (Hq : Qeq_bool v q = true)]
  end.
  - destruct (Z.leb_spec 0 (e - 52)); [| reflexivity]. cbn [andb].
    replace (e - 52)%Z with 0%Z by lia.
    destruct (Z.ltb_spec 0 0); [lia |].
    change (1 * 2 ^ 0)%Z with 1%Z. rewrite nearest_even_one.
    apply Z.leb_gt. change (2 ^ 0)%Z with 1%Z. lia.
  - apply Qeq_bool_iff. unfold Qeq.
    destruct (Z.ltb_spec (e - 52) 0).
    + rewrite nearest_even_one. cbn [Qnum Qden].
      rewrite Z2Pos.id by (apply Z.pow_pos_nonneg; lia).
      destruct (Z.ltb_spec z 0);
        [rewrite Z.abs_neq by lia | rewrite Z.abs_eq by lia];
        unfold inject_Z; cbn [Qnum Qden]; ring.
    + replace (e - 52)%Z with 0%Z by lia.
      change (1 * 2 ^ 0)%Z with 1%Z. rewrite nearest_even_one.
      cbn [inject_Z Qnum Qden]. change (2 ^ 0)%Z with 1%Z.
      destruct (Z.ltb_spec z 0);
        [rewrite Z.abs_neq by lia | rewrite Z.abs_eq by lia];
        unfold inject_Z; cbn [Qnum Qden]; ring.
  - now rewrite Hc, Hq.
Qed.

(** [float(str(z))] is the binary64 nearest to [z]. *)
Lemma float_of_str_int (z : Z) :
  float_of_str (str_of_int z) = ok (binary64 (inject_Z z)).
Proof.
  unfold float_of_str, parse_float.
  rewrite (trim_no_space _ (str_of_int_no_space z)).
  destruct (str_of_int_shape z) as (d & Hd & [[-> ->] | [-> ->]]).
  - rewrite sign_uint.
    pose proof (uint_not_a_word d false Hd) as Hw. cbv zeta in Hw |- *.
    destruct (String.eqb _ "inf" || String.eqb _ "infinity"); [discriminate |].
    destruct (String.eqb _ "nan"); [discriminate |].
    now rewrite (parse_decimal_uint d Hd).
  - cbn [sign].
    pose proof (uint_not_a_word d true Hd) as Hw. cbv zeta in Hw |- *.
    destruct (String.eqb _ "inf" || String.eqb _ "infinity"); [discriminate |].
    destruct (String.eqb _ "nan"); [discriminate |].
    rewrite (parse_decimal_uint d Hd). reflexivity.
Qed.

Lemma starts_clean_app a y :
  nonempty a = true -> no_space a -> starts_clean (a ++ y).
Proof.
  destruct a as [| c a]; [discriminate |]. intros _ H. simpl.
  apply H. simpl. now rewrite Ascii.eqb_refl.
Qed.

Lemma split_on_none sep s : has_char sep s = false -> split_on sep s = [s].
Proof.
  induction s as [| c s IH]; simpl; intros H; [reflexivity |].
  apply orb_false_iff in H. destruct H as [Hc Hs].
  rewrite Ascii.eqb_sym, Hc. now rewrite (IH Hs).
Qed.

Section StatisticsLine.

Variables sent received loss : Z.
Hypothesis Hsent : (digit_count sent <= max_str_digits)%Z.
Hypothesis Hreceived : (digit_count received <= max_str_digits)%Z.

Local Abbreviation line := (statistics_line sent received loss).

Lemma statistics_parts tail :
  exists h t,
    split_on "," (line tail)
    = (str_of_int sent ++ " packets transmitted")
      :: (" " ++ str_of_int received ++ " received")
      :: (" " ++ str_of_int loss ++ "% packet loss" ++ h) :: t.
Proof.
  unfold statistics_line.
  replace (str_of_int sent ++ " packets transmitted, " ++ str_of_int received
           ++ " received, " ++ str_of_int loss ++ "% packet loss" ++ tail)
    with ((str_of_int sent ++ " packets transmitted")
          ++ String ","
               ((" " ++ str_of_int received ++ " received")
                ++ String "," ((" " ++ str_of_int loss ++ "% packet loss") ++ tail)))
    by (rewrite !append_assoc_str; reflexivity).
  rewrite split_on_sep
    by (rewrite has_char_app, str_of_int_without by reflexivity; reflexivity).
  rewrite split_on_sep
    by (rewrite !has_char_app, str_of_int_without by reflexivity; reflexivity).
  destruct (split_on_head "," (" " ++ str_of_int loss ++ "% packet loss") tail)
    as (h & t & ->).
  { rewrite !has_char_app, str_of_int_without by reflexivity. reflexivity. }
  exists h, t. now rewrite !append_assoc_str.
Qed.

Lemma loss_field h :
  (s <~ Ping.field "%" 0 (strip (" " ++ str_of_int loss ++ "% packet loss" ++ h)) ;;
   float_of_str s)
  = ok (binary64 (inject_Z loss)).
Proof.
  assert (Hstrip : strip (" " ++ str_of_int loss ++ "% packet loss" ++ h)
                   = str_of_int loss ++ String "%" (rstrip (" packet loss" ++ h))).
  { unfold strip.
    change (lstrip (" " ++ str_of_int loss ++ "% packet loss" ++ h))
      with (lstrip (str_of_int loss ++ "% packet loss" ++ h)).
    rewrite lstrip_clean
      by (apply starts_clean_app;
          [apply str_of_int_nonempty | apply str_of_int_no_space]).
    change ("% packet loss" ++ h) with (String "%" (" packet loss" ++ h)).
    now rewrite rstrip_keeps. }
  rewrite Hstrip. unfold Ping.field.
  rewrite split_on_sep by (now apply str_of_int_without).
  unfold index. cbn [nth_error ebind ok]. apply float_of_str_int.
Qed.

Lemma int_of_str_int (z : Z) :
  (digit_count z <= max_str_digits)%Z -> int_of_str (str_of_int z) = ok z.
Proof.
  intros Hz. unfold int_of_str. rewrite read_int_str_of_int.
  destruct (Z.ltb_spec max_str_digits (digit_count z)); [lia | reflexivity].
Qed.

Lemma first_word (z : Z) rest :
  (digit_count z <= max_str_digits)%Z ->
  (w <~ index (split_ws (str_of_int z ++ String " " rest)) 0 ;; int_of_str w) = ok z.
Proof.
  intros Hz.
  destruct (split_ws_word (str_of_int z) rest (str_of_int_no_space z)
              (str_of_int_nonempty z)) as [ws ->].
  unfold index. cbn [nth_error ebind ok]. now apply int_of_str_int.
Qed.

(** The statistics line is read field by field. *)
Lemma parse_packets_unix_statistics tail r :
  Ping.parse_packets_unix (line tail) r
  = (ok tt, Ping.set_packet_loss_percent (binary64 (inject_Z loss))
              (Ping.set_packets_received received (Ping.set_packets_sent sent r))).
Proof.
  unfold Ping.parse_packets_unix. cbv zeta.
  destruct (statistics_parts tail) as (h & t & ->).
  cbn [List.length Nat.leb]. unfold bind, lift, modify.
  unfold index at 1 3 5. cbn [nth_error ebind ok].
  change (str_of_int sent ++ " packets transmitted")
    with (str_of_int sent ++ String " " "packets transmitted").
  rewrite (first_word sent _ Hsent).
  change (" " ++ str_of_int received ++ " received")
    with (String " " (str_of_int received ++ String " " "received")).
  rewrite split_ws_space, (first_word received _ Hreceived).
  now rewrite loss_field.
Qed.

Lemma strip_statistics tail : strip (line tail) = line (rstrip tail).
Proof.
  unfold strip.
  rewrite lstrip_clean
    by (apply starts_clean_app;
        [apply str_of_int_nonempty | apply str_of_int_no_space]).
  unfold statistics_line.
  replace (str_of_int sent ++ " packets transmitted, " ++ str_of_int received
           ++ " received, " ++ str_of_int loss ++ "% packet loss" ++ tail)
    with ((str_of_int sent ++ " packets transmitted, " ++ str_of_int received
           ++ " received, " ++ str_of_int loss ++ "% packet los")
          ++ String "s" tail)
    by (rewrite !append_assoc_str; reflexivity).
  rewrite rstrip_keeps by reflexivity.
  rewrite !append_assoc_str. reflexivity.
Qed.

Lemma statistics_is_packet_line tail : Ping.is_packet_line (line tail) = true.
Proof.
  unfold Ping.is_packet_line, statistics_line.
  replace (str_of_int sent ++ " packets transmitted, " ++ str_of_int received
           ++ " received, " ++ str_of_int loss ++ "% packet loss" ++ tail)
    with ((str_of_int sent ++ " ")
          ++ "packets transmitted"
          ++ ", " ++ str_of_int received ++ " received, " ++ str_of_int loss
          ++ "% packet loss" ++ tail)
    by (rewrite !append_assoc_str; reflexivity).
  rewrite contains_skip by apply contains_here. reflexivity.
Qed.

(** The statistics line is recognised and read. *)
Lemma parse_line_statistics tail r :
  Ping.parse_line false (line tail) r
  = (ok tt, Ping.set_packet_loss_percent (binary64 (inject_Z loss))
              (Ping.set_packets_received received (Ping.set_packets_sent sent r))).
Proof.
  unfold Ping.parse_line. cbv zeta.
  rewrite strip_statistics, statistics_is_packet_line.
  apply parse_packets_unix_statistics.
Qed.

(** X20. The statistics line of a Unix [ping] is read back, as far as
    [int] and [float] read numbers: on the line
    [S packets transmitted, R received, L% packet loss] followed by
    anything, with S and R of at most 4300 digits, the parser assigns S
    and R to the packets sent and received and the binary64 nearest to L
    to the loss, which is L itself below [2^53], and nothing else.  So a
    probe whose tool returned status zero and printed this one line is a
    success with these three numbers, null timings and no error. *)
Theorem unix_statistics_are_read :
  (forall tail r,
     Ping.parse_line false (line tail) r
     = (ok tt, Ping.set_packet_loss_percent (binary64 (inject_Z loss))
                 (Ping.set_packets_received received
                    (Ping.set_packets_sent sent r))))
  /\ (forall h count timeout tail stderr,
        has_char "010" tail = false ->
        Ping.ping_result false h count timeout
          (Ping.Completed 0 (line tail) stderr)
        = Ping.mkPingResult h true sent received
            (Ping.NFloat (binary64 (inject_Z loss))) None None None None)
  /\ ((Z.abs loss < 2 ^ 53)%Z -> binary64 (inject_Z loss) = FNum (inject_Z loss)).
Proof.
  split; [exact parse_line_statistics |]. split; [| apply binary64_int].
  intros h count timeout tail stderr Htail.
  unfold Ping.ping_result. rewrite try_block_zero. unfold Ping.parse_output.
  rewrite split_on_none.
  - cbn [for_each]. unfold bind. rewrite parse_line_statistics. reflexivity.
  - unfold statistics_line.
    rewrite !has_char_app, !str_of_int_without, Htail by reflexivity. reflexivity.
Qed.

End StatisticsLine.

(** X20 on the line an unreachable router leaves: no packet back. *)
Lemma unix_statistics_are_read_witness :
  statistics_line 4 0 100 ", time 3004ms"
  = "4 packets transmitted, 0 received, 100% packet loss, time 3004ms"
  /\ Ping.ping_result false "gw" 4 5
       (Ping.Completed 0
          "4 packets transmitted, 0 received, 100% packet loss, time 3004ms" "")
     = Ping.mkPingResult "gw" true 4 0 (Ping.NFloat (FNum (inject_Z 100)))
         None None None None.
Proof.
  split; [reflexivity |].
  refine (proj1 (proj2 (unix_statistics_are_read 4 0 100 _ _))
            "gw" 4%Z 5%Z ", time 3004ms" "" eq_refl);
    vm_compute; discriminate.
Defined.

Lemma append_nil_str (a : string) : a ++ "" = a.
Proof. induction a as [| c a IH]; simpl; [reflexivity | now rewrite IH]. Qed.

Lemma contains_needs_first c needle s :
  has_char c s = false -> contains (String c needle) s = false.
Proof.
  induction s as [| b s IH]; intros H; [reflexivity |].
  simpl in H. apply orb_false_iff in H. destruct H as [Hb Hs].
  rewrite contains_cons, (IH Hs). simpl.
  destruct (ascii_dec c b) as [-> | _]; [| reflexivity].
  now rewrite Ascii.eqb_refl in Hb.
Qed.

Lemma rstrip_no_space s : no_space s -> rstrip s = s.
Proof.
  intros H. pose proof (strip_no_space s H) as Hs. unfold strip in Hs.
  rewrite lstrip_clean in Hs; [exact Hs |].
  destruct s as [| c s]; simpl; [exact I |].
  apply H. simpl. now rewrite Ascii.eqb_refl.
Qed.

(** A literal followed by a number has nothing to strip at its end. *)
Lemma rstrip_number a z : rstrip (a ++ str_of_int z) = a ++ str_of_int z.
Proof.
  pose proof (str_of_int_no_space z) as Hs.
  pose proof (str_of_int_nonempty z) as Hn.
  destruct (str_of_int z) as [| c s]; [discriminate |].
  rewrite rstrip_keeps.
  - now rewrite (rstrip_no_space s (no_space_tail c s Hs)).
  - apply Hs. simpl. now rewrite Ascii.eqb_refl.
Qed.

(** [int(part.split('=')[1].strip())] on a label, an equals sign and a
    number. *)
Lemma value_after_equals label z :
  has_char "=" label = false ->
  (digit_count z <= max_str_digits)%Z ->
  (s <~ Ping.field "=" 1 (label ++ "= " ++ str_of_int z) ;; int_of_str (strip s))
  = ok z.
Proof.
  intros Hl Hz. unfold Ping.field.
  change (label ++ "= " ++ str_of_int z)
    with (label ++ String "=" (" " ++ str_of_int z)).
  rewrite (split_on_sep "=" label _ Hl).
  rewrite split_on_none
    by (rewrite has_char_app, str_of_int_without by reflexivity; reflexivity).
  unfold index. cbn [nth_error ebind ok].
  unfold strip.
  change (lstrip (" " ++ str_of_int z)) with (lstrip (str_of_int z)).
  rewrite lstrip_clean
    by (rewrite <- (append_nil_str (str_of_int z));
        apply starts_clean_app;
        [apply str_of_int_nonempty | apply str_of_int_no_space]).
  rewrite (rstrip_no_space _ (str_of_int_no_space z)).
  now apply int_of_str_int.
Qed.

Section PacketsLine.

Variables sent received lost loss : Z.
Hypothesis Hsent : (digit_count sent <= max_str_digits)%Z.
Hypothesis Hreceived : (digit_count received <= max_str_digits)%Z.

Local Abbreviation sent_part := ("Packets: Sent = " ++ str_of_int sent).
Local Abbreviation received_part := ("Received = " ++ str_of_int received).
Local Abbreviation lost_part :=
  ("Lost = " ++ str_of_int lost ++ " (" ++ str_of_int loss ++ "% loss)").

Lemma packets_parts comma :
  split_on "," (packets_line sent received lost loss comma)
  = sent_part :: (" " ++ received_part) :: (" " ++ lost_part)
    :: (if comma then [""] else []).
Proof.
  unfold packets_line.
  replace ("Packets: Sent = " ++ str_of_int sent ++ ", Received = "
           ++ str_of_int received ++ ", Lost = " ++ str_of_int lost ++ " ("
           ++ str_of_int loss ++ "% loss)" ++ (if comma then "," else ""))
    with (sent_part
          ++ String "," ((" " ++ received_part)
                         ++ String "," ((" " ++ lost_part)
                                        ++ (if comma then "," else ""))))
    by (rewrite !append_assoc_str; reflexivity).
  rewrite split_on_sep
    by (rewrite has_char_app, str_of_int_without by reflexivity; reflexivity).
  rewrite split_on_sep
    by (rewrite !has_char_app, str_of_int_without by reflexivity; reflexivity).
  assert (Hlost : has_char "," (" " ++ lost_part) = false).
  { rewrite !has_char_app, !str_of_int_without by reflexivity. reflexivity. }
  destruct comma.
  - now rewrite (split_on_sep "," _ "" Hlost).
  - now rewrite append_nil_str, (split_on_none "," _ Hlost).
Qed.

Lemma strip_sent_part : strip sent_part = sent_part.
Proof.
  unfold strip. change (lstrip sent_part) with sent_part. apply rstrip_number.
Qed.

Lemma strip_received_part : strip (" " ++ received_part) = received_part.
Proof.
  unfold strip. change (lstrip (" " ++ received_part)) with received_part.
  apply rstrip_number.
Qed.

Lemma strip_lost_part : strip (" " ++ lost_part) = lost_part.
Proof.
  unfold strip.
  change (lstrip (" " ++ lost_part)) with lost_part.
  replace lost_part
    with (("Lost = " ++ str_of_int lost ++ " (" ++ str_of_int loss ++ "% loss")
          ++ String ")" "")
    by (rewrite !append_assoc_str; reflexivity).
  now rewrite rstrip_keeps.
Qed.

Lemma loss_in_brackets :
  (s <~ Ping.field "(" 1 lost_part ;;
   loss_str <~ Ping.field "%" 0 s ;;
   float_of_str loss_str)
  = ok (binary64 (inject_Z loss)).
Proof.
  unfold Ping.field.
  replace lost_part
    with (("Lost = " ++ str_of_int lost ++ " ")
          ++ String "(" (str_of_int loss ++ String "%" " loss)"))
    by (rewrite !append_assoc_str; reflexivity).
  rewrite split_on_sep
    by (rewrite !has_char_app, str_of_int_without by reflexivity; reflexivity).
  assert (Hrest : has_char "(" (str_of_int loss ++ String "%" " loss)") = false).
  { rewrite has_char_app, str_of_int_without by reflexivity. reflexivity. }
  rewrite (split_on_none "(" _ Hrest).
  unfold index. cbn [nth_error ebind ok].
  rewrite (split_on_sep "%" (str_of_int loss)) by (now apply str_of_int_without).
  cbn [nth_error ebind ok]. apply float_of_str_int.
Qed.

(** The statistics line is read part by part. *)
Lemma parse_line_packets comma r :
  Ping.parse_line true (packets_line sent received lost loss comma) r
  = (ok tt, Ping.set_packet_loss_percent (binary64 (inject_Z loss))
              (Ping.set_packets_received received
                 (Ping.set_packets_sent sent r))).
Proof.
  assert (Hstrip : strip (packets_line sent received lost loss comma)
                   = packets_line sent received lost loss comma).
  { unfold strip. change (lstrip (packets_line sent received lost loss comma))
      with (packets_line sent received lost loss comma).
    unfold packets_line.
    destruct comma.
    - replace ("Packets: Sent = " ++ str_of_int sent ++ ", Received = "
               ++ str_of_int received ++ ", Lost = " ++ str_of_int lost ++ " ("
               ++ str_of_int loss ++ "% loss)" ++ ",")
        with (("Packets: Sent = " ++ str_of_int sent ++ ", Received = "
               ++ str_of_int received ++ ", Lost = " ++ str_of_int lost ++ " ("
               ++ str_of_int loss ++ "% loss)") ++ String "," "")
        by (rewrite !append_assoc_str; reflexivity).
      now rewrite rstrip_keeps.
    - replace ("Packets: Sent = " ++ str_of_int sent ++ ", Received = "
               ++ str_of_int received ++ ", Lost = " ++ str_of_int lost ++ " ("
               ++ str_of_int loss ++ "% loss)" ++ "")
        with (("Packets: Sent = " ++ str_of_int sent ++ ", Received = "
               ++ str_of_int received ++ ", Lost = " ++ str_of_int lost ++ " ("
               ++ str_of_int loss ++ "% loss") ++ String ")" "")
        by (rewrite !append_assoc_str; reflexivity).
      now rewrite rstrip_keeps. }
  assert (Hs : contains "Sent" (packets_line sent received lost loss comma) = true).
  { unfold packets_line.
    apply (contains_skip "Sent" "Packets: "), (contains_here "Sent"). }
  assert (Hr :
            contains "Received" (packets_line sent received lost loss comma) = true).
  { unfold packets_line.
    replace ("Packets: Sent = " ++ str_of_int sent ++ ", Received = "
             ++ str_of_int received ++ ", Lost = " ++ str_of_int lost ++ " ("
             ++ str_of_int loss ++ "% loss)" ++ (if comma then "," else ""))
      with (("Packets: Sent = " ++ str_of_int sent ++ ", ")
            ++ "Received"
            ++ " = " ++ str_of_int received ++ ", Lost = " ++ str_of_int lost
            ++ " (" ++ str_of_int loss ++ "% loss)" ++ (if comma then "," else ""))
      by (rewrite !append_assoc_str; reflexivity).
    apply contains_skip, contains_here. }
  unfold Ping.parse_line. cbv zeta. rewrite Hstrip.
  unfold Ping.is_packet_line.
  replace (contains "Packets: Sent"
             (packets_line sent received lost loss comma)) with true
    by (symmetry; apply (contains_here "Packets: Sent")).
  rewrite orb_true_r.
  unfold Ping.parse_packets_nt. rewrite Hs, Hr, packets_parts.
  cbn [andb app for_each]. cbv zeta.
  (* the part with the packets sent *)
  unfold bind at 1. rewrite strip_sent_part.
  replace (contains "Sent" sent_part) with true
    by (symmetry; apply (contains_skip "Sent" "Packets: "), (contains_here "Sent")).
  unfold bind at 1, lift at 1.
  pose proof (value_after_equals "Packets: Sent " sent eq_refl Hsent) as Hv.
  change ("Packets: Sent " ++ "= " ++ str_of_int sent) with sent_part in Hv.
  rewrite Hv. clear Hv.
  unfold modify at 1. cbv beta iota delta [ok].
  (* the part with the packets received *)
  unfold bind at 1. rewrite strip_received_part.
  rewrite (contains_needs_first "S" "ent" received_part)
    by (rewrite has_char_app, str_of_int_without by reflexivity; reflexivity).
  replace (contains "Received" received_part) with true
    by (symmetry; apply (contains_here "Received")).
  unfold bind at 1, lift at 1.
  pose proof (value_after_equals "Received " received eq_refl Hreceived) as Hv.
  change ("Received " ++ "= " ++ str_of_int received) with received_part in Hv.
  rewrite Hv. clear Hv.
  unfold modify at 1. cbv beta iota delta [ok].
  (* the part with the loss *)
  unfold bind at 1. rewrite strip_lost_part.
  rewrite (contains_needs_first "S" "ent" lost_part)
    by (rewrite !has_char_app, !str_of_int_without by reflexivity; reflexivity).
  rewrite (contains_needs_first "R" "eceived" lost_part)
    by (rewrite !has_char_app, !str_of_int_without by reflexivity; reflexivity).
  replace (contains "loss" lost_part) with true.
  2: { symmetry.
       replace lost_part
         with (("Lost = " ++ str_of_int lost ++ " (" ++ str_of_int loss ++ "% ")
               ++ "loss" ++ ")")
         by (rewrite !append_assoc_str; reflexivity).
       apply contains_skip, contains_here. }
  replace (contains "(" lost_part) with true.
  2: { symmetry.
       replace lost_part
         with (("Lost = " ++ str_of_int lost ++ " ")
               ++ "(" ++ str_of_int loss ++ "% loss)")
         by (rewrite !append_assoc_str; reflexivity).
       apply contains_skip, contains_here. }
  cbn [andb]. unfold bind at 1, lift at 1.
  rewrite loss_in_brackets.
  unfold modify at 1. cbv beta iota delta [ok].
  destruct comma; reflexivity.
Qed.

(** X21. The statistics line of a Windows [ping] is read back, as far as
    [int] and [float] read numbers: on
    [Packets: Sent = S, Received = R, Lost = X (L% loss)], with or without
    the comma that ends it, and with S and R of at most 4300 digits, the
    parser assigns S and R to the packets sent and received and the
    binary64 nearest to L to the loss, which is L itself below [2^53],
    and nothing else; the lost count X is not kept.  So a probe on Windows
    whose tool returned status zero and printed this one line is a success
    with these three numbers, null timings and no error. *)
Theorem windows_statistics_are_read comma :
  (forall r,
     Ping.parse_line true (packets_line sent received lost loss comma) r
     = (ok tt, Ping.set_packet_loss_percent (binary64 (inject_Z loss))
                 (Ping.set_packets_received received
                    (Ping.set_packets_sent sent r))))
  /\ (forall h count timeout stderr,
        Ping.ping_result true h count timeout
          (Ping.Completed 0 (packets_line sent received lost loss comma) stderr)
        = Ping.mkPingResult h true sent received
            (Ping.NFloat (binary64 (inject_Z loss))) None None None None)
  /\ ((Z.abs loss < 2 ^ 53)%Z -> binary64 (inject_Z loss) = FNum (inject_Z loss)).
Proof.
  split; [intros r; apply parse_line_packets |]. split; [| apply binary64_int].
  intros h count timeout stderr.
  unfold Ping.ping_result. rewrite try_block_zero. unfold Ping.parse_output.
  rewrite split_on_none.
  - cbn [for_each]. unfold bind. rewrite parse_line_packets. reflexivity.
  - unfold packets_line.
    rewrite !has_char_app, !str_of_int_without by reflexivity.
    destruct comma; reflexivity.
Qed.

End PacketsLine.

(** X21 on the line of a Windows [ping] that lost one packet of four. *)
Lemma windows_statistics_are_read_witness :
  packets_line 4 3 1 25 true
  = "Packets: Sent = 4, Received = 3, Lost = 1 (25% loss),"
  /\ Ping.ping_result true "gw" 4 5
       (Ping.Completed 0 "Packets: Sent = 4, Received = 3, Lost = 1 (25% loss)," "")
     = Ping.mkPingResult "gw" true 4 3 (Ping.NFloat (FNum (inject_Z 25)))
         None None None None.
Proof.
  split; [reflexivity |].
  refine (proj1 (proj2 (windows_statistics_are_read 4 3 1 25 _ _ true))
            "gw" 4%Z 5%Z "");
    vm_compute; discriminate.
Defined.

Lemma contains_past f needle a rest :
  has_char f a = false ->
  contains (String f needle) (a ++ rest) = contains (String f needle) rest.
Proof.
  induction a as [| c a IH]; intros H; [reflexivity |].
  simpl in H. apply orb_false_iff in H. destruct H as [Hc Ha].
  cbn [append]. rewrite contains_cons, (IH Ha). simpl.
  destruct (ascii_dec f c) as [-> | _]; [| reflexivity].
  now rewrite Ascii.eqb_refl in Hc.
Qed.

(** Searching a line of literals and numbers for a word that is not in
    it, character by character. *)
Ltac scan_line :=
  repeat (cbn [append];
          first
            [ rewrite contains_past by (apply str_of_int_without; reflexivity)
            | rewrite contains_cons;
              match goal with
              | |- context [prefix ?n ?s] => change (prefix n s) with false
              end; cbv iota ]).

Section TimingsLine.

Variables minimum maximum average : Z.

Local Abbreviation line := (timings_line minimum maximum average).

Lemma strip_timings : strip line = line.
Proof.
  unfold strip. change (lstrip line) with line. unfold timings_line.
  replace ("Minimum = " ++ str_of_int minimum ++ "ms, Maximum = "
           ++ str_of_int maximum ++ "ms, Average = " ++ str_of_int average ++ "ms")
    with (("Minimum = " ++ str_of_int minimum ++ "ms, Maximum = "
           ++ str_of_int maximum ++ "ms, Average = " ++ str_of_int average ++ "m")
          ++ String "s" "")
    by (rewrite !append_assoc_str; reflexivity).
  now rewrite rstrip_keeps.
Qed.

Lemma timings_not_recognised :
  Ping.is_packet_line line = false /\ Ping.is_timing_line line = false.
Proof.
  unfold Ping.is_packet_line, Ping.is_timing_line, timings_line.
  assert (H1 : contains "packets transmitted"
                 ("Minimum = " ++ str_of_int minimum ++ "ms, Maximum = "
                  ++ str_of_int maximum ++ "ms, Average = "
                  ++ str_of_int average ++ "ms") = false)
    by (scan_line; reflexivity).
  assert (H2 : contains "Packets: Sent"
                 ("Minimum = " ++ str_of_int minimum ++ "ms, Maximum = "
                  ++ str_of_int maximum ++ "ms, Average = "
                  ++ str_of_int average ++ "ms") = false)
    by (scan_line; reflexivity).
  assert (H3 : contains "min/avg/max"
                 ("Minimum = " ++ str_of_int minimum ++ "ms, Maximum = "
                  ++ str_of_int maximum ++ "ms, Average = "
                  ++ str_of_int average ++ "ms") = false)
    by (scan_line; reflexivity).
  assert (H4 : contains "Minimum/Maximum/Average"
                 ("Minimum = " ++ str_of_int minimum ++ "ms, Maximum = "
                  ++ str_of_int maximum ++ "ms, Average = "
                  ++ str_of_int average ++ "ms") = false)
    by (scan_line; reflexivity).
  rewrite H1, H2, H3, H4. split; reflexivity.
Qed.

Lemma parse_line_timings nt r : Ping.parse_line nt line r = (ok tt, r).
Proof.
  unfold Ping.parse_line. cbv zeta. rewrite strip_timings.
  destruct timings_not_recognised as [-> ->]. reflexivity.
Qed.

(** X22. The timing line of a Windows [ping], as the comment in the code
    gives it, is not read: [Minimum = Ams, Maximum = Bms, Average = Cms]
    holds neither of the two markers of a timing line, so the parser
    leaves the result as it is.  A probe on Windows whose tool printed the
    statistics line, with counts of at most 4300 digits, and this timing
    line has the three packet numbers and null timings. *)
Theorem windows_timings_are_not_read :
  Ping.is_timing_line (strip line) = false
  /\ (forall nt r, Ping.parse_line nt line r = (ok tt, r))
  /\ (forall sent received lost loss h count timeout stderr,
        (digit_count sent <= max_str_digits)%Z ->
        (digit_count received <= max_str_digits)%Z ->
        Ping.ping_result true h count timeout
          (Ping.Completed 0
             (packets_line sent received lost loss true ++ newline ++ line)
             stderr)
        = Ping.mkPingResult h true sent received
            (Ping.NFloat (binary64 (inject_Z loss))) None None None None).
Proof.
  split; [rewrite strip_timings; apply timings_not_recognised |].
  split; [exact parse_line_timings |].
  intros sent received lost loss h count timeout stderr Hsent Hreceived.
  unfold Ping.ping_result. rewrite try_block_zero. unfold Ping.parse_output.
  change (packets_line sent received lost loss true ++ newline ++ line)
    with (packets_line sent received lost loss true ++ String "010" line).
  rewrite split_on_sep.
  - rewrite split_on_none.
    + cbn [for_each]. unfold bind.
      rewrite (parse_line_packets sent received lost loss Hsent Hreceived),
        parse_line_timings.
      reflexivity.
    + unfold timings_line.
      rewrite !has_char_app, !str_of_int_without by reflexivity. reflexivity.
  - unfold packets_line.
    rewrite !has_char_app, !str_of_int_without by reflexivity. reflexivity.
Qed.

End TimingsLine.

(* ===================================================================== *)
(** ** Further properties: reading the timing line *)
(* ===================================================================== *)

Lemma scan_digit c v acc n r :
  digit_val c = Some v ->
  scan_digits acc n (String c r) = scan_digits (10 * acc + v) (S n) r.
Proof. intros H. cbn [scan_digits]. now rewrite H. Qed.

Lemma scan_uint_then (d : Decimal.uint) rest :
  stops rest ->
  forall acc n,
    scan_digits acc n (NilEmpty.string_of_uint d ++ rest)
    = (digits_value acc d, (n + Decimal.nb_digits d)%nat, rest).
Proof.
  intros Hrest.
  induction d; intros acc n;
    cbn [NilEmpty.string_of_uint append digits_value Decimal.nb_digits];
    try (erewrite scan_digit by reflexivity;
         rewrite IHd, Nat.add_succ_r; reflexivity).
  rewrite Nat.add_0_r.
  destruct rest as [| c r]; [reflexivity |].
  destruct Hrest as [Hd Hu]. cbn [scan_digits]. now rewrite Hd, Hu.
Qed.

Lemma digitpart_uint_then (d : Decimal.uint) rest :
  d <> Decimal.Nil -> stops rest ->
  digitpart (NilEmpty.string_of_uint d ++ rest)
  = Some (digits_value 0 d, Decimal.nb_digits d, rest).
Proof.
  intros Hd Hrest.
  destruct d; [now elim Hd | ..];
    cbn [NilEmpty.string_of_uint append digits_value Decimal.nb_digits];
    unfold digitpart;
    match goal with
    | |- context [digit_val ?c] =>
        let v := eval vm_compute in (digit_val c) in
        change (digit_val c) with v
    end;
    cbv iota; rewrite (scan_uint_then _ rest Hrest); reflexivity.
Qed.

(** The decimal text of a natural number is a numeral. *)
Lemma natural_text (n : N) :
  exists d,
    d <> Decimal.Nil
    /\ str_of_int (Z.of_N n) = NilEmpty.string_of_uint d
    /\ Z.of_N n = digits_value 0 d.
Proof.
  unfold str_of_int. destruct n as [| p]; simpl Z.of_N; simpl Z.to_int;
    unfold NilZero.string_of_int, NilZero.string_of_uint.
  - exists (Decimal.D0 Decimal.Nil). split; [discriminate |]. split; reflexivity.
  - exists (Pos.to_uint p). pose proof (Unsigned.to_uint_nonnil p) as Hnil.
    split; [exact Hnil |].
    rewrite digits_value_zero, Unsigned.of_to.
    destruct (Pos.to_uint p); [now elim Hnil | ..]; split; reflexivity.
Qed.

Lemma fraction_uint (d : Decimal.uint) :
  fraction (NilEmpty.string_of_uint d)
  = (digits_value 0 d, Decimal.nb_digits d, "").
Proof.
  unfold fraction. destruct d; [reflexivity | ..];
    match goal with
    | |- context [digitpart (NilEmpty.string_of_uint ?u)] =>
        rewrite <- (append_nil_str (NilEmpty.string_of_uint u));
        rewrite (digitpart_uint_then u "" ltac:(discriminate) I)
    end; reflexivity.
Qed.

Lemma decimal_text_chars whole fraction c :
  has_char c (decimal_text whole fraction) = true -> decimal_char c = true.
Proof.
  unfold decimal_text, decimal_char. rewrite has_char_app. intros H.
  apply orb_true_iff in H. destruct H as [H | H].
  - now rewrite (str_of_int_chars _ _ H).
  - cbn [append has_char] in H. apply orb_true_iff in H. destruct H as [H | H].
    + rewrite H. apply orb_true_r.
    + unfold numeral_char. now rewrite (uint_chars _ _ H).
Qed.

Lemma decimal_text_without c whole fraction :
  decimal_char c = false -> has_char c (decimal_text whole fraction) = false.
Proof.
  intros Hc. destruct (has_char c (decimal_text whole fraction)) eqn:E;
    [| reflexivity].
  apply decimal_text_chars in E. congruence.
Qed.

Lemma decimal_char_no_space c : decimal_char c = true -> is_space c = false.
Proof.
  destruct c as [[] [] [] [] [] [] [] []]; vm_compute; congruence.
Qed.

Lemma decimal_text_no_space whole fraction : no_space (decimal_text whole fraction).
Proof.
  intros c H. now apply decimal_char_no_space, (decimal_text_chars whole fraction).
Qed.

Lemma decimal_text_nonempty whole fraction :
  nonempty (decimal_text whole fraction) = true.
Proof.
  unfold decimal_text. pose proof (str_of_int_nonempty (Z.of_N whole)) as H.
  destruct (str_of_int (Z.of_N whole)); [discriminate | reflexivity].
Qed.

(** [float] of a time, and its value. *)
Lemma float_of_decimal_text whole fraction :
  float_of_str (decimal_text whole fraction)
  = ok (binary64 (read_decimal whole fraction)).
Proof.
  unfold float_of_str, parse_float.
  rewrite (trim_no_space _ (decimal_text_no_space whole fraction)).
  unfold decimal_text, read_decimal.
  destruct (natural_text whole) as (d & Hd & -> & ->).
  assert (Hsign : sign (NilEmpty.string_of_uint d ++ "."
                        ++ NilEmpty.string_of_uint fraction)
                  = (false, NilEmpty.string_of_uint d ++ "."
                            ++ NilEmpty.string_of_uint fraction))
    by (destruct d; [now elim Hd | ..]; reflexivity).
  rewrite Hsign.
  assert (Hword : forall w rest,
             w = lower (NilEmpty.string_of_uint d ++ rest) ->
             (String.eqb w "inf" || String.eqb w "infinity" = false)
             /\ String.eqb w "nan" = false)
    by (intros w rest ->; destruct d; [now elim Hd | ..]; split; reflexivity).
  cbv zeta.
  destruct (Hword _ ("." ++ NilEmpty.string_of_uint fraction) eq_refl)
    as [-> ->].
  unfold parse_decimal.
  change ("." ++ NilEmpty.string_of_uint fraction)
    with (String "." (NilEmpty.string_of_uint fraction)).
  rewrite (digitpart_uint_then d _ Hd) by (split; reflexivity).
  rewrite fraction_uint. reflexivity.
Qed.

Lemma read_decimal_value whole fraction :
  Qeq (read_decimal whole fraction) (decimal_value whole fraction).
Proof.
  unfold read_decimal, scale10, decimal_value, mantissa, pow10.
  cbn [Z.ltb Z.compare Z.pow]. apply Qmult_1_r.
Qed.

Ltac scan_text :=
  repeat (cbn [append];
          first
            [ rewrite contains_past
                by (first [ apply str_of_int_without; reflexivity
                          | apply decimal_text_without; reflexivity ])
            | rewrite contains_cons;
              match goal with
              | |- context [prefix ?n ?s] => change (prefix n s) with false
              end; cbv iota ]).

Section RttLine.

Variables (w1 w2 w3 w4 : N) (f1 f2 f3 f4 : Decimal.uint).

Local Abbreviation t1 := (decimal_text w1 f1).
Local Abbreviation t2 := (decimal_text w2 f2).
Local Abbreviation t3 := (decimal_text w3 f3).
Local Abbreviation t4 := (decimal_text w4 f4).
Local Abbreviation line := (rtt_line t1 t2 t3 t4).

Lemma strip_rtt : strip line = line.
Proof.
  unfold strip. change (lstrip line) with line. unfold rtt_line.
  replace ("rtt min/avg/max/mdev = " ++ t1 ++ "/" ++ t2 ++ "/" ++ t3 ++ "/"
           ++ t4 ++ " ms")
    with (("rtt min/avg/max/mdev = " ++ t1 ++ "/" ++ t2 ++ "/" ++ t3 ++ "/"
           ++ t4 ++ " m") ++ String "s" "")
    by (rewrite !append_assoc_str; reflexivity).
  now rewrite rstrip_keeps.
Qed.

Lemma rtt_recognised :
  Ping.is_packet_line line = false /\ Ping.is_timing_line line = true
  /\ contains "=" line = true.
Proof.
  unfold Ping.is_packet_line, Ping.is_timing_line, rtt_line.
  assert (H1 : contains "packets transmitted"
                 ("rtt min/avg/max/mdev = " ++ t1 ++ "/" ++ t2 ++ "/" ++ t3
                  ++ "/" ++ t4 ++ " ms") = false)
    by (scan_text; reflexivity).
  assert (H2 : contains "Packets: Sent"
                 ("rtt min/avg/max/mdev = " ++ t1 ++ "/" ++ t2 ++ "/" ++ t3
                  ++ "/" ++ t4 ++ " ms") = false)
    by (scan_text; reflexivity).
  assert (H3 : contains "min/avg/max"
                 ("rtt min/avg/max/mdev = " ++ t1 ++ "/" ++ t2 ++ "/" ++ t3
                  ++ "/" ++ t4 ++ " ms") = true)
    by apply (contains_skip "min/avg/max" "rtt "), (contains_here "min/avg/max").
  assert (H4 : contains "="
                 ("rtt min/avg/max/mdev = " ++ t1 ++ "/" ++ t2 ++ "/" ++ t3
                  ++ "/" ++ t4 ++ " ms") = true)
    by apply (contains_skip "=" "rtt min/avg/max/mdev "), (contains_here "=").
  rewrite H1, H2, H3, H4. repeat split.
Qed.

(** [line.split('=')[1].strip().split('/')[0:3]] *)
Lemma rtt_times :
  (s <~ Ping.field "=" 1 line ;; ok (strip s))
  = ok (t1 ++ "/" ++ t2 ++ "/" ++ t3 ++ "/" ++ t4 ++ " ms")
  /\ firstn 3 (split_on "/" (t1 ++ "/" ++ t2 ++ "/" ++ t3 ++ "/" ++ t4 ++ " ms"))
     = [t1; t2; t3].
Proof.
  split.
  - unfold Ping.field, rtt_line.
    change ("rtt min/avg/max/mdev = " ++ t1 ++ "/" ++ t2 ++ "/" ++ t3 ++ "/"
            ++ t4 ++ " ms")
      with ("rtt min/avg/max/mdev "
            ++ String "=" (" " ++ t1 ++ "/" ++ t2 ++ "/" ++ t3 ++ "/" ++ t4 ++ " ms")).
    rewrite split_on_sep by reflexivity.
    rewrite split_on_none
      by (rewrite !has_char_app, !decimal_text_without by reflexivity; reflexivity).
    unfold index. cbn [nth_error ebind ok]. f_equal.
    unfold strip.
    change (lstrip (" " ++ t1 ++ "/" ++ t2 ++ "/" ++ t3 ++ "/" ++ t4 ++ " ms"))
      with (lstrip (t1 ++ "/" ++ t2 ++ "/" ++ t3 ++ "/" ++ t4 ++ " ms")).
    rewrite lstrip_clean
      by (apply starts_clean_app;
          [apply decimal_text_nonempty | apply decimal_text_no_space]).
    replace (t1 ++ "/" ++ t2 ++ "/" ++ t3 ++ "/" ++ t4 ++ " ms")
      with ((t1 ++ "/" ++ t2 ++ "/" ++ t3 ++ "/" ++ t4 ++ " m") ++ String "s" "")
      by (rewrite !append_assoc_str; reflexivity).
    now rewrite rstrip_keeps.
  - change (t1 ++ "/" ++ t2 ++ "/" ++ t3 ++ "/" ++ t4 ++ " ms")
      with (t1 ++ String "/" (t2 ++ String "/" (t3 ++ String "/" (t4 ++ " ms")))).
    rewrite !split_on_sep by (apply decimal_text_without; reflexivity).
    reflexivity.
Qed.

(** The timing line is read time by time. *)
Lemma parse_line_rtt r :
  Ping.parse_line false line r
  = (ok tt, Ping.set_max_time (binary64 (read_decimal w3 f3))
              (Ping.set_avg_time (binary64 (read_decimal w2 f2))
                 (Ping.set_min_time (binary64 (read_decimal w1 f1)) r))).
Proof.
  unfold Ping.parse_line. cbv zeta. rewrite strip_rtt.
  destruct rtt_recognised as (-> & -> & Heq).
  unfold Ping.parse_times_unix. rewrite Heq.
  destruct rtt_times as [Hpart Htimes].
  unfold bind at 1, lift at 1. rewrite Hpart. cbv beta iota delta [ok]. cbv zeta.
  rewrite Htimes. cbn [List.length Nat.leb].
  unfold bind, lift, modify, index. cbn [nth_error ebind ok].
  rewrite !float_of_decimal_text. reflexivity.
Qed.

(** X23. The timing line of a Unix [ping] is read back as [float] reads
    it: on [rtt min/avg/max/mdev = A/B/C/D ms], each time a whole part, a
    point and the digits of its fraction, the parser assigns the binary64
    nearest to the values of A, B and C to the minimum, the average and
    the maximum, and nothing else; the deviation D is not kept.  So a
    probe whose tool returned status zero and printed the statistics line,
    with counts of at most 4300 digits, and this line has the three packet
    numbers, these three timings and no error. *)
Theorem unix_timings_are_read :
  Qeq (read_decimal w1 f1) (decimal_value w1 f1)
  /\ Qeq (read_decimal w2 f2) (decimal_value w2 f2)
  /\ Qeq (read_decimal w3 f3) (decimal_value w3 f3)
  /\ (forall r,
        Ping.parse_line false line r
        = (ok tt, Ping.set_max_time (binary64 (read_decimal w3 f3))
                    (Ping.set_avg_time (binary64 (read_decimal w2 f2))
                       (Ping.set_min_time (binary64 (read_decimal w1 f1)) r))))
  /\ (forall sent received loss tail h count timeout stderr,
        (digit_count sent <= max_str_digits)%Z ->
        (digit_count received <= max_str_digits)%Z ->
        has_char "010" tail = false ->
        Ping.ping_result false h count timeout
          (Ping.Completed 0
             (statistics_line sent received loss tail ++ newline ++ line) stderr)
        = Ping.mkPingResult h true sent received
            (Ping.NFloat (binary64 (inject_Z loss)))
            (Some (binary64 (read_decimal w1 f1))) (Some (binary64 (read_decimal w2 f2)))
            (Some (binary64 (read_decimal w3 f3))) None).
Proof.
  split; [apply read_decimal_value |].
  split; [apply read_decimal_value |].
  split; [apply read_decimal_value |].
  split; [exact parse_line_rtt |].
  intros sent received loss tail h count timeout stderr Hsent Hreceived Htail.
  unfold Ping.ping_result. rewrite try_block_zero. unfold Ping.parse_output.
  change (statistics_line sent received loss tail ++ newline ++ line)
    with (statistics_line sent received loss tail ++ String "010" line).
  rewrite split_on_sep.
  - rewrite split_on_none.
    + cbn [for_each]. unfold bind.
      rewrite (parse_line_statistics sent received loss Hsent Hreceived),
        parse_line_rtt.
      reflexivity.
    + unfold rtt_line.
      rewrite !has_char_app, !decimal_text_without by reflexivity. reflexivity.
  - unfold statistics_line.
    rewrite !has_char_app, !str_of_int_without, Htail by reflexivity. reflexivity.
Qed.

End RttLine.

(** X23 on the two lines a reachable host leaves: the timings are the
    binary64 numbers nearest to 1.234, 2.345 and 3.456 milliseconds. *)
Lemma unix_timings_are_read_witness :
  Ping.ping_result false "10.0.0.1" 4 5
    (Ping.Completed 0
       ("4 packets transmitted, 4 received, 0% packet loss, time 3004ms" ++ newline
        ++ "rtt min/avg/max/mdev = 1.234/2.345/3.456/0.567 ms") "")
  = Ping.mkPingResult "10.0.0.1" true 4 4 (Ping.NFloat (FNum (inject_Z 0)))
      (Some (FNum (Qmake 694680242521899 562949953421312)))
      (Some (FNum (Qmake 5280470563091907 2251799813685248)))
      (Some (FNum (Qmake 7782220156096217 2251799813685248)))
      None
  /\ Qeq (read_decimal 1 (Decimal.D2 (Decimal.D3 (Decimal.D4 Decimal.Nil))))
         (Qmake 1234 1000).
Proof.
  split; [| reflexivity].
  refine (proj2 (proj2 (proj2 (proj2
            (unix_timings_are_read 1 2 3 0
               (Decimal.D2 (Decimal.D3 (Decimal.D4 Decimal.Nil)))
               (Decimal.D3 (Decimal.D4 (Decimal.D5 Decimal.Nil)))
               (Decimal.D4 (Decimal.D5 (Decimal.D6 Decimal.Nil)))
               (Decimal.D5 (Decimal.D6 (Decimal.D7 Decimal.Nil)))))))
            4%Z 4%Z 0%Z ", time 3004ms" "10.0.0.1" 4%Z 5%Z "" _ _ eq_refl);
    vm_compute; discriminate.
Defined.
